(** * Hand-gesture 3D controller: gesture recognition core

    A shallow embedding of the gesture classifiers, the precision tracker,
    the mode-toggle timer and the action dispatcher of the controller,
    with the properties of their specification.

    Conventions of the embedding:
    - a Python [float] is a real number ([R]); [np.sqrt] and
      [np.linalg.norm] are the real square root and Euclidean norm;
    - a comparison of floats is a boolean ([Py.ltb], [Py.leb], [Py.eqb]);
    - a landmark [[x, y, z]] is a [Vec3]; a hand frame is a list of
      landmarks, and [landmarks[i]] on a list that is too short raises
      [IndexError], which is [None] in the [option] monad;
    - the wall clock ([time.time()]) and the frame time ([time.dt]) are
      arguments of the functions that read them;
    - calls to the renderer, the audio and the UI are recorded as a trace
      of [Call]s;
    - an ursina [Entity] is a record of the attributes that the CAD system
      reads or writes, and the scene maps references to entities, so that
      an object that the selection holds twice is one object. *)

From Stdlib Require Import Reals Lra Lia List String Ascii Bool Arith Sorted ZArith.
Import ListNotations.
Open Scope string_scope.
Open Scope list_scope.
Open Scope R_scope.

(** ** Python and NumPy primitives *)

Module Py.

Definition ltb (a b : R) : bool := if Rlt_dec a b then true else false.
Definition leb (a b : R) : bool := if Rle_dec a b then true else false.
Definition gtb (a b : R) : bool := ltb b a.
Definition eqb (a b : R) : bool := if Req_dec_T a b then true else false.

(** [a if a < b else b]: Python's [min] of two floats. *)
Definition min (a b : R) : R := if ltb b a then b else a.

Definition bind {A B : Type} (m : option A) (f : A -> option B) : option B :=
  match m with
  | Some a => f a
  | None => None
  end.

(** [l[i]], raising [IndexError] out of range. *)
Definition getitem {A : Type} (l : list A) (i : nat) : option A := nth_error l i.

(** [l[i] = v] on a list (in range wherever the program uses it). *)
Fixpoint setitem {A : Type} (l : list A) (i : nat) (v : A) : list A :=
  match l, i with
  | [], _ => []
  | _ :: tl, O => v :: tl
  | h :: tl, S j => h :: setitem tl j v
  end.

(** [sum] of a list of booleans: the number of [True]s. *)
Fixpoint sum_bool (l : list bool) : nat :=
  match l with
  | [] => 0
  | b :: tl => (if b then 1 else 0) + sum_bool tl
  end.

Fixpoint sum (l : list R) : R :=
  match l with
  | [] => 0
  | x :: tl => x + sum tl
  end.

(** [np.mean] of a non-empty list of floats. *)
Definition mean (l : list R) : R := sum l / INR (List.length l).

(** A [dict] with string keys, in insertion order. *)
Definition dict (V : Type) : Type := list (string * V).

Fixpoint dict_get {V : Type} (d : dict V) (k : string) : option V :=
  match d with
  | [] => None
  | (k', v) :: tl => if String.eqb k k' then Some v else dict_get tl k
  end.

(** [d[k] = v]: an existing key keeps its position, a new one goes last. *)
Fixpoint dict_set {V : Type} (d : dict V) (k : string) (v : V) : dict V :=
  match d with
  | [] => [(k, v)]
  | (k', v') :: tl =>
      if String.eqb k k' then (k', v) :: tl else (k', v') :: dict_set tl k v
  end.

(** [max(items, key=lambda x: x[1])]: the first item of maximal value. *)
Fixpoint max_from {K : Type} (best : K * R) (items : list (K * R)) : K * R :=
  match items with
  | [] => best
  | it :: tl => max_from (if gtb (snd it) (snd best) then it else best) tl
  end.

Definition max_by_value {K : Type} (items : list (K * R)) : option (K * R) :=
  match items with
  | [] => None
  | it :: tl => Some (max_from it tl)
  end.

(** A [dict] with integer keys, in insertion order. *)
Definition idict (V : Type) : Type := list (nat * V).

Fixpoint idict_get {V : Type} (d : idict V) (k : nat) : option V :=
  match d with
  | [] => None
  | (k', v) :: tl => if Nat.eqb k k' then Some v else idict_get tl k
  end.

Fixpoint idict_set {V : Type} (d : idict V) (k : nat) (v : V) : idict V :=
  match d with
  | [] => [(k, v)]
  | (k', v') :: tl =>
      if Nat.eqb k k' then (k', v) :: tl else (k', v') :: idict_set tl k v
  end.

(** A [for] loop over [l] that threads [acc] and stops at the first
    exception. *)
Fixpoint for_each {A S : Type} (l : list A) (acc : S) (body : S -> A -> option S)
  : option S :=
  match l with
  | [] => Some acc
  | a :: tl =>
      match body acc a with
      | Some acc' => for_each tl acc' body
      | None => None
      end
  end.

(** [[f(i) for i in l]] *)
Fixpoint comprehension {A B : Type} (f : A -> option B) (l : list A)
  : option (list B) :=
  match l with
  | [] => Some []
  | a :: tl =>
      match f a with
      | Some b =>
          match comprehension f tl with
          | Some bs => Some (b :: bs)
          | None => None
          end
      | None => None
      end
  end.

End Py.

Notation "x <- m ;; f" := (Py.bind m (fun x => f))
  (at level 61, m at next level, right associativity).
Notation "l .[ i ]" := (Py.getitem l i) (at level 1, format "l .[ i ]").
Infix "<?" := Py.ltb : R_scope.
Infix "<=?" := Py.leb : R_scope.
Infix ">?" := Py.gtb (at level 70) : R_scope.
Infix "=?" := Py.eqb : R_scope.

(** ** Landmarks and vectors *)

Record Vec2 := mkVec2 { v2x : R; v2y : R }.
Record Vec3 := mkVec3 { lx : R; ly : R; lz : R }.

Definition Landmark := Vec3.
Definition Frame := list Landmark.

Module Np.

(** [np.array([l[0], l[1]])] *)
Definition xy (l : Landmark) : Vec2 := mkVec2 (lx l) (ly l).

Definition sub2 (a b : Vec2) : Vec2 := mkVec2 (v2x a - v2x b) (v2y a - v2y b).
Definition div2 (a : Vec2) (k : R) : Vec2 := mkVec2 (v2x a / k) (v2y a / k).
Definition dot2 (a b : Vec2) : R := v2x a * v2x b + v2y a * v2y b.
Definition norm2 (a : Vec2) : R := sqrt (v2x a ^ 2 + v2y a ^ 2).

Definition add3 (a b : Vec3) : Vec3 := mkVec3 (lx a + lx b) (ly a + ly b) (lz a + lz b).
Definition sub3 (a b : Vec3) : Vec3 := mkVec3 (lx a - lx b) (ly a - ly b) (lz a - lz b).
Definition div3 (a : Vec3) (k : R) : Vec3 := mkVec3 (lx a / k) (ly a / k) (lz a / k).
Definition norm3 (a : Vec3) : R := sqrt (lx a ^ 2 + ly a ^ 2 + lz a ^ 2).
Definition cross (a b : Vec3) : Vec3 :=
  mkVec3 (ly a * lz b - lz a * ly b)
         (lz a * lx b - lx a * lz b)
         (lx a * ly b - ly a * lx b).

(** [np.mean(points, axis=0)] *)
Definition mean3 (l : list Vec3) : Vec3 :=
  mkVec3 (Py.mean (map lx l)) (Py.mean (map ly l)) (Py.mean (map lz l)).

End Np.

(** ** gesture_system.py *)

Module GestureSystem.

Record t := mk {
  current_gesture : string;
  gesture_confidence : Py.dict R;
  gesture_history : list (string * R);
  max_history : nat;
  last_gesture_time : R;
  gesture_cooldown : R
}.

(** The classifier as [__init__] leaves it. *)
Definition init : t := mk "none" [] [] 10 0 1.

Definition with_confidence (self : t) (c : Py.dict R) : t :=
  mk (current_gesture self) c (gesture_history self) (max_history self)
     (last_gesture_time self) (gesture_cooldown self).

Definition with_history (self : t) (h : list (string * R)) (last : R) : t :=
  mk (current_gesture self) (gesture_confidence self) h (max_history self)
     last (gesture_cooldown self).

Definition is_thumb_extended (landmarks : Frame) : option bool :=
  thumb_tip <- landmarks.[4] ;;
  thumb_mcp <- landmarks.[2] ;;
  wrist <- landmarks.[0] ;;
  let wrist_to_mcp := mkVec2 (lx thumb_mcp - lx wrist) (ly thumb_mcp - ly wrist) in
  let mcp_to_tip := mkVec2 (lx thumb_tip - lx thumb_mcp) (ly thumb_tip - ly thumb_mcp) in
  let wrist_to_mcp_norm := Np.norm2 wrist_to_mcp in
  let mcp_to_tip_norm := Np.norm2 mcp_to_tip in
  if (wrist_to_mcp_norm >? 0) && (mcp_to_tip_norm >? 0) then
    let wrist_to_mcp := Np.div2 wrist_to_mcp wrist_to_mcp_norm in
    let mcp_to_tip := Np.div2 mcp_to_tip mcp_to_tip_norm in
    let dot_product := Np.dot2 wrist_to_mcp mcp_to_tip in
    Some (dot_product >? 7/10)
  else Some false.

(** The five extension flags, in the order of [finger_states]. *)
Record Fingers := mkFingers {
  thumb_extended : bool;
  index_extended : bool;
  middle_extended : bool;
  ring_extended : bool;
  pinky_extended : bool
}.

Definition finger_states (f : Fingers) : list bool :=
  [thumb_extended f; index_extended f; middle_extended f; ring_extended f;
   pinky_extended f].

(** Lines 25-46 of [detect_gesture]: the key points, the extension flags
    and the pinch distance. *)
Definition measure (landmarks : Frame) : option (Fingers * R) :=
  wrist <- landmarks.[0] ;;
  thumb_tip <- landmarks.[4] ;;
  thumb_mcp <- landmarks.[2] ;;
  index_tip <- landmarks.[8] ;;
  index_pip <- landmarks.[6] ;;
  middle_tip <- landmarks.[12] ;;
  middle_pip <- landmarks.[10] ;;
  ring_tip <- landmarks.[16] ;;
  ring_pip <- landmarks.[14] ;;
  pinky_tip <- landmarks.[20] ;;
  pinky_pip <- landmarks.[18] ;;
  let thumb_tip := Np.xy thumb_tip in
  let index_tip := Np.xy index_tip in
  let index_pip := Np.xy index_pip in
  let middle_tip := Np.xy middle_tip in
  let middle_pip := Np.xy middle_pip in
  let ring_tip := Np.xy ring_tip in
  let ring_pip := Np.xy ring_pip in
  let pinky_tip := Np.xy pinky_tip in
  let pinky_pip := Np.xy pinky_pip in
  thumb_extended <- is_thumb_extended landmarks ;;
  let index_extended := v2y index_tip <? v2y index_pip in
  let middle_extended := v2y middle_tip <? v2y middle_pip in
  let ring_extended := v2y ring_tip <? v2y ring_pip in
  let pinky_extended := v2y pinky_tip <? v2y pinky_pip in
  let d := Np.sub2 thumb_tip index_tip in
  let pinch_distance := sqrt (Py.sum [v2x d ^ 2; v2y d ^ 2]) in
  Some (mkFingers thumb_extended index_extended middle_extended ring_extended
                  pinky_extended, pinch_distance).

Definition no_confidence : Py.dict R :=
  [("fist", 0); ("thumbs_up", 0); ("peace", 0); ("open_palm", 0);
   ("pinch", 0); ("rock_sign", 0)].

(** Lines 49-83: the six scoring rules, each evaluated on its own. *)
Definition score (f : Fingers) (pinch_distance : R) : Py.dict R :=
  let is_pinching := pinch_distance <? 5/100 in
  let confidences := no_confidence in
  let confidences :=
    if (Py.sum_bool (finger_states f) <=? 1)%nat
    then Py.dict_set confidences "fist" (8/10) else confidences in
  let confidences :=
    if thumb_extended f && negb (index_extended f) && negb (middle_extended f)
       && negb (ring_extended f) && negb (pinky_extended f)
    then Py.dict_set confidences "thumbs_up" (9/10) else confidences in
  let confidences :=
    if negb (thumb_extended f) && index_extended f && middle_extended f
       && negb (ring_extended f) && negb (pinky_extended f)
    then Py.dict_set confidences "peace" (9/10) else confidences in
  let confidences :=
    if (4 <=? Py.sum_bool (finger_states f))%nat
    then Py.dict_set confidences "open_palm" (9/10) else confidences in
  let confidences :=
    if is_pinching
    then Py.dict_set confidences "pinch" (8/10) else confidences in
  let confidences :=
    if index_extended f && negb (middle_extended f) && negb (ring_extended f)
       && pinky_extended f
    then Py.dict_set confidences "rock_sign" (8/10) else confidences in
  confidences.

(** Lines 93-99: the throttled, bounded history. *)
Definition remember (self : t) (gesture : string) (now : R) : t :=
  if now - last_gesture_time self >? gesture_cooldown self then
    let history := gesture_history self ++ [(gesture, now)] in
    let history :=
      if (max_history self <? List.length history)%nat then tl history else history in
    with_history self history now
  else self.

(** [detect_gesture(landmarks)], with the clock reading [now] that
    [time.time()] returns if the call gets that far. *)
Definition detect_gesture (self : t) (landmarks : Frame) (now : R)
  : option (string * t) :=
  match landmarks with
  | [] => Some ("none", self)
  | _ =>
      m <- measure landmarks ;;
      let confidences := score (fst m) (snd m) in
      let self := with_confidence self confidences in
      best_gesture <- Py.max_by_value confidences ;;
      if snd best_gesture >? 5/10 then
        let gesture := fst best_gesture in
        Some (gesture, remember self gesture now)
      else Some ("unknown", self)
  end.

(** The calls of a session in order, each with its frame and its clock
    reading: the gestures returned and the classifier at the end. *)
Fixpoint detect_all (self : t) (calls : list (Frame * R))
  : option (list string * t) :=
  match calls with
  | [] => Some ([], self)
  | (landmarks, now) :: tl =>
      r <- detect_gesture self landmarks now ;;
      r' <- detect_all (snd r) tl ;;
      Some (fst r :: fst r', snd r')
  end.

(** A frame that the classifier can index: none at all, or 21 landmarks. *)
Definition valid (landmarks : Frame) : Prop :=
  landmarks = [] \/ List.length landmarks = 21%nat.

(** The time of the latest append, 0 before the first. *)
Definition latest_append (self : t) : R :=
  last (map snd (gesture_history self)) 0.

End GestureSystem.

(** ** precision_tracking.py *)

Module PrecisionTracking.

Definition Quat : Type := R * R * R * R.

(** The Kalman filter (filterpy) and the rotation conversion (scipy) are
    libraries outside the repository: the tracker is parametrised by
    them.  [kf_make] is the filter as [_initialize_kalman_filters]
    configures it, [kf_x] reads [x[:3]], and [as_quat a b c] is
    [Rotation.from_matrix(np.column_stack((a, b, c))).as_quat()]. *)
Record Libs := mkLibs {
  KalmanFilter : Type;
  kf_make : KalmanFilter;
  kf_predict : KalmanFilter -> KalmanFilter;
  kf_update : KalmanFilter -> Vec3 -> KalmanFilter;
  kf_x : KalmanFilter -> Vec3;
  as_quat : Vec3 -> Vec3 -> Vec3 -> Quat
}.

(** The result of [update]. *)
Record Data := mkData {
  landmarks : Frame;
  velocities : option (Py.idict Vec3);
  stable_palm : Vec3;
  hand_orientation : Quat
}.

(** An entry of the mapping that [detect_precise_gestures] returns. *)
Inductive Entry :=
| Pointing (confidence : R) (position : Vec3) (direction : Vec3)
| Pinching (confidence : R) (position : Vec3) (strength : R)
| Scaling (confidence : R) (scale_factor : R)
| Tool (tool : string) (confidence : R).

Definition fingertips : list nat := [4; 8; 12; 16; 20]%nat.

Definition is_thumb_extended (landmarks : Frame) : option bool :=
  thumb_tip <- landmarks.[4] ;;
  thumb_ip <- landmarks.[3] ;;
  thumb_mcp <- landmarks.[2] ;;
  wrist <- landmarks.[0] ;;
  let wrist_to_mcp := mkVec2 (lx thumb_mcp - lx wrist) (ly thumb_mcp - ly wrist) in
  let mcp_to_tip := mkVec2 (lx thumb_tip - lx thumb_mcp) (ly thumb_tip - ly thumb_mcp) in
  if (Np.norm2 wrist_to_mcp >? 0) && (Np.norm2 mcp_to_tip >? 0) then
    let wrist_to_mcp := Np.div2 wrist_to_mcp (Np.norm2 wrist_to_mcp) in
    let mcp_to_tip := Np.div2 mcp_to_tip (Np.norm2 mcp_to_tip) in
    let dot_product := Np.dot2 wrist_to_mcp mcp_to_tip in
    Some (dot_product >? 7/10)
  else Some false.

(** [landmarks[tip][1] < landmarks[base][1]] *)
Definition above (landmarks : Frame) (tip base : nat) : option bool :=
  t <- landmarks.[tip] ;;
  b <- landmarks.[base] ;;
  Some (ly t <? ly b).

(** The [if]/[elif] chain of [detect_tool_selection_gesture], on the five
    flags. *)
Definition ladder (thumb_extended index_extended middle_extended ring_extended
                   pinky_extended : bool) : option (string * R) :=
  if index_extended && negb middle_extended && negb ring_extended
     && negb pinky_extended
  then Some ("select", 9/10)
  else if index_extended && middle_extended && negb ring_extended
          && negb pinky_extended
  then Some ("create", 9/10)
  else if index_extended && middle_extended && ring_extended
          && negb pinky_extended
  then Some ("move", 9/10)
  else if index_extended && middle_extended && ring_extended && pinky_extended
  then Some ("scale", 9/10)
  else if thumb_extended && index_extended && negb middle_extended
          && negb ring_extended && pinky_extended
  then Some ("rotate", 9/10)
  else if index_extended && negb middle_extended && negb ring_extended
          && pinky_extended && negb thumb_extended
  then Some ("extrude", 9/10)
  else None.

Definition detect_tool_selection_gesture (landmarks : Frame)
  : option (option (string * R)) :=
  thumb_extended <- is_thumb_extended landmarks ;;
  index_extended <- above landmarks 8 5 ;;
  middle_extended <- above landmarks 12 9 ;;
  ring_extended <- above landmarks 16 13 ;;
  pinky_extended <- above landmarks 20 17 ;;
  Some (ladder thumb_extended index_extended middle_extended ring_extended
               pinky_extended).

Definition _is_index_precision_pointing (landmarks : Frame)
    (velocities : Py.idict Vec3) : option bool :=
  index_extended <- above landmarks 8 5 ;;
  middle <- above landmarks 12 9 ;;
  ring <- above landmarks 16 13 ;;
  pinky <- above landmarks 20 17 ;;
  let middle_closed := negb middle in
  let ring_closed := negb ring in
  let pinky_closed := negb pinky in
  let pointing := index_extended && middle_closed && ring_closed && pinky_closed in
  let stable :=
    match Py.idict_get velocities 8 with
    | Some v => Np.norm3 v <? 1/100
    | None => false
    end in
  Some (pointing && stable).

(** [tip - pip], normalised; [(0, 0, 1)] when it has no length or a
    landmark is missing (the [except] clause). *)
Definition direction_of (landmarks : Frame) (tip pip : nat) : Vec3 :=
  match landmarks.[tip], landmarks.[pip] with
  | Some t, Some p =>
      let direction := Np.sub3 t p in
      let mag := Np.norm3 direction in
      if mag >? 0 then Np.div3 direction mag else mkVec3 0 0 1
  | _, _ => mkVec3 0 0 1
  end.

Definition _get_pointing_direction (landmarks : Frame) : Vec3 :=
  direction_of landmarks 8 6.

Definition _get_middle_direction (landmarks : Frame) : Vec3 :=
  direction_of landmarks 12 10.

Definition _measure_pinch (landmarks : Frame) : option R :=
  thumb_tip <- landmarks.[4] ;;
  index_tip <- landmarks.[8] ;;
  let distance := Np.norm3 (Np.sub3 thumb_tip index_tip) in
  Some distance.

(** The loop over [range(len(tip_positions) - 1)]. *)
Fixpoint adjacent_distances (tip_positions : list Vec3) : list R :=
  match tip_positions with
  | a :: (b :: _) as tl => Np.norm3 (Np.sub3 a b) :: adjacent_distances tl
  | _ => []
  end.

Definition _measure_finger_spread (landmarks : Frame) : option R :=
  let tips := [8; 12; 16; 20]%nat in
  tip_positions <- Py.comprehension (Py.getitem landmarks) tips ;;
  let distances := adjacent_distances tip_positions in
  match distances with
  | [] => Some 0
  | _ => Some (Py.mean distances)
  end.

Definition _is_three_finger_control (landmarks : Frame) : option bool :=
  index_extended <- above landmarks 8 5 ;;
  middle_extended <- above landmarks 12 9 ;;
  ring_extended <- above landmarks 16 13 ;;
  pinky <- above landmarks 20 17 ;;
  let pinky_closed := negb pinky in
  Some (index_extended && middle_extended && ring_extended && pinky_closed).

Definition detect_precise_gestures (data : option Data)
  : option (Py.dict Entry) :=
  match data with
  | None => Some []
  | Some data =>
      let landmarks := landmarks data in
      let velocities :=
        match velocities data with Some v => v | None => [] end in
      let gestures : Py.dict Entry := [] in
      pointing <- _is_index_precision_pointing landmarks velocities ;;
      gestures <-
        (if pointing then
           position <- landmarks.[8] ;;
           Some (Py.dict_set gestures "precision_point"
                   (Pointing (9/10) position (_get_pointing_direction landmarks)))
         else Some gestures) ;;
      pinch_degree <- _measure_pinch landmarks ;;
      gestures <-
        (if pinch_degree <? 5/100 then
           thumb_tip <- landmarks.[4] ;;
           index_tip <- landmarks.[8] ;;
           Some (Py.dict_set gestures "pinch"
                   (Pinching (9/10) (Np.div3 (Np.add3 thumb_tip index_tip) 2)
                             (1 - pinch_degree * 20)))
         else Some gestures) ;;
      spread <- _measure_finger_spread landmarks ;;
      let gestures :=
        Py.dict_set gestures "spread_scale"
          (Scaling (if spread >? 3/10 then 7/10 else 0) (spread * 3)) in
      three <- _is_three_finger_control landmarks ;;
      gestures <-
        (if three then
           position <- landmarks.[12] ;;
           Some (Py.dict_set gestures "three_finger_control"
                   (Pointing (8/10) position (_get_middle_direction landmarks)))
         else Some gestures) ;;
      tool_gesture <- detect_tool_selection_gesture landmarks ;;
      let gestures :=
        match tool_gesture with
        | Some (tool, confidence) =>
            Py.dict_set gestures "tool_selection" (Tool tool confidence)
        | None => gestures
        end in
      Some gestures
  end.

(** *** The tracker and its [update] *)

Section Tracker.

Variable L : Libs.

(** The fields that [update] reads or writes. *)
Record t := mk {
  prev_landmarks : option Frame;
  landmark_history : list Frame;
  history_max : nat;
  filters : Py.idict (KalmanFilter L)
}.

Definition _initialize_kalman_filters : Py.idict (KalmanFilter L) :=
  fold_left (fun filters i => Py.idict_set filters i (kf_make L)) fingertips [].

(** The tracker as [__init__] leaves it. *)
Definition init : t := mk None [] 5 _initialize_kalman_filters.

Definition _get_stable_palm (landmarks : Frame) : option Vec3 :=
  let palm_points := [0; 1; 5; 9; 13; 17]%nat in
  points <- Py.comprehension (Py.getitem landmarks) palm_points ;;
  Some (Np.mean3 points).

Definition identity_quat : Quat := (0, 0, 0, 1).

Definition _calculate_hand_orientation (landmarks : Frame) : Quat :=
  match landmarks.[0], landmarks.[9], landmarks.[17] with
  | Some wrist, Some middle_base, Some pinky_base =>
      let v1 := Np.sub3 middle_base wrist in
      let v2 := Np.sub3 pinky_base wrist in
      let v1_norm := Np.norm3 v1 in
      let v2_norm := Np.norm3 v2 in
      if (v1_norm >? 0) && (v2_norm >? 0) then
        let v1 := Np.div3 v1 v1_norm in
        let v2 := Np.div3 v2 v2_norm in
        let normal := Np.cross v1 v2 in
        let normal_norm := Np.norm3 normal in
        if normal_norm >? 0 then
          let normal := Np.div3 normal normal_norm in
          as_quat L v1 (Np.cross normal v1) normal
        else identity_quat
      else identity_quat
  | _, _, _ => identity_quat
  end.

(** One round of the filtering loop, for fingertip [i]. *)
Definition filter_fingertip (landmarks : Frame)
    (acc : Py.idict (KalmanFilter L) * Frame) (i : nat)
  : option (Py.idict (KalmanFilter L) * Frame) :=
  let (filters, filtered_landmarks) := acc in
  p <- landmarks.[i] ;;
  let pos := mkVec3 (lx p) (ly p) (lz p) in
  kf <- Py.idict_get filters i ;;
  let kf := kf_update L (kf_predict L kf) pos in
  let filtered_pos := kf_x L kf in
  Some (Py.idict_set filters i kf,
        Py.setitem filtered_landmarks i
          (mkVec3 (lx filtered_pos) (ly filtered_pos) (lz filtered_pos))).

(** One round of the velocity loop, for fingertip [i]. *)
Definition velocity_of (filtered_landmarks prev : Frame)
    (velocities : Py.idict Vec3) (i : nat) : option (Py.idict Vec3) :=
  curr <- filtered_landmarks.[i] ;;
  prev <- prev.[i] ;;
  Some (Py.idict_set velocities i (Np.sub3 curr prev)).

(** [update(landmarks)]: the tracker after the call and the value
    returned; [landmarks = None] when no hand is given. *)
Definition update (self : t) (landmarks : option Frame)
  : option (t * option Data) :=
  match landmarks with
  | None => Some (self, None)
  | Some landmarks =>
      let history := landmark_history self ++ [landmarks] in
      let history :=
        if (history_max self <? List.length history)%nat
        then tl history else history in
      let filtered_landmarks := landmarks in
      acc <- Py.for_each fingertips (filters self, filtered_landmarks)
               (filter_fingertip landmarks) ;;
      let (filters, filtered_landmarks) := acc : _ * Frame in
      let velocities : Py.idict Vec3 := [] in
      velocities <-
        match prev_landmarks self with
        | Some prev =>
            Py.for_each fingertips velocities
              (velocity_of filtered_landmarks prev)
        | None => Some velocities
        end ;;
      let self := mk (Some filtered_landmarks) history (history_max self) filters in
      palm <- _get_stable_palm filtered_landmarks ;;
      Some (self,
            Some (mkData filtered_landmarks (Some velocities) palm
                    (_calculate_hand_orientation filtered_landmarks)))
  end.

(** The tracker fed the frames of a session in order, [None] standing
    for a tick without a hand; the value returned by the last call. *)
Fixpoint run (self : t) (inputs : list (option Frame)) (last : option Data)
  : option (t * option Data) :=
  match inputs with
  | [] => Some (self, last)
  | i :: tl =>
      match update self i with
      | Some (self', out) => run self' tl out
      | None => None
      end
  end.

End Tracker.

End PrecisionTracking.

(** ** controller.py *)

Module Controller.

(** Calls into the collaborators: the 3D scene, the audio, the UI and the
    CAD session. *)
Inductive Call :=
| spawn_drone
| shoot_bullet
| spawn_box
| rotate_all_objects
| create_explosion
| play_sound_effect (sound_type : string)
| cad_toggle_active
| update_ui_for_mode (mode : string).

(** The fields that the dispatcher and the mode toggle read or write;
    [cad_active] is [cad_system.active], [action_display_text] is
    [action_display.text]. *)
Record t := mk {
  last_action_time : R;
  action_cooldown : R;
  camera_control_active : bool;
  action_display_text : string;
  mode_toggle_cooldown : R;
  mode_toggle_cooldown_time : R;
  cad_active : bool
}.

(** The controller as [__init__] leaves it: the hold time is assigned 2.0
    and then 1.0, the text is the one [setup_ui] gives the action display,
    and the CAD session starts inactive. *)
Definition init : t := mk 0 (8/10) false "Waiting for gesture..." 0 1 false.

Definition set_text (self : t) (text : string) : t :=
  mk (last_action_time self) (action_cooldown self) (camera_control_active self)
     text (mode_toggle_cooldown self) (mode_toggle_cooldown_time self)
     (cad_active self).

Definition set_last_action_time (self : t) (now : R) : t :=
  mk now (action_cooldown self) (camera_control_active self)
     (action_display_text self) (mode_toggle_cooldown self)
     (mode_toggle_cooldown_time self) (cad_active self).

Definition set_camera_control_active (self : t) (b : bool) : t :=
  mk (last_action_time self) (action_cooldown self) b
     (action_display_text self) (mode_toggle_cooldown self)
     (mode_toggle_cooldown_time self) (cad_active self).

Definition set_mode_toggle_cooldown (self : t) (c : R) : t :=
  mk (last_action_time self) (action_cooldown self) (camera_control_active self)
     (action_display_text self) c (mode_toggle_cooldown_time self)
     (cad_active self).

Definition set_cad_active (self : t) (b : bool) : t :=
  mk (last_action_time self) (action_cooldown self) (camera_control_active self)
     (action_display_text self) (mode_toggle_cooldown self)
     (mode_toggle_cooldown_time self) b.

(** [execute_gesture_action(gesture)], with [current_time] the reading of
    [time.time()]: the controller after the call and the calls made. *)
Definition execute_gesture_action (self : t) (gesture : string) (current_time : R)
  : t * list Call :=
  if (current_time - last_action_time self <? action_cooldown self)
     && negb (gesture =? "open_palm")%string
  then (self, [])
  else if (gesture =? "fist")%string then
    (set_last_action_time (set_text self "DRONE DEPLOYED!") current_time,
     [spawn_drone; play_sound_effect "drone"])
  else if (gesture =? "peace")%string then
    (set_last_action_time (set_text self "BULLET FIRED!") current_time,
     [shoot_bullet; play_sound_effect "shoot"])
  else if (gesture =? "pinch")%string then
    (set_last_action_time (set_text self "BOX SPAWNED!") current_time,
     [spawn_box; play_sound_effect "spawn"])
  else if (gesture =? "thumbs_up")%string then
    (set_last_action_time (set_text self "OBJECTS ROTATED!") current_time,
     [rotate_all_objects])
  else if (gesture =? "rock_sign")%string then
    (set_last_action_time (set_text self "EXPLOSION!") current_time,
     [create_explosion; play_sound_effect "explode"])
  else if (gesture =? "open_palm")%string then
    (set_camera_control_active (set_text self "CAMERA CONTROL ACTIVE") true, [])
  else
    (set_last_action_time (set_camera_control_active self false) current_time, []).

(** The gestures of a session delivered in order, each with its clock
    reading. *)
Fixpoint execute_all (self : t) (gestures : list (string * R)) : t * list Call :=
  match gestures with
  | [] => (self, [])
  | (g, now) :: tl =>
      let (self, calls) := execute_gesture_action self g now in
      let (self, calls') := execute_all self tl in
      (self, calls ++ calls')
  end.

(** The calls that carry out an action of the scene (the sounds that go
    with them apart). *)
Definition is_action (c : Call) : bool :=
  match c with
  | spawn_drone | shoot_bullet | spawn_box | rotate_all_objects
  | create_explosion => true
  | _ => false
  end.

Definition dispatched (calls : list Call) : nat :=
  List.length (filter is_action calls).

Definition toggle_cad_mode (self : t) : t * list Call :=
  let self := set_cad_active self (negb (cad_active self)) in
  if cad_active self then
    (set_text self "CAD MODE ACTIVATED",
     [cad_toggle_active; update_ui_for_mode "cad"; play_sound_effect "toggle"])
  else
    (set_text self "NORMAL MODE ACTIVATED",
     [cad_toggle_active; update_ui_for_mode "normal"; play_sound_effect "toggle"]).

(** The pose test at the head of [check_for_mode_toggle]. *)
Definition all_extended (landmarks : Frame) : option bool :=
  thumb_extended <- GestureSystem.is_thumb_extended landmarks ;;
  index_extended <- PrecisionTracking.above landmarks 8 5 ;;
  middle_extended <- PrecisionTracking.above landmarks 12 9 ;;
  ring_extended <- PrecisionTracking.above landmarks 16 13 ;;
  pinky_extended <- PrecisionTracking.above landmarks 20 17 ;;
  Some (thumb_extended && index_extended && middle_extended && ring_extended
        && pinky_extended).

(** The timer of [check_for_mode_toggle], given the pose and [time.dt]. *)
Definition mode_toggle_step (self : t) (all_extended : bool) (dt : R)
  : t * list Call :=
  if all_extended then
    if mode_toggle_cooldown self >? 0 then
      let self := set_mode_toggle_cooldown self (mode_toggle_cooldown self - dt) in
      if mode_toggle_cooldown self <=? 0 then
        let (self, calls) := toggle_cad_mode self in
        (set_mode_toggle_cooldown self (- mode_toggle_cooldown_time self), calls)
      else (self, [])
    else if mode_toggle_cooldown self =? 0 then
      (set_text (set_mode_toggle_cooldown self (mode_toggle_cooldown_time self))
                "HOLD TO SWITCH MODES...", [])
    else (self, [])
  else
    if mode_toggle_cooldown self >? 0 then
      (set_mode_toggle_cooldown self 0, [])
    else if mode_toggle_cooldown self <? 0 then
      (set_mode_toggle_cooldown self
         (Py.min 0 (mode_toggle_cooldown self + dt)), [])
    else (self, []).

Definition check_for_mode_toggle (self : t) (landmarks : Frame) (dt : R)
  : option (t * list Call) :=
  pose <- all_extended landmarks ;;
  Some (mode_toggle_step self pose dt).

(** The frames of a session checked in order, each with its [time.dt]. *)
Fixpoint check_all (self : t) (frames : list (Frame * R))
  : option (t * list Call) :=
  match frames with
  | [] => Some (self, [])
  | (landmarks, dt) :: tl =>
      r <- check_for_mode_toggle self landmarks dt ;;
      r' <- check_all (fst r) tl ;;
      Some (fst r', snd r ++ snd r')
  end.

(** The timer alone over the frames of a session, each given by its
    pose and its [time.dt]. *)
Fixpoint step_all (self : t) (steps : list (bool * R)) : t * list Call :=
  match steps with
  | [] => (self, [])
  | (pose, dt) :: tl =>
      let r := mode_toggle_step self pose dt in
      let r' := step_all (fst r) tl in
      (fst r', snd r ++ snd r')
  end.

(** Every frame of the list shows the pose ([pose = true]) or none of
    them does. *)
Definition posed (pose : bool) (frames : list (Frame * R)) : Prop :=
  Forall (fun f => all_extended (fst f) = Some pose) frames.

(** The time that passes over the frames of the list. *)
Definition elapsed (frames : list (Frame * R)) : R := Py.sum (map snd frames).

Definition is_toggle (c : Call) : bool :=
  match c with
  | cad_toggle_active => true
  | _ => false
  end.

Definition toggle_events (calls : list Call) : nat :=
  List.length (filter is_toggle calls).

(** The three states of the timer. *)
Definition Idle (self : t) : Prop := mode_toggle_cooldown self = 0.
Definition Arming (self : t) : Prop := mode_toggle_cooldown self > 0.
Definition Cooling (self : t) : Prop := mode_toggle_cooldown self < 0.

End Controller.

(** ** The documented rules, in the words of the specification *)

Module Documented.

Import GestureSystem.

Definition gestures : list string :=
  ["fist"; "thumbs_up"; "peace"; "open_palm"; "pinch"; "rock_sign"].

(** The predicate column of the table of coarse gestures. *)
Definition predicate (g : string) (f : Fingers) (pinch_distance : R) : bool :=
  let extended := Py.sum_bool (finger_states f) in
  if (g =? "fist")%string then (extended <=? 1)%nat
  else if (g =? "thumbs_up")%string then
    thumb_extended f && negb (index_extended f || middle_extended f
                              || ring_extended f || pinky_extended f)
  else if (g =? "peace")%string then
    index_extended f && middle_extended f
    && negb (thumb_extended f || ring_extended f || pinky_extended f)
  else if (g =? "open_palm")%string then (4 <=? extended)%nat
  else if (g =? "pinch")%string then pinch_distance <? 5/100
  else if (g =? "rock_sign")%string then
    index_extended f && pinky_extended f
    && negb (middle_extended f) && negb (ring_extended f)
  else false.

(** The confidence column. *)
Definition confidence (g : string) : R :=
  if (g =? "fist")%string then 8/10
  else if (g =? "thumbs_up")%string then 9/10
  else if (g =? "peace")%string then 9/10
  else if (g =? "open_palm")%string then 9/10
  else if (g =? "pinch")%string then 8/10
  else if (g =? "rock_sign")%string then 8/10
  else 0.

(** The flags and the distance match the predicate of [g] and of no
    other gesture. *)
Definition matches_only (g : string) (f : Fingers) (pinch_distance : R) : bool :=
  predicate g f pinch_distance
  && forallb (fun g' => (g' =? g)%string || negb (predicate g' f pinch_distance))
             gestures.

(** The Euclidean distance of two landmarks over x, y and z. *)
Definition euclidean3 (a b : Landmark) : R :=
  sqrt ((lx a - lx b) ^ 2 + (ly a - ly b) ^ 2 + (lz a - lz b) ^ 2).

(** The Euclidean distance of two landmarks in the image plane. *)
Definition euclidean2 (a b : Landmark) : R :=
  sqrt ((lx a - lx b) ^ 2 + (ly a - ly b) ^ 2).

(** The mean distance between adjacent fingertips among index, middle,
    ring and pinky. *)
Definition mean_adjacent_distance (index middle ring pinky : Landmark) : R :=
  (euclidean3 index middle + euclidean3 middle ring + euclidean3 ring pinky) / 3.

Definition tools : list string :=
  ["select"; "create"; "move"; "scale"; "rotate"; "extrude"].

(** The six patterns of the tool-selection ladder. *)
Definition tool_pattern (tool : string) (thumb index middle ring pinky : bool)
  : bool :=
  if (tool =? "select")%string
  then index && negb middle && negb ring && negb pinky
  else if (tool =? "create")%string
  then index && middle && negb ring && negb pinky
  else if (tool =? "move")%string
  then index && middle && ring && negb pinky
  else if (tool =? "scale")%string
  then index && middle && ring && pinky
  else if (tool =? "rotate")%string
  then thumb && index && pinky && negb middle && negb ring
  else if (tool =? "extrude")%string
  then index && pinky && negb thumb && negb middle && negb ring
  else false.

End Documented.

(** ** Hand frames used as concrete inputs *)

Module Hands.

(** A finger other than the thumb as a column at abscissa [x]: MCP, PIP,
    DIP and tip, the tip above the joints when [up] and below them when
    curled. *)
Definition finger (x : R) (up : bool) : list Landmark :=
  [mkVec3 x (6/10) 0; mkVec3 x (5/10) 0; mkVec3 x (4/10) 0;
   mkVec3 x (if up then 3/10 else 65/100) 0].

(** The wrist and the thumb (CMC, MCP, IP, tip): the tip in line with
    wrist and MCP when [up], folded sideways otherwise. *)
Definition wrist_and_thumb (up : bool) : list Landmark :=
  [mkVec3 (3/10) (9/10) 0; mkVec3 (3/10) (85/100) 0; mkVec3 (3/10) (8/10) 0;
   mkVec3 (3/10) (75/100) 0;
   if up then mkVec3 (3/10) (7/10) 0 else mkVec3 (4/10) (8/10) 0].

Definition hand (thumb index middle ring pinky : bool) : Frame :=
  wrist_and_thumb thumb ++ finger (45/100) index ++ finger (5/10) middle
  ++ finger (55/100) ring ++ finger (6/10) pinky.

(** Only the thumb extended. *)
Definition thumb_only : Frame := hand true false false false false.

(** Everything curled. *)
Definition closed : Frame := hand false false false false false.

(** Index and pinky extended, with and without the thumb. *)
Definition phone : Frame := hand true true false false true.
Definition rock : Frame := hand false true false false true.

(** Index pointing. *)
Definition point : Frame := hand false true false false false.

(** [frame] with landmark [i] replaced. *)
Definition move (frame : Frame) (i : nat) (p : Landmark) : Frame :=
  Py.setitem frame i p.

(** Thumb tip and index tip at the same place of the image, one unit
    apart in depth. *)
Definition depth_apart : Frame :=
  move (move closed 4 (mkVec3 (4/10) (8/10) 0)) 8 (mkVec3 (4/10) (8/10) 1).

(** Thumb tip and index tip [d] apart along x, at the same height and
    depth. *)
Definition apart (d : R) : Frame :=
  move (move closed 4 (mkVec3 (4/10) (8/10) 0)) 8 (mkVec3 (4/10 + d) (8/10) 0).

(** A stand-in for the filter library, to run the tracker on concrete
    frames: the estimate is the latest measurement. *)
Definition latest_measurement : PrecisionTracking.Libs :=
  PrecisionTracking.mkLibs Vec3 (mkVec3 0 0 0) (fun kf => kf) (fun _ pos => pos)
    (fun kf => kf) (fun _ _ _ => (0, 0, 0, 1)).

(** Tracking data around a frame, with no velocity known. *)
Definition tracked (frame : Frame) : PrecisionTracking.Data :=
  PrecisionTracking.mkData frame (Some []) (mkVec3 0 0 0) (0, 0, 0, 1).

End Hands.

(** ** Invariants *)

(** What every call of [detect_gesture] preserves: the capacity and the
    cooldown of the constructor, a history within the capacity, and
    [last_gesture_time] the time of the latest append. *)
Definition history_invariant (self : GestureSystem.t) : Prop :=
  GestureSystem.max_history self = 10%nat /\
  GestureSystem.gesture_cooldown self = 1 /\
  (List.length (GestureSystem.gesture_history self) <= 10)%nat /\
  GestureSystem.last_gesture_time self = GestureSystem.latest_append self.

(** What every [update] of the tracker preserves: a filter for each
    fingertip, and a previous frame, once there is one, of 21 landmarks. *)
Definition tracker_invariant (L : PrecisionTracking.Libs)
    (self : PrecisionTracking.t L) : Prop :=
  (forall i, In i PrecisionTracking.fingertips ->
     exists kf, Py.idict_get (PrecisionTracking.filters L self) i = Some kf) /\
  (forall prev, PrecisionTracking.prev_landmarks L self = Some prev ->
     List.length prev = 21%nat).

(** ** What the coarse classifier amounts to *)

Module Coarse.

Import GestureSystem.

(** The order in which the six rules win: the rules of confidence 0.9
    first (no two of them hold together), then the rules of confidence
    0.8 in the order of the dictionary. *)
Definition winner (f : Fingers) (pinch_distance : R) : string :=
  if (4 <=? Py.sum_bool (finger_states f))%nat then "open_palm"
  else if thumb_extended f && negb (index_extended f) && negb (middle_extended f)
          && negb (ring_extended f) && negb (pinky_extended f)
  then "thumbs_up"
  else if negb (thumb_extended f) && index_extended f && middle_extended f
          && negb (ring_extended f) && negb (pinky_extended f)
  then "peace"
  else if (Py.sum_bool (finger_states f) <=? 1)%nat then "fist"
  else if pinch_distance <? 5/100 then "pinch"
  else if index_extended f && negb (middle_extended f) && negb (ring_extended f)
          && pinky_extended f
  then "rock_sign"
  else "unknown".

(** Each entry is more than one second after the one before it. *)
Definition spaced (history : list (string * R)) : Prop :=
  Sorted (fun a b => snd b - snd a > 1) history.

(** The frame seen [k] times larger and moved by [v] in the image. *)
Definition placed (k : R) (v : Vec3) (landmarks : Frame) : Frame :=
  map (fun p => mkVec3 (k * lx p + lx v) (k * ly p + ly v) (k * lz p + lz v))
      landmarks.

End Coarse.

(** ** Sessions of the tracker *)

Module Tracking.

(** The last [n] elements of a list. *)
Definition lastn {A : Type} (n : nat) (l : list A) : list A :=
  skipn (List.length l - n) l.

(** The frames among the inputs of a session, in order. *)
Fixpoint frames_of (inputs : list (option Frame)) : list Frame :=
  match inputs with
  | [] => []
  | Some fr :: tl => fr :: frames_of tl
  | None :: tl => frames_of tl
  end.

End Tracking.

(** ** Built-ins and ursina primitives of the CAD mode *)

Module Builtins.

(** [max(a, b)] of two floats: [b] when it is larger, [a] otherwise. *)
Definition max (a b : R) : R := if a <? b then b else a.

(** [round(x)]: the nearest integer, a tie going to the even one. *)
Definition round (x : R) : Z :=
  let n := Int_part x in
  let r := frac_part x in
  if r <? 1/2 then n
  else if 1/2 <? r then (n + 1)%Z
  else if Z.even n then n else (n + 1)%Z.

Definition upper_char (c : ascii) : ascii :=
  let n := nat_of_ascii c in
  if ((97 <=? n) && (n <=? 122))%nat then ascii_of_nat (n - 32) else c.

(** [s.upper()] on ASCII text. *)
Fixpoint upper (s : string) : string :=
  match s with
  | EmptyString => EmptyString
  | String c tl => String (upper_char c) (upper tl)
  end.

(** [x in l] *)
Definition contains (l : list string) (x : string) : bool :=
  existsb (String.eqb x) l.

(** [l.index(x)], raising [ValueError] when [x] is not in [l]. *)
Fixpoint index (l : list string) (x : string) : option nat :=
  match l with
  | [] => None
  | y :: tl => if String.eqb x y then Some 0%nat else option_map S (index tl x)
  end.

(** [k in d] on a [dict]. *)
Definition has_key {V : Type} (d : Py.dict V) (k : string) : bool :=
  match Py.dict_get d k with
  | Some _ => true
  | None => false
  end.

End Builtins.

(** ** The entries of a gesture's mapping *)

Module Entries.

Import PrecisionTracking.

(** [e["confidence"]] and the like; [None] is a [KeyError]. *)
Definition confidence_of (e : Entry) : R :=
  match e with
  | Pointing c _ _ | Pinching c _ _ | Scaling c _ | Tool _ c => c
  end.

Definition position_of (e : Entry) : option Vec3 :=
  match e with
  | Pointing _ p _ | Pinching _ p _ => Some p
  | _ => None
  end.

Definition direction_of (e : Entry) : option Vec3 :=
  match e with
  | Pointing _ _ d => Some d
  | _ => None
  end.

Definition tool_of (e : Entry) : option string :=
  match e with
  | Tool tool _ => Some tool
  | _ => None
  end.

Definition scale_factor_of (e : Entry) : option R :=
  match e with
  | Scaling _ f => Some f
  | _ => None
  end.

Definition strength_of (e : Entry) : option R :=
  match e with
  | Pinching _ _ s => Some s
  | _ => None
  end.

End Entries.

Module Ursina.

(** The attributes of an [Entity] that the CAD operations read or write;
    [original_color] is the attribute that the selection adds. *)
Record Entity := mkEntity {
  position : Vec3;
  scale : Vec3;
  rotation_y : R;
  color : string;
  original_color : option string;
  model_name : string
}.

(** The entities alive, by reference. *)
Definition Scene : Type := Py.idict Entity.

(** An assignment to attributes of the entity that [obj] refers to. *)
Definition modify (scene : Scene) (obj : nat) (f : Entity -> Entity) : Scene :=
  match Py.idict_get scene obj with
  | Some e => Py.idict_set scene obj (f e)
  | None => scene
  end.

(** [lerp(a, b, t)] *)
Definition lerp (a b t : R) : R := a + (b - a) * t.

(** A [Text] of the screen. *)
Record Text := mkText {
  text : string;
  visible : bool
}.

End Ursina.

(** ** The CAD system *)

Module CADSystem.

Import Ursina.

Record t := mk {
  active : bool;
  current_tool : string;
  primitive_type : string;
  selected_objects : list nat;
  grid_visible : bool;
  grid_size : R;
  snap_to_grid : bool;
  grid_entities : list bool;
  last_tool_use : Py.dict R;
  tool_cooldown : R;
  tool_display : Text;
  primitive_display : Text;
  help_text : Text
}.

(** The system as [__init__] leaves it: the 42 lines of the grid are
    there and hidden. *)
Definition init : t :=
  mk false "select" "box" [] false (5/10) true (repeat false 42) [] 1
     (mkText "CAD MODE: OFF" false) (mkText "PRIMITIVE: BOX" false)
     (mkText "GESTURE CONTROLS:
1 FINGER - Select | 2 FINGERS - Create | 3 FINGERS - Move
4 FINGERS - Scale | THUMB+INDEX+PINKY - Rotate | ROCK - Extrude" false).

Definition set_active (self : t) (b : bool) : t :=
  mk b (current_tool self) (primitive_type self) (selected_objects self)
     (grid_visible self) (grid_size self) (snap_to_grid self) (grid_entities self)
     (last_tool_use self) (tool_cooldown self) (tool_display self)
     (primitive_display self) (help_text self).

Definition set_current_tool (self : t) (tool : string) : t :=
  mk (active self) tool (primitive_type self) (selected_objects self)
     (grid_visible self) (grid_size self) (snap_to_grid self) (grid_entities self)
     (last_tool_use self) (tool_cooldown self) (tool_display self)
     (primitive_display self) (help_text self).

Definition set_primitive_type (self : t) (primitive : string) : t :=
  mk (active self) (current_tool self) primitive (selected_objects self)
     (grid_visible self) (grid_size self) (snap_to_grid self) (grid_entities self)
     (last_tool_use self) (tool_cooldown self) (tool_display self)
     (primitive_display self) (help_text self).

Definition set_selected_objects (self : t) (objs : list nat) : t :=
  mk (active self) (current_tool self) (primitive_type self) objs
     (grid_visible self) (grid_size self) (snap_to_grid self) (grid_entities self)
     (last_tool_use self) (tool_cooldown self) (tool_display self)
     (primitive_display self) (help_text self).

Definition set_grid (self : t) (b : bool) (entities : list bool) : t :=
  mk (active self) (current_tool self) (primitive_type self) (selected_objects self)
     b (grid_size self) (snap_to_grid self) entities
     (last_tool_use self) (tool_cooldown self) (tool_display self)
     (primitive_display self) (help_text self).

Definition set_last_tool_use (self : t) (d : Py.dict R) : t :=
  mk (active self) (current_tool self) (primitive_type self) (selected_objects self)
     (grid_visible self) (grid_size self) (snap_to_grid self) (grid_entities self)
     d (tool_cooldown self) (tool_display self)
     (primitive_display self) (help_text self).

Definition set_tool_display (self : t) (d : Text) : t :=
  mk (active self) (current_tool self) (primitive_type self) (selected_objects self)
     (grid_visible self) (grid_size self) (snap_to_grid self) (grid_entities self)
     (last_tool_use self) (tool_cooldown self) d
     (primitive_display self) (help_text self).

Definition set_primitive_display (self : t) (d : Text) : t :=
  mk (active self) (current_tool self) (primitive_type self) (selected_objects self)
     (grid_visible self) (grid_size self) (snap_to_grid self) (grid_entities self)
     (last_tool_use self) (tool_cooldown self) (tool_display self)
     d (help_text self).

Definition set_help_text (self : t) (d : Text) : t :=
  mk (active self) (current_tool self) (primitive_type self) (selected_objects self)
     (grid_visible self) (grid_size self) (snap_to_grid self) (grid_entities self)
     (last_tool_use self) (tool_cooldown self) (tool_display self)
     (primitive_display self) d.

Definition set_visible (d : Text) (b : bool) : Text := mkText (text d) b.
Definition set_text (d : Text) (s : string) : Text := mkText s (visible d).

(** [toggle_grid_visibility(state)]; [state = None] flips the grid. *)
Definition toggle_grid_visibility (self : t) (state : option bool) : t :=
  let grid_visible :=
    match state with
    | Some state => state
    | None => negb (grid_visible self)
    end in
  set_grid self grid_visible (map (fun _ => grid_visible) (grid_entities self)).

Definition set_tool (self : t) (tool_name : string) : t :=
  let self := set_current_tool self tool_name in
  set_tool_display self
    (set_text (tool_display self) ("CAD TOOL: " ++ Builtins.upper tool_name)).

(** The body of the loop of [clear_selection]. *)
Definition restore_color (e : Entity) : Entity :=
  match original_color e with
  | Some c =>
      mkEntity (position e) (scale e) (rotation_y e) c (original_color e)
               (model_name e)
  | None => e
  end.

Definition clear_selection (self : t) (scene : Scene) : t * Scene :=
  let scene :=
    fold_left (fun scene obj => modify scene obj restore_color)
              (selected_objects self) scene in
  (set_selected_objects self [], scene).

Definition toggle_active (self : t) (scene : Scene) : t * Scene :=
  let self := set_active self (negb (active self)) in
  if active self then
    let self := set_tool_display self (set_visible (tool_display self) true) in
    let self := set_primitive_display self (set_visible (primitive_display self) true) in
    let self := set_help_text self (set_visible (help_text self) true) in
    let self := set_tool self "select" in
    (toggle_grid_visibility self (Some true), scene)
  else
    let self := set_tool_display self (set_visible (tool_display self) false) in
    let self := set_primitive_display self (set_visible (primitive_display self) false) in
    let self := set_help_text self (set_visible (help_text self) false) in
    let self := toggle_grid_visibility self (Some false) in
    clear_selection self scene.

Definition primitives : list string := ["box"; "sphere"; "cylinder"; "pyramid"].

Definition cycle_primitive (self : t) : option t :=
  current_index <-
    (if Builtins.contains primitives (primitive_type self)
     then Builtins.index primitives (primitive_type self)
     else Some 0%nat) ;;
  primitive <- primitives.[(current_index + 1) mod List.length primitives] ;;
  let self := set_primitive_type self primitive in
  Some (set_primitive_display self
          (set_text (primitive_display self)
                 ("PRIMITIVE: " ++ Builtins.upper (primitive_type self)))).

(** [can_use_tool(tool_name)], with [now] the reading of [time.time()]. *)
Definition can_use_tool (self : t) (tool_name : string) (now : R) : t * bool :=
  let self :=
    match Py.dict_get (last_tool_use self) tool_name with
    | Some _ => self
    | None => set_last_tool_use self (Py.dict_set (last_tool_use self) tool_name 0)
    end in
  match Py.dict_get (last_tool_use self) tool_name with
  | Some last =>
      if now - last >? tool_cooldown self
      then (set_last_tool_use self (Py.dict_set (last_tool_use self) tool_name now),
            true)
      else (self, false)
  | None => (self, false)
  end.

(** [snap_position_to_grid(position)]; a grid of size 0 raises
    [ZeroDivisionError]. *)
Definition snap (grid_size x : R) : R := IZR (Builtins.round (x / grid_size)) * grid_size.

Definition snap_position_to_grid (self : t) (position : Vec3) : option Vec3 :=
  if grid_size self =? 0 then None
  else Some (mkVec3 (snap (grid_size self) (lx position))
                    (snap (grid_size self) (ly position))
                    (snap (grid_size self) (lz position))).

(** The limits of [scale_selected_objects]. *)
Definition clamp (x : R) : R := Builtins.max (1/10) (Py.min 5 x).

Definition scaled (scale_factor dt : R) (e : Entity) : Entity :=
  let k := 1 + (scale_factor - 1) * dt * 2 in
  let target_scale :=
    mkVec3 (lx (scale e) * k) (ly (scale e) * k) (lz (scale e) * k) in
  let target_scale :=
    mkVec3 (clamp (lx target_scale)) (clamp (ly target_scale))
           (clamp (lz target_scale)) in
  mkEntity (position e) target_scale (rotation_y e) (color e) (original_color e)
           (model_name e).

(** [scale_selected_objects(scale_factor)], with [dt] the reading of
    [time.dt]. *)
Definition scale_selected_objects (self : t) (scene : Scene)
    (scale_factor dt : R) : Scene :=
  match selected_objects self with
  | [] => scene
  | objs => fold_left (fun scene obj => modify scene obj (scaled scale_factor dt))
                      objs scene
  end.

Definition rotated (rotation : R) (e : Entity) : Entity :=
  mkEntity (position e) (scale e) (rotation_y e + rotation) (color e)
           (original_color e) (model_name e).

Definition rotate_selected_objects (self : t) (scene : Scene)
    (control_data : PrecisionTracking.Entry) : option Scene :=
  match selected_objects self with
  | [] => Some scene
  | objs =>
      position <- Entries.position_of control_data ;;
      direction <- Entries.direction_of control_data ;;
      let rotation_y := (lx position - 5/10) * 5 in
      Some (fold_left (fun scene obj => modify scene obj (rotated rotation_y))
                      objs scene)
  end.

Definition extruded (height strength dt : R) (e : Entity) : Entity :=
  if (model_name e =? "cube")%string then
    let current_height := ly (scale e) in
    let target_height := Builtins.max (1/10) (height * strength * 2) in
    let new_height := lerp current_height target_height (dt * 3) in
    let scale := mkVec3 (lx (scale e)) new_height (lz (scale e)) in
    let height_diff := (new_height - current_height) / 2 in
    mkEntity (mkVec3 (lx (position e)) (ly (position e) + height_diff)
                     (lz (position e)))
             scale (rotation_y e) (color e) (original_color e) (model_name e)
  else e.

(** [extrude_selected_faces(position, strength)], with [dt] the reading
    of [time.dt]. *)
Definition extrude_selected_faces (self : t) (scene : Scene) (position : Vec3)
    (strength dt : R) : Scene :=
  match selected_objects self with
  | [] => scene
  | objs =>
      let height := ly position in
      fold_left (fun scene obj => modify scene obj (extruded height strength dt))
                objs scene
  end.

End CADSystem.

(** ** The controller in CAD mode *)

Module CadController.

Import PrecisionTracking Entries.

(** The operations that [handle_cad_gestures] asks of the CAD system and
    of the sound effects. *)
Inductive Op :=
| select_object_at (position : Vec3)
| place_object_at (position : Vec3)
| move_selected_objects (position : Vec3)
| scale_selected_objects (scale_factor : R)
| rotate_selected_objects (control_data : Entry)
| extrude_selected_faces (position : Vec3) (strength : R)
| play_sound_effect (name : string).

Definition hand_to_world_position (hand_pos : Vec3) : Vec3 :=
  let x := (lx hand_pos - 5/10) * 20 in
  let y := (5/10 - ly hand_pos) * 15 in
  let z := lz hand_pos * 10 in
  mkVec3 x y z.

(** [handle_cad_gestures(precision_data)]: the CAD system after the call,
    the operations asked for and the value returned. *)
Definition handle_cad_gestures (cad : CADSystem.t) (precision_data : option Data)
  : option (CADSystem.t * list Op * option (Py.dict Entry)) :=
  match precision_data with
  | None => Some (cad, [], None)
  | Some _ =>
      gestures <- detect_precise_gestures precision_data ;;
      r <- (match Py.dict_get gestures "tool_selection" with
            | Some tool_data =>
                if confidence_of tool_data >? 8/10 then
                  tool <- tool_of tool_data ;;
                  Some (CADSystem.set_tool cad tool, [play_sound_effect "toggle"])
                else Some (cad, [])
            | None => Some (cad, [])
            end) ;;
      let (cad, sounds) := r : CADSystem.t * list Op in
      let current_tool := CADSystem.current_tool cad in
      ops <-
        (if (current_tool =? "select")%string
            && Builtins.has_key gestures "precision_point" then
           point_data <- Py.dict_get gestures "precision_point" ;;
           if confidence_of point_data >? 8/10 then
             position <- position_of point_data ;;
             Some [select_object_at (hand_to_world_position position)]
           else Some []
         else if (current_tool =? "create")%string
                 && Builtins.has_key gestures "precision_point" then
           point_data <- Py.dict_get gestures "precision_point" ;;
           if confidence_of point_data >? 8/10 then
             position <- position_of point_data ;;
             Some [place_object_at (hand_to_world_position position)]
           else Some []
         else if (current_tool =? "move")%string
                 && Builtins.has_key gestures "pinch" then
           pinch_data <- Py.dict_get gestures "pinch" ;;
           if confidence_of pinch_data >? 8/10 then
             position <- position_of pinch_data ;;
             Some [move_selected_objects (hand_to_world_position position)]
           else Some []
         else if (current_tool =? "scale")%string
                 && Builtins.has_key gestures "spread_scale" then
           scale_data <- Py.dict_get gestures "spread_scale" ;;
           if confidence_of scale_data >? 5/10 then
             scale_factor <- scale_factor_of scale_data ;;
             Some [scale_selected_objects scale_factor]
           else Some []
         else if (current_tool =? "rotate")%string
                 && Builtins.has_key gestures "three_finger_control" then
           control_data <- Py.dict_get gestures "three_finger_control" ;;
           if confidence_of control_data >? 7/10 then
             Some [rotate_selected_objects control_data]
           else Some []
         else if (current_tool =? "extrude")%string
                 && Builtins.has_key gestures "pinch" then
           pinch_data <- Py.dict_get gestures "pinch" ;;
           if confidence_of pinch_data >? 8/10 then
             position <- position_of pinch_data ;;
             strength <- strength_of pinch_data ;;
             Some [extrude_selected_faces (hand_to_world_position position) strength]
           else Some []
         else Some []) ;;
      Some (cad, sounds ++ ops, Some gestures)
  end.


(** The operations on the objects of the scene, the sounds apart. *)
Definition is_operation (op : Op) : bool :=
  match op with
  | play_sound_effect _ => false
  | _ => true
  end.

End CadController.

(** ** Sessions of the mode toggle *)

Module Session.

Import Controller.

(** The time for which the pose has still to be released and then held
    before the toggle can fire: the rest of the hold when the timer is
    armed, the hold time otherwise, after the rest of the cooldown. *)
Definition time_to_toggle (self : t) : R :=
  if mode_toggle_cooldown self >? 0 then mode_toggle_cooldown self
  else mode_toggle_cooldown_time self - mode_toggle_cooldown self.

(** The timer is within the hold time of 0, either way. *)
Definition timer_in_range (self : t) : Prop :=
  - mode_toggle_cooldown_time self <= mode_toggle_cooldown self
  <= mode_toggle_cooldown_time self.

End Session.

(** * Properties *)

(** ** Comparisons and square roots *)

Lemma ltb_true (a b : R) : a < b -> (a <? b) = true.
Proof. intros H. unfold Py.ltb. destruct (Rlt_dec a b); [reflexivity | contradiction]. Qed.

Lemma ltb_false (a b : R) : b <= a -> (a <? b) = false.
Proof. intros H. unfold Py.ltb. destruct (Rlt_dec a b); [lra | reflexivity]. Qed.

Lemma ltb_spec (a b : R) : (a <? b) = true <-> a < b.
Proof.
  unfold Py.ltb. destruct (Rlt_dec a b); split; intros; try easy.
Qed.

Lemma leb_true (a b : R) : a <= b -> (a <=? b) = true.
Proof. intros H. unfold Py.leb. destruct (Rle_dec a b); [reflexivity | contradiction]. Qed.

Lemma leb_false (a b : R) : b < a -> (a <=? b) = false.
Proof. intros H. unfold Py.leb. destruct (Rle_dec a b); [lra | reflexivity]. Qed.

Lemma eqb_true (a b : R) : a = b -> (a =? b) = true.
Proof. intros H. unfold Py.eqb. destruct (Req_dec_T a b); [reflexivity | contradiction]. Qed.

Lemma eqb_false (a b : R) : a <> b -> (a =? b) = false.
Proof. intros H. unfold Py.eqb. destruct (Req_dec_T a b); [contradiction | reflexivity]. Qed.

(** Decide every comparison of the goal that linear arithmetic settles. *)
Ltac compare :=
  unfold Py.gtb, Py.min;
  repeat first
    [ progress cbn [fst snd]
    | match goal with
      | |- context [Py.ltb ?a ?b] =>
          first [ rewrite (ltb_true a b) by lra | rewrite (ltb_false a b) by lra ]
      | |- context [Py.leb ?a ?b] =>
          first [ rewrite (leb_true a b) by lra | rewrite (leb_false a b) by lra ]
      | |- context [Py.eqb ?a ?b] =>
          first [ rewrite (eqb_true a b) by lra | rewrite (eqb_false a b) by lra ]
      end ].

(** Evaluate on concrete numbers. *)
Ltac evaluate :=
  repeat (progress (cbn; unfold Np.dot2, Np.div2, Np.sub2, Np.xy; cbn; compare)).

Lemma sqrt_ltb (x c : R) : 0 <= x -> 0 < c -> (sqrt x <? c) = (x <? c * c).
Proof.
  intros Hx Hc.
  destruct (Rlt_dec x (c * c)) as [H | H].
  - rewrite (ltb_true x) by assumption. apply ltb_true.
    rewrite <- (sqrt_square c) by lra. apply sqrt_lt_1_alt. lra.
  - rewrite (ltb_false x) by lra. apply ltb_false.
    rewrite <- (sqrt_square c) by lra. apply sqrt_le_1_alt. lra.
Qed.

(** ** Frames of 21 landmarks *)

Lemma getitem_total {A : Type} (l : list A) (i : nat) :
  (i < List.length l)%nat -> exists a, l.[i] = Some a.
Proof.
  intros H. unfold Py.getitem. destruct (nth_error l i) eqn:E; eauto.
  apply nth_error_None in E. lia.
Qed.

(** Name the 21 landmarks of a frame. *)
Ltac explode fr H :=
  do 21 (destruct fr as [| ? fr]; [discriminate H |]);
  destruct fr; [clear H | discriminate H].

Lemma gs_is_thumb_extended_total (fr : Frame) :
  (4 < List.length fr)%nat -> exists b, GestureSystem.is_thumb_extended fr = Some b.
Proof.
  intros H. unfold GestureSystem.is_thumb_extended.
  destruct (getitem_total fr 4) as [a4 ->]; [lia |].
  destruct (getitem_total fr 2) as [a2 ->]; [lia |].
  destruct (getitem_total fr 0) as [a0 ->]; [lia |].
  cbn [Py.bind]. destruct (_ && _); eauto.
Qed.

Lemma measure_total (fr : Frame) :
  List.length fr = 21%nat -> exists f d, GestureSystem.measure fr = Some (f, d).
Proof.
  intros H. unfold GestureSystem.measure.
  destruct (gs_is_thumb_extended_total fr) as [b Hb]; [lia |].
  rewrite Hb. clear Hb.
  explode fr H. cbn. eauto.
Qed.

(** ** The coarse classifier *)

Arguments Py.ltb : simpl never.
Arguments Py.leb : simpl never.
Arguments Py.gtb : simpl never.
Arguments Py.eqb : simpl never.

Lemma detect_gesture_measured (self : GestureSystem.t) (fr : Frame) (now : R)
    (f : GestureSystem.Fingers) (d : R) :
  GestureSystem.measure fr = Some (f, d) ->
  GestureSystem.detect_gesture self fr now =
    (best <- Py.max_by_value (GestureSystem.score f d) ;;
     if snd best >? 5/10
     then Some (fst best,
                GestureSystem.remember
                  (GestureSystem.with_confidence self (GestureSystem.score f d))
                  (fst best) now)
     else Some ("unknown",
                GestureSystem.with_confidence self (GestureSystem.score f d))).
Proof.
  intros H. destruct fr as [| l fr]; [discriminate H |].
  unfold GestureSystem.detect_gesture. rewrite H. reflexivity.
Qed.

Lemma remember_confidence (self : GestureSystem.t) (g : string) (now : R) :
  GestureSystem.gesture_confidence (GestureSystem.remember self g now)
  = GestureSystem.gesture_confidence self.
Proof.
  unfold GestureSystem.remember. destruct (_ >? _); reflexivity.
Qed.

(** The winner and the scores for flags and a distance that match one
    predicate only. *)
Lemma score_exclusive (f : GestureSystem.Fingers) (d : R) (g : string) :
  In g Documented.gestures ->
  Documented.matches_only g f d = true ->
  g <> "thumbs_up" /\
  Py.max_by_value (GestureSystem.score f d) = Some (g, Documented.confidence g) /\
  Py.dict_get (GestureSystem.score f d) g = Some (Documented.confidence g) /\
  forall g', In g' Documented.gestures -> g' <> g ->
             Py.dict_get (GestureSystem.score f d) g' = Some 0.
Proof.
  intros Hin Hm.
  unfold Documented.matches_only, Documented.predicate in Hm.
  unfold GestureSystem.score.
  destruct (d <? 5/100);
    destruct f as [[] [] [] [] []];
    cbn in Hin;
    repeat (destruct Hin as [<- | Hin]; [| try contradiction]);
    try discriminate Hm.
  all: cbn in Hm; try discriminate Hm.
  all: split; [discriminate |].
  all: cbn; compare.
  all: split; [reflexivity |]; split; [reflexivity |].
  all: intros g' Hg' Hne; cbn in Hg'.
  all: repeat (destruct Hg' as [<- | Hg']; [| try contradiction]).
  all: first [reflexivity | contradiction].
Qed.

(** Only the thumb extended: the rule of the fist fires as well. *)
Lemma score_thumbs_up (f : GestureSystem.Fingers) (d : R) :
  Documented.predicate "thumbs_up" f d = true ->
  Documented.predicate "fist" f d = true /\
  Py.max_by_value (GestureSystem.score f d) = Some ("thumbs_up", 9/10) /\
  Py.dict_get (GestureSystem.score f d) "thumbs_up" = Some (9/10) /\
  Py.dict_get (GestureSystem.score f d) "fist" = Some (8/10) /\
  Py.dict_get (GestureSystem.score f d) "peace" = Some 0 /\
  Py.dict_get (GestureSystem.score f d) "open_palm" = Some 0 /\
  Py.dict_get (GestureSystem.score f d) "rock_sign" = Some 0 /\
  Py.dict_get (GestureSystem.score f d) "pinch"
  = Some (if d <? 5/100 then 8/10 else 0).
Proof.
  intros H. unfold Documented.predicate in H. unfold GestureSystem.score.
  destruct f as [[] [] [] [] []]; cbn in H; try discriminate H.
  destruct (d <? 5/100); cbn; compare; repeat split; reflexivity.
Qed.

Lemma norm2_eq (v : Vec2) (n : R) :
  0 <= n -> v2x v ^ 2 + v2y v ^ 2 = n ^ 2 -> Np.norm2 v = n.
Proof.
  intros Hn H. unfold Np.norm2. rewrite H. apply sqrt_pow2. exact Hn.
Qed.

Lemma thumb_of_hand (up : bool) (rest : list Landmark) :
  GestureSystem.is_thumb_extended (Hands.wrist_and_thumb up ++ rest) = Some up.
Proof.
  unfold GestureSystem.is_thumb_extended.
  destruct up; cbn [Hands.wrist_and_thumb app Py.getitem nth_error Py.bind lx ly].
  - rewrite !(norm2_eq _ (1/10)) by (cbn; lra).
    evaluate. reflexivity.
  - rewrite !(norm2_eq _ (1/10)) by (cbn; lra).
    evaluate. reflexivity.
Qed.

Lemma thumb_same (fr : Frame) :
  (3 < List.length fr)%nat ->
  PrecisionTracking.is_thumb_extended fr = GestureSystem.is_thumb_extended fr.
Proof.
  intros H. unfold PrecisionTracking.is_thumb_extended, GestureSystem.is_thumb_extended.
  destruct (getitem_total fr 3) as [a3 ->]; [lia |].
  destruct (fr.[4]); reflexivity.
Qed.

(** The flags of a constructed hand are the ones it was built with, and
    its thumb and index tips are not pinched. *)
Lemma measure_hand (t i m r p : bool) :
  exists d,
    GestureSystem.measure (Hands.hand t i m r p)
    = Some (GestureSystem.mkFingers t i m r p, d)
    /\ (d <? 5/100) = false.
Proof.
  unfold GestureSystem.measure, Hands.hand.
  rewrite thumb_of_hand.
  destruct t, i, m, r, p; cbn; compare; eexists; (split; [reflexivity |]).
  all: rewrite sqrt_ltb by lra; compare; reflexivity.
Qed.

(** What [detect_gesture] returns when the rules have a winner. *)
Lemma detect_gesture_winner (self : GestureSystem.t) (fr : Frame) (now : R)
    (f : GestureSystem.Fingers) (d : R) (g : string) (c : R) :
  GestureSystem.measure fr = Some (f, d) ->
  Py.max_by_value (GestureSystem.score f d) = Some (g, c) ->
  5/10 < c ->
  GestureSystem.detect_gesture self fr now
  = Some (g, GestureSystem.remember
               (GestureSystem.with_confidence self (GestureSystem.score f d)) g now).
Proof.
  intros Hm Hmax Hc. rewrite (detect_gesture_measured _ _ _ _ _ Hm), Hmax.
  cbn [Py.bind fst snd]. compare. reflexivity.
Qed.

Lemma documented_confidence_high (g : string) :
  In g Documented.gestures -> 5/10 < Documented.confidence g.
Proof.
  intros H. cbn in H.
  repeat (destruct H as [<- | H]; [cbn; lra |]). contradiction.
Qed.

(** C2 (amended): for fist, peace, open_palm, pinch and rock_sign, every
    frame of 21 landmarks whose extension flags and pinch distance match
    the predicate of that gesture and of no other makes [detect_gesture]
    return that gesture, with its documented confidence and confidence 0
    for the other five.  No frame matches the predicate of thumbs_up only:
    with only the thumb extended the rule of the fist fires too, so
    thumbs_up is returned with 0.9 while fist has 0.8, peace, open_palm and
    rock_sign have 0 and pinch has 0.8 or 0 by the pinch distance. *)
Theorem coarse_gesture_exclusivity (self : GestureSystem.t) (fr : Frame) (now : R) :
  List.length fr = 21%nat ->
  exists f d,
    GestureSystem.measure fr = Some (f, d) /\
    (forall g, In g Documented.gestures ->
       Documented.matches_only g f d = true ->
       g <> "thumbs_up" /\
       exists self',
         GestureSystem.detect_gesture self fr now = Some (g, self') /\
         Py.dict_get (GestureSystem.gesture_confidence self') g
         = Some (Documented.confidence g) /\
         forall g', In g' Documented.gestures -> g' <> g ->
           Py.dict_get (GestureSystem.gesture_confidence self') g' = Some 0) /\
    (Documented.predicate "thumbs_up" f d = true ->
       Documented.predicate "fist" f d = true /\
       exists self',
         GestureSystem.detect_gesture self fr now = Some ("thumbs_up", self') /\
         let confidence := Py.dict_get (GestureSystem.gesture_confidence self') in
         confidence "thumbs_up" = Some (9/10) /\
         confidence "fist" = Some (8/10) /\
         confidence "peace" = Some 0 /\
         confidence "open_palm" = Some 0 /\
         confidence "rock_sign" = Some 0 /\
         confidence "pinch" = Some (if d <? 5/100 then 8/10 else 0)).
Proof.
  intros Hlen. destruct (measure_total fr Hlen) as [f [d Hm]].
  exists f, d. split; [exact Hm |]. split.
  - intros g Hin Hg.
    destruct (score_exclusive f d g Hin Hg) as [Hne [Hmax [Hc H0]]].
    split; [exact Hne |]. eexists. split.
    + apply (detect_gesture_winner _ _ _ _ _ _ _ Hm Hmax).
      apply documented_confidence_high, Hin.
    + rewrite remember_confidence. cbn [GestureSystem.with_confidence
        GestureSystem.gesture_confidence]. split; assumption.
  - intros Ht.
    destruct (score_thumbs_up f d Ht) as [Hf [Hmax H]].
    split; [exact Hf |]. eexists. split.
    + apply (detect_gesture_winner _ _ _ _ _ _ _ Hm Hmax). lra.
    + cbv zeta. rewrite remember_confidence. cbn [GestureSystem.with_confidence
        GestureSystem.gesture_confidence]. exact H.
Qed.

(** The closed hand matches the predicate of fist only. *)
Lemma coarse_gesture_exclusivity_witness :
  List.length Hands.closed = 21%nat /\
  exists self',
    GestureSystem.detect_gesture GestureSystem.init Hands.closed 1000
    = Some ("fist", self') /\
    Py.dict_get (GestureSystem.gesture_confidence self') "fist" = Some (8/10) /\
    forall g', In g' Documented.gestures -> g' <> "fist" ->
      Py.dict_get (GestureSystem.gesture_confidence self') g' = Some 0.
Proof.
  split; [reflexivity |].
  destruct (coarse_gesture_exclusivity GestureSystem.init Hands.closed 1000 eq_refl)
    as [f [d [Hm [H _]]]].
  destruct (measure_hand false false false false false) as [d' [Hm' Hp]].
  fold Hands.closed in Hm'. rewrite Hm' in Hm. injection Hm as <- <-.
  destruct (H "fist") as [_ Hfist].
  - cbn. tauto.
  - unfold Documented.matches_only, Documented.predicate. cbn. rewrite Hp.
    reflexivity.
  - exact Hfist.
Defined.

(** C2 as stated fails for thumbs_up: the hand with only the thumb
    extended matches the predicate of thumbs_up, and [detect_gesture]
    returns thumbs_up, but the confidence of fist is 0.8 and not 0; and no
    flags and distance at all match the predicate of thumbs_up and of no
    other gesture. *)
Lemma thumbs_up_scores_fist :
  (exists f d,
     GestureSystem.measure Hands.thumb_only = Some (f, d) /\
     Documented.predicate "thumbs_up" f d = true) /\
  ~ (exists self',
       GestureSystem.detect_gesture GestureSystem.init Hands.thumb_only 1000
       = Some ("thumbs_up", self') /\
       Py.dict_get (GestureSystem.gesture_confidence self') "thumbs_up"
       = Some (9/10) /\
       forall g', In g' Documented.gestures -> g' <> "thumbs_up" ->
         Py.dict_get (GestureSystem.gesture_confidence self') g' = Some 0) /\
  ~ (exists f d, Documented.matches_only "thumbs_up" f d = true).
Proof.
  destruct (measure_hand true false false false false) as [d [Hm Hp]].
  fold Hands.thumb_only in Hm.
  assert (Ht : Documented.predicate "thumbs_up"
                 (GestureSystem.mkFingers true false false false false) d = true)
    by reflexivity.
  split; [eauto |]. split.
  - intros [self' [Hd [_ H0]]].
    destruct (score_thumbs_up _ d Ht) as [_ [Hmax [_ [Hfist _]]]].
    rewrite (detect_gesture_winner _ _ _ _ _ _ _ Hm Hmax) in Hd by lra.
    injection Hd as <-.
    specialize (H0 "fist"). rewrite remember_confidence in H0.
    cbn [GestureSystem.with_confidence GestureSystem.gesture_confidence] in H0.
    rewrite Hfist in H0.
    assert (H : Some (8/10) = Some 0) by (apply H0; [cbn; tauto | discriminate]).
    injection H. lra.
  - intros [f [d' H]].
    assert (Hin : In "thumbs_up" Documented.gestures) by (cbn; tauto).
    destruct (score_exclusive f d' "thumbs_up" Hin H) as [Hne _].
    apply Hne. reflexivity.
Qed.

(** ** The gesture history *)

Lemma score_has_best (f : GestureSystem.Fingers) (d : R) :
  exists best, Py.max_by_value (GestureSystem.score f d) = Some best.
Proof.
  unfold GestureSystem.score.
  destruct f as [[] [] [] [] []]; destruct (d <? 5/100); cbn; eauto.
Qed.

(** The history after [remember]: untouched, or one entry longer at the
    end and cut at the front when that exceeds [max_history]. *)
Lemma remember_spec (self : GestureSystem.t) (g : string) (now : R) :
  let self' := GestureSystem.remember self g now in
  GestureSystem.max_history self' = GestureSystem.max_history self /\
  GestureSystem.gesture_cooldown self' = GestureSystem.gesture_cooldown self /\
  (self' = self \/
   now - GestureSystem.last_gesture_time self > GestureSystem.gesture_cooldown self /\
   GestureSystem.last_gesture_time self' = now /\
   GestureSystem.gesture_history self' =
     let history := GestureSystem.gesture_history self ++ [(g, now)] in
     if (GestureSystem.max_history self <? List.length history)%nat
     then tl history else history).
Proof.
  unfold GestureSystem.remember, Py.gtb. cbv zeta.
  destruct (_ <? _) eqn:E.
  - apply ltb_spec in E. cbn. repeat split. right. repeat split. lra.
  - repeat split. left. reflexivity.
Qed.

(** One call on a valid frame: the gesture returned depends on the frame
    only, and the classifier changes as [remember] says. *)
Lemma detect_gesture_step (fr : Frame) :
  GestureSystem.valid fr ->
  exists g, forall (self : GestureSystem.t) (now : R),
    exists self',
      GestureSystem.detect_gesture self fr now = Some (g, self') /\
      GestureSystem.max_history self' = GestureSystem.max_history self /\
      GestureSystem.gesture_cooldown self' = GestureSystem.gesture_cooldown self /\
      (GestureSystem.gesture_history self' = GestureSystem.gesture_history self /\
       GestureSystem.last_gesture_time self' = GestureSystem.last_gesture_time self
       \/
       now - GestureSystem.last_gesture_time self > GestureSystem.gesture_cooldown self /\
       GestureSystem.last_gesture_time self' = now /\
       GestureSystem.gesture_history self' =
         let history := GestureSystem.gesture_history self ++ [(g, now)] in
         if (GestureSystem.max_history self <? List.length history)%nat
         then tl history else history).
Proof.
  intros [-> | Hlen].
  - exists "none". intros self now. exists self. cbn. tauto.
  - destruct (measure_total fr Hlen) as [f [d Hm]].
    destruct (score_has_best f d) as [[g c] Hbest].
    destruct (c >? 5/10) eqn:Hc.
    + exists g. intros self now. eexists. split.
      * rewrite (detect_gesture_measured _ _ _ _ _ Hm), Hbest.
        cbn [Py.bind fst snd]. rewrite Hc. reflexivity.
      * pose proof (remember_spec
          (GestureSystem.with_confidence self (GestureSystem.score f d)) g now) as H.
        cbv zeta in H. destruct H as [H1 [H2 H3]].
        split; [exact H1 |]. split; [exact H2 |].
        destruct H3 as [-> | H3]; [left; split; reflexivity | right; exact H3].
    + exists "unknown". intros self now. eexists. split.
      * rewrite (detect_gesture_measured _ _ _ _ _ Hm), Hbest.
        cbn [Py.bind fst snd]. rewrite Hc. reflexivity.
      * cbn. tauto.
Qed.

Lemma latest_append_snoc (h : list (string * R)) (g : string) (now : R) :
  last (map snd (h ++ [(g, now)])) 0 = now.
Proof. rewrite map_app. cbn. apply last_last. Qed.

Lemma tl_snoc {A : Type} (h : list A) (e : A) :
  h <> [] -> tl (h ++ [e]) = tl h ++ [e].
Proof. destruct h; [contradiction | reflexivity]. Qed.

Lemma history_invariant_step (self self' : GestureSystem.t) (g : string) (now : R) :
  history_invariant self ->
  GestureSystem.max_history self' = GestureSystem.max_history self ->
  GestureSystem.gesture_cooldown self' = GestureSystem.gesture_cooldown self ->
  (GestureSystem.gesture_history self' = GestureSystem.gesture_history self /\
   GestureSystem.last_gesture_time self' = GestureSystem.last_gesture_time self
   \/
   now - GestureSystem.last_gesture_time self > GestureSystem.gesture_cooldown self /\
   GestureSystem.last_gesture_time self' = now /\
   GestureSystem.gesture_history self' =
     let history := GestureSystem.gesture_history self ++ [(g, now)] in
     if (GestureSystem.max_history self <? List.length history)%nat
     then tl history else history) ->
  history_invariant self'.
Proof.
  intros [Hmax [Hcool [Hlen Hlast]]] H1 H2 H.
  unfold history_invariant, GestureSystem.latest_append in *.
  rewrite H1, H2. split; [exact Hmax |]. split; [exact Hcool |].
  destruct H as [[Hh Ht] | [_ [Ht Hh]]].
  - rewrite Hh, Ht. split; assumption.
  - rewrite Hh, Ht, Hmax. cbv zeta. rewrite length_app. cbn [List.length].
    destruct (Nat.ltb_spec 10 (List.length (GestureSystem.gesture_history self) + 1)).
    + assert (Hne : GestureSystem.gesture_history self <> [])
        by (destruct (GestureSystem.gesture_history self); [cbn in *; lia | discriminate]).
      rewrite (tl_snoc _ _ Hne). split.
      * rewrite length_app. cbn [List.length].
        destruct (GestureSystem.gesture_history self); cbn in *; lia.
      * symmetry. apply latest_append_snoc.
    + split.
      * rewrite length_app. cbn [List.length]. lia.
      * symmetry. apply latest_append_snoc.
Qed.

Lemma detect_all_invariant (calls : list (Frame * R)) :
  Forall (fun c => GestureSystem.valid (fst c)) calls ->
  forall self, history_invariant self ->
  exists gs self',
    GestureSystem.detect_all self calls = Some (gs, self') /\
    history_invariant self'.
Proof.
  induction 1 as [| [fr now] calls Hv _ IH]; intros self Hinv.
  - exists [], self. split; [reflexivity | exact Hinv].
  - destruct (detect_gesture_step fr Hv) as [g Hg].
    destruct (Hg self now) as [self1 [Hd [H1 [H2 H3]]]].
    destruct (IH self1 (history_invariant_step _ _ _ _ Hinv H1 H2 H3))
      as [gs [self' [Hall Hinv']]].
    exists (g :: gs), self'. split; [| exact Hinv'].
    cbn [GestureSystem.detect_all]. rewrite Hd. cbn [Py.bind fst snd].
    rewrite Hall. reflexivity.
Qed.

(** C7: after any sequence of [detect_gesture] calls on valid frames the
    history holds at most 10 entries; a further call either leaves it as
    it is or, only when more than 1.0s has passed since the latest append,
    adds the new entry at the end and drops the oldest one if the history
    was full; and the gesture the call returns is the same whatever the
    classifier state and the clock are. *)
Theorem gesture_history_bounded_and_throttled
    (calls : list (Frame * R)) (fr : Frame) (now : R) :
  Forall (fun c => GestureSystem.valid (fst c)) calls ->
  GestureSystem.valid fr ->
  exists gs self,
    GestureSystem.detect_all GestureSystem.init calls = Some (gs, self) /\
    (List.length (GestureSystem.gesture_history self) <= 10)%nat /\
    exists g self',
      GestureSystem.detect_gesture self fr now = Some (g, self') /\
      (List.length (GestureSystem.gesture_history self') <= 10)%nat /\
      (GestureSystem.gesture_history self' = GestureSystem.gesture_history self
       \/
       now - GestureSystem.latest_append self > 1 /\
       GestureSystem.gesture_history self' =
         if (List.length (GestureSystem.gesture_history self) =? 10)%nat
         then tl (GestureSystem.gesture_history self) ++ [(g, now)]
         else GestureSystem.gesture_history self ++ [(g, now)]) /\
      forall (other : GestureSystem.t) (now' : R),
        exists other',
          GestureSystem.detect_gesture other fr now' = Some (g, other').
Proof.
  intros Hcalls Hfr.
  assert (Hinit : history_invariant GestureSystem.init).
  { unfold history_invariant, GestureSystem.latest_append. cbn.
    repeat split; lia. }
  destruct (detect_all_invariant calls Hcalls _ Hinit) as [gs [self [Hall Hinv]]].
  exists gs, self. split; [exact Hall |].
  pose proof Hinv as [Hmax [Hcool [Hlen Hlast]]].
  split; [exact Hlen |].
  destruct (detect_gesture_step fr Hfr) as [g Hg].
  destruct (Hg self now) as [self' [Hd [H1 [H2 H3]]]].
  exists g, self'. split; [exact Hd |].
  pose proof (history_invariant_step _ _ _ _ Hinv H1 H2 H3) as [_ [_ [Hlen' _]]].
  split; [exact Hlen' |]. split.
  - destruct H3 as [[Hh _] | [Hgt [_ Hh]]]; [left; exact Hh | right].
    rewrite <- Hlast, <- Hcool. split; [exact Hgt |].
    rewrite Hh, Hmax. cbv zeta. rewrite length_app. cbn [List.length].
    destruct (Nat.ltb_spec 10 (List.length (GestureSystem.gesture_history self) + 1));
      destruct (Nat.eqb_spec (List.length (GestureSystem.gesture_history self)) 10);
      try lia; try reflexivity.
    apply tl_snoc. destruct (GestureSystem.gesture_history self);
      [cbn in *; lia | discriminate].
  - intros other now'. destruct (Hg other now') as [other' [Ho _]].
    exists other'. exact Ho.
Qed.

(** ** The action dispatcher *)

Lemma execute_in_cooldown (self : Controller.t) (g : string) (now : R) :
  g <> "open_palm" ->
  now - Controller.last_action_time self < Controller.action_cooldown self ->
  Controller.execute_gesture_action self g now = (self, []).
Proof.
  intros Hg Hlt. unfold Controller.execute_gesture_action.
  rewrite (ltb_true _ _ Hlt).
  apply String.eqb_neq in Hg. rewrite Hg. reflexivity.
Qed.

Lemma execute_open_palm (self : Controller.t) (now : R) :
  Controller.execute_gesture_action self "open_palm" now
  = (Controller.set_camera_control_active
       (Controller.set_text self "CAMERA CONTROL ACTIVE") true, []).
Proof.
  unfold Controller.execute_gesture_action. cbn.
  rewrite andb_false_r. reflexivity.
Qed.

Lemma execute_fist (self : Controller.t) (now : R) :
  Controller.action_cooldown self <= now - Controller.last_action_time self ->
  Controller.execute_gesture_action self "fist" now
  = (Controller.set_last_action_time (Controller.set_text self "DRONE DEPLOYED!") now,
     [Controller.spawn_drone; Controller.play_sound_effect "drone"]).
Proof.
  intros H. unfold Controller.execute_gesture_action.
  rewrite (ltb_false _ _ H). reflexivity.
Qed.

(** Past the cooldown, every gesture but open_palm sets the clock. *)
Lemma execute_sets_clock (self : Controller.t) (g : string) (now : R) :
  g <> "open_palm" ->
  Controller.action_cooldown self <= now - Controller.last_action_time self ->
  Controller.last_action_time (fst (Controller.execute_gesture_action self g now)) = now
  /\ Controller.action_cooldown (fst (Controller.execute_gesture_action self g now))
     = Controller.action_cooldown self.
Proof.
  intros Hg H. unfold Controller.execute_gesture_action.
  rewrite (ltb_false _ _ H). cbn [andb].
  apply String.eqb_neq in Hg. rewrite Hg.
  repeat match goal with
    | |- context [String.eqb g ?s] =>
        destruct (String.eqb g s); [split; reflexivity |]
    end.
  split; reflexivity.
Qed.

(** C5: a gesture other than open_palm that comes less than the cooldown
    after [last_action_time] dispatches nothing and leaves the controller
    as it is; open_palm is carried out whatever the clock says and leaves
    [last_action_time] alone; so, with the cooldown of 0.8s, two fists 0.5s
    apart dispatch one action and two fists 1.0s apart dispatch two. *)
Theorem action_cooldown_gate (self : Controller.t) (now : R) :
  Controller.action_cooldown self = 8/10 ->
  (forall g, g <> "open_palm" ->
     now - Controller.last_action_time self < Controller.action_cooldown self ->
     Controller.execute_gesture_action self g now = (self, [])) /\
  (exists self',
     Controller.execute_gesture_action self "open_palm" now = (self', []) /\
     Controller.camera_control_active self' = true /\
     Controller.action_display_text self' = "CAMERA CONTROL ACTIVE" /\
     Controller.last_action_time self' = Controller.last_action_time self) /\
  (Controller.action_cooldown self <= now - Controller.last_action_time self ->
     Controller.dispatched
       (snd (Controller.execute_all self [("fist", now); ("fist", now + 5/10)]))
     = 1%nat /\
     Controller.dispatched
       (snd (Controller.execute_all self [("fist", now); ("fist", now + 1)]))
     = 2%nat).
Proof.
  intros Hcool. split; [| split].
  - intros g Hg Hlt. apply execute_in_cooldown; assumption.
  - eexists. split; [apply execute_open_palm |]. repeat split.
  - intros Hfirst. cbn [Controller.execute_all].
    rewrite (execute_fist self now Hfirst). split.
    + rewrite execute_in_cooldown; [reflexivity | discriminate |].
      cbn. rewrite Hcool. lra.
    + rewrite execute_fist; [reflexivity |].
      cbn. rewrite Hcool. lra.
Qed.

(** Two fists from the start-up state, at 1000s on the clock. *)
Lemma action_cooldown_gate_witness :
  Controller.action_cooldown Controller.init = 8/10 /\
  Controller.dispatched
    (snd (Controller.execute_all Controller.init [("fist", 1000); ("fist", 1000 + 5/10)]))
  = 1%nat /\
  Controller.dispatched
    (snd (Controller.execute_all Controller.init [("fist", 1000); ("fist", 1000 + 1)]))
  = 2%nat.
Proof.
  split; [reflexivity |].
  apply (action_cooldown_gate Controller.init 1000 eq_refl).
  cbn. lra.
Defined.

(** C9: past the cooldown a gesture other than open_palm sets
    [last_action_time] whether or not it maps to an action, the unknown and
    none results included; the next gesture other than open_palm that
    comes within the cooldown of it is dropped.  So an unrecognized
    gesture 0.1s before a fist keeps the fist from being dispatched. *)
Theorem unmapped_gesture_resets_cooldown (self : Controller.t) (g : string) (now : R) :
  g <> "open_palm" ->
  Controller.action_cooldown self <= now - Controller.last_action_time self ->
  let self' := fst (Controller.execute_gesture_action self g now) in
  Controller.last_action_time self' = now /\
  (~ In g ["fist"; "peace"; "pinch"; "thumbs_up"; "rock_sign"] ->
   snd (Controller.execute_gesture_action self g now) = []) /\
  (forall g' now', g' <> "open_palm" ->
     now' - now < Controller.action_cooldown self ->
     Controller.execute_gesture_action self' g' now' = (self', [])).
Proof.
  intros Hg Hpast self'.
  destruct (execute_sets_clock self g now Hg Hpast) as [Hclock Hcool].
  fold self' in Hclock, Hcool.
  split; [exact Hclock |]. split.
  - intros Hnot. unfold Controller.execute_gesture_action.
    rewrite (ltb_false _ _ Hpast). cbn [andb].
    apply String.eqb_neq in Hg. rewrite Hg.
    repeat match goal with
      | |- context [String.eqb g ?s] =>
          destruct (String.eqb_spec g s);
          [exfalso; apply Hnot; subst g; cbn; tauto |]
      end.
    reflexivity.
  - intros g' now' Hg' Hlt. apply execute_in_cooldown; [exact Hg' |].
    rewrite Hclock, Hcool. exact Hlt.
Qed.

(** An unknown gesture 0.1s before a fist, and the fist alone. *)
Lemma unmapped_gesture_resets_cooldown_witness :
  Controller.dispatched
    (snd (Controller.execute_all Controller.init [("unknown", 1000); ("fist", 1000 + 1/10)]))
  = 0%nat /\
  Controller.dispatched
    (snd (Controller.execute_all Controller.init [("fist", 1000 + 1/10)]))
  = 1%nat.
Proof.
  assert (Hne : "unknown" <> "open_palm") by discriminate.
  assert (Hpast : Controller.action_cooldown Controller.init
                  <= 1000 - Controller.last_action_time Controller.init)
    by (cbn; lra).
  destruct (unmapped_gesture_resets_cooldown Controller.init "unknown" 1000 Hne Hpast)
    as [_ [Hnone Hdrop]].
  split.
  - cbn [Controller.execute_all].
    destruct (Controller.execute_gesture_action Controller.init "unknown" 1000)
      as [self' calls] eqn:E.
    cbn [fst snd] in Hnone, Hdrop.
    rewrite Hnone by (cbn; intuition discriminate).
    rewrite (Hdrop "fist" (1000 + 1/10)); [reflexivity | discriminate | cbn; lra].
  - cbn [Controller.execute_all]. rewrite execute_fist by (cbn; lra). reflexivity.
Defined.

(** ** The mode toggle *)

Lemma above_total (fr : Frame) (tip base : nat) :
  (tip < List.length fr)%nat -> (base < List.length fr)%nat ->
  exists b, PrecisionTracking.above fr tip base = Some b.
Proof.
  intros Ht Hb. unfold PrecisionTracking.above.
  destruct (getitem_total fr tip Ht) as [t ->].
  destruct (getitem_total fr base Hb) as [b ->].
  cbn. eauto.
Qed.

Lemma all_extended_total (fr : Frame) :
  List.length fr = 21%nat -> exists pose, Controller.all_extended fr = Some pose.
Proof.
  intros H. unfold Controller.all_extended.
  destruct (gs_is_thumb_extended_total fr) as [t ->]; [lia |].
  destruct (above_total fr 8 5) as [i ->]; [lia | lia |].
  destruct (above_total fr 12 9) as [m ->]; [lia | lia |].
  destruct (above_total fr 16 13) as [r ->]; [lia | lia |].
  destruct (above_total fr 20 17) as [p ->]; [lia | lia |].
  cbn. eauto.
Qed.

Lemma all_extended_hand (t i m r p : bool) :
  Controller.all_extended (Hands.hand t i m r p) = Some (t && i && m && r && p).
Proof.
  unfold Controller.all_extended, Hands.hand. rewrite thumb_of_hand.
  destruct t, i, m, r, p; cbn; compare; reflexivity.
Qed.

Lemma check_all_posed (pose : bool) (frames : list (Frame * R)) :
  Controller.posed pose frames ->
  forall self,
    Controller.check_all self frames
    = Some (Controller.step_all self (map (fun f => (pose, snd f)) frames)).
Proof.
  induction 1 as [| [fr dt] frames Hp _ IH]; intros self; [reflexivity |].
  cbn [Controller.check_all Controller.step_all map snd fst].
  unfold Controller.check_for_mode_toggle. cbn [fst] in Hp. rewrite Hp.
  cbn [Py.bind]. rewrite IH. reflexivity.
Qed.

Lemma check_all_app (a b : list (Frame * R)) :
  forall self self' calls,
    Controller.check_all self a = Some (self', calls) ->
    Controller.check_all self (a ++ b)
    = (r <- Controller.check_all self' b ;; Some (fst r, calls ++ snd r)).
Proof.
  induction a as [| [fr dt] a IH]; intros self self' calls H.
  - cbn in H. injection H as <- <-. cbn [app].
    destruct (Controller.check_all self b) as [[s c] |]; reflexivity.
  - cbn [app Controller.check_all] in *.
    destruct (Controller.check_for_mode_toggle self fr dt) as [[s1 c1] |];
      [| discriminate H].
    cbn [Py.bind fst snd] in *.
    destruct (Controller.check_all s1 a) as [[s2 c2] |] eqn:E; [| discriminate H].
    cbn [Py.bind fst snd] in H. injection H as <- <-.
    rewrite (IH _ _ _ E).
    destruct (Controller.check_all s2 b) as [[s3 c3] |]; [| reflexivity].
    cbn [Py.bind fst snd]. rewrite app_assoc. reflexivity.
Qed.

Lemma check_all_total (frames : list (Frame * R)) :
  Forall (fun f => List.length (fst f) = 21%nat) frames ->
  forall self, exists steps,
    map snd steps = map snd frames /\
    Controller.check_all self frames = Some (Controller.step_all self steps).
Proof.
  induction 1 as [| [fr dt] frames Hlen _ IH]; intros self.
  - exists []. split; reflexivity.
  - destruct (all_extended_total fr Hlen) as [pose Hp].
    destruct (IH (fst (Controller.mode_toggle_step self pose dt))) as [steps [Hs Hc]].
    exists ((pose, dt) :: steps). split; [cbn; rewrite Hs; reflexivity |].
    cbn [Controller.check_all Controller.step_all].
    unfold Controller.check_for_mode_toggle. rewrite Hp.
    cbn [Py.bind fst snd]. rewrite Hc. reflexivity.
Qed.

(** One frame with the pose while the timer runs down and stays positive. *)
Lemma step_arming_waits (self : Controller.t) (dt : R) :
  0 < Controller.mode_toggle_cooldown self - dt ->
  0 <= dt ->
  Controller.mode_toggle_step self true dt
  = (Controller.set_mode_toggle_cooldown self
       (Controller.mode_toggle_cooldown self - dt), []).
Proof.
  intros H Hdt. unfold Controller.mode_toggle_step.
  cbn. compare. reflexivity.
Qed.

(** One frame with the pose that takes the timer to 0 or below: the toggle
    fires and the timer is set to minus the hold time. *)
Lemma step_arming_fires (self : Controller.t) (dt : R) :
  0 < Controller.mode_toggle_cooldown self ->
  Controller.mode_toggle_cooldown self - dt <= 0 ->
  let r := Controller.mode_toggle_step self true dt in
  Controller.toggle_events (snd r) = 1%nat /\
  Controller.mode_toggle_cooldown (fst r) = - Controller.mode_toggle_cooldown_time self /\
  Controller.mode_toggle_cooldown_time (fst r) = Controller.mode_toggle_cooldown_time self.
Proof.
  intros H Hle. unfold Controller.mode_toggle_step.
  cbn. compare. unfold Controller.toggle_cad_mode. cbn.
  destruct (negb _); cbn; repeat split.
Qed.

Lemma step_cooling_held (self : Controller.t) (dt : R) :
  Controller.mode_toggle_cooldown self < 0 ->
  Controller.mode_toggle_step self true dt = (self, []).
Proof.
  intros H. unfold Controller.mode_toggle_step. compare. reflexivity.
Qed.

Lemma step_cooling_released (self : Controller.t) (dt : R) :
  Controller.mode_toggle_cooldown self < 0 ->
  Controller.mode_toggle_step self false dt
  = (Controller.set_mode_toggle_cooldown self
       (Rmin 0 (Controller.mode_toggle_cooldown self + dt)), []).
Proof.
  intros H. unfold Controller.mode_toggle_step. compare.
  unfold Py.min, Rmin.
  destruct (Rle_dec 0 (Controller.mode_toggle_cooldown self + dt)); compare;
    reflexivity.
Qed.

Lemma hold_cooling (dts : list R) (self : Controller.t) :
  Controller.mode_toggle_cooldown self < 0 ->
  Controller.step_all self (map (pair true) dts) = (self, []).
Proof.
  intros H. induction dts as [| dt dts IH]; [reflexivity |].
  cbn [map Controller.step_all]. rewrite (step_cooling_held self dt H).
  cbn [fst snd]. rewrite IH. reflexivity.
Qed.

Lemma hold_arming (dts : list R) :
  forall self,
    Forall (fun dt => 0 <= dt) dts ->
    Py.sum dts < Controller.mode_toggle_cooldown self ->
    let r := Controller.step_all self (map (pair true) dts) in
    Controller.toggle_events (snd r) = 0%nat /\
    Controller.mode_toggle_cooldown (fst r)
    = Controller.mode_toggle_cooldown self - Py.sum dts.
Proof.
  induction dts as [| dt dts IH]; intros self Hpos Hsum.
  - cbn. split; [reflexivity | lra].
  - inversion Hpos as [| ? ? Hdt Hpos']; subst.
    cbn [Py.sum] in Hsum.
    assert (Hs : 0 <= Py.sum dts).
    { clear - Hpos'. induction Hpos'; cbn; lra. }
    cbn [map Controller.step_all].
    rewrite step_arming_waits by lra. cbn [fst snd app].
    destruct (IH (Controller.set_mode_toggle_cooldown self
                    (Controller.mode_toggle_cooldown self - dt)) Hpos') as [H1 H2];
      [cbn; lra |].
    split; [exact H1 |]. rewrite H2. cbn. lra.
Qed.

Lemma hold_fires (dts : list R) :
  forall self,
    0 < Controller.mode_toggle_cooldown self ->
    0 < Controller.mode_toggle_cooldown_time self ->
    Forall (fun dt => 0 <= dt) dts ->
    Controller.mode_toggle_cooldown self <= Py.sum dts ->
    let r := Controller.step_all self (map (pair true) dts) in
    Controller.toggle_events (snd r) = 1%nat /\
    Controller.mode_toggle_cooldown (fst r) = - Controller.mode_toggle_cooldown_time self /\
    Controller.mode_toggle_cooldown_time (fst r) = Controller.mode_toggle_cooldown_time self.
Proof.
  induction dts as [| dt dts IH]; intros self Ht HT Hpos Hsum.
  - cbn in Hsum. lra.
  - inversion Hpos as [| ? ? Hdt Hpos']; subst.
    cbn [Py.sum] in Hsum. cbn [map Controller.step_all].
    destruct (Rle_dec (Controller.mode_toggle_cooldown self - dt) 0) as [Hle | Hgt].
    + destruct (step_arming_fires self dt Ht Hle) as [H1 [H2 H3]].
      rewrite hold_cooling by (rewrite H2; lra).
      cbn [fst snd]. rewrite app_nil_r. repeat split; assumption.
    + rewrite step_arming_waits by lra. cbn [fst snd app].
      apply (IH (Controller.set_mode_toggle_cooldown self
                   (Controller.mode_toggle_cooldown self - dt))); cbn; try lra.
      exact Hpos'.
Qed.

(** During the cooldown nothing fires, whatever the poses, until the
    frames add up to the time that is left. *)
Lemma cooling_quiet (steps : list (bool * R)) :
  forall self,
    Forall (fun dt => 0 <= dt) (map snd steps) ->
    Py.sum (map snd steps) < - Controller.mode_toggle_cooldown self ->
    let r := Controller.step_all self steps in
    Controller.toggle_events (snd r) = 0%nat /\
    Controller.mode_toggle_cooldown (fst r) < 0.
Proof.
  induction steps as [| [pose dt] steps IH]; intros self Hpos Hsum.
  - cbn in *. split; [reflexivity | lra].
  - cbn [map snd Py.sum] in *. inversion Hpos as [| ? ? Hdt Hpos']; subst.
    assert (Hs : 0 <= Py.sum (map snd steps)).
    { clear - Hpos'. induction Hpos'; cbn; lra. }
    cbn [Controller.step_all]. destruct pose.
    + rewrite step_cooling_held by lra. cbn [fst snd app].
      apply IH; [exact Hpos' | lra].
    + rewrite step_cooling_released by lra. cbn [fst snd app].
      apply IH; [exact Hpos' |]. cbn.
      rewrite Rmin_right by lra. lra.
Qed.

(** C1 (amended): in Cooling, a frame of 21 landmarks without the
    all-fingers-extended pose takes the timer from t to min(0, t + dt), and
    the machine is Idle as soon as that is 0; a frame with the pose leaves
    the timer, and the whole controller, as it is.  Neither makes a
    call. *)
Theorem cooling_counts_up_when_released (self : Controller.t) (fr : Frame) (dt : R) :
  Controller.Cooling self ->
  List.length fr = 21%nat ->
  exists pose self',
    Controller.all_extended fr = Some pose /\
    Controller.check_for_mode_toggle self fr dt = Some (self', []) /\
    (pose = false ->
       Controller.mode_toggle_cooldown self'
       = Rmin 0 (Controller.mode_toggle_cooldown self + dt) /\
       (0 <= Controller.mode_toggle_cooldown self + dt -> Controller.Idle self') /\
       (Controller.mode_toggle_cooldown self + dt < 0 -> Controller.Cooling self')) /\
    (pose = true -> self' = self).
Proof.
  unfold Controller.Cooling, Controller.Idle. intros Hcool Hlen.
  destruct (all_extended_total fr Hlen) as [pose Hp].
  exists pose. unfold Controller.check_for_mode_toggle. rewrite Hp. cbn [Py.bind].
  destruct pose.
  - rewrite step_cooling_held by exact Hcool.
    exists self. repeat split; try discriminate.
  - rewrite step_cooling_released by exact Hcool.
    eexists. split; [reflexivity |]. split; [reflexivity |].
    split; [| discriminate]. intros _. cbn. split; [reflexivity |]. split; intros H.
    + apply Rmin_left. exact H.
    + rewrite Rmin_right by lra. exact H.
Qed.

(** A quarter of a second with the closed hand, one second into the
    cooldown. *)
Lemma cooling_counts_up_when_released_witness :
  Controller.Cooling (Controller.set_mode_toggle_cooldown Controller.init (-1)) /\
  List.length Hands.closed = 21%nat /\
  exists self',
    Controller.check_for_mode_toggle
      (Controller.set_mode_toggle_cooldown Controller.init (-1)) Hands.closed (1/4)
    = Some (self', []) /\
    Controller.mode_toggle_cooldown self' = Rmin 0 (-1 + 1/4).
Proof.
  assert (Hc : Controller.Cooling (Controller.set_mode_toggle_cooldown Controller.init (-1)))
    by (unfold Controller.Cooling; cbn; lra).
  split; [exact Hc |]. split; [reflexivity |].
  destruct (cooling_counts_up_when_released _ Hands.closed (1/4) Hc eq_refl)
    as [pose [self' [Hp [Hstep [Hreleased _]]]]].
  exists self'. split; [exact Hstep |].
  unfold Hands.closed in Hp. rewrite all_extended_hand in Hp. injection Hp as <-.
  apply Hreleased. reflexivity.
Defined.

(** C1 as stated fails while the pose is held: from Cooling with t = -1, a
    frame with all five fingers extended and dt = 0.5 leaves t at -1, which
    is not min(0, -1 + 0.5). *)
Lemma cooling_frozen_while_pose_held :
  let self := Controller.set_mode_toggle_cooldown Controller.init (-1) in
  let open_hand := Hands.hand true true true true true in
  Controller.Cooling self /\
  Controller.all_extended open_hand = Some true /\
  exists self',
    Controller.check_for_mode_toggle self open_hand (1/2) = Some (self', []) /\
    Controller.mode_toggle_cooldown self' = -1 /\
    Controller.mode_toggle_cooldown self' <> Rmin 0 (-1 + 1/2).
Proof.
  cbv zeta. split; [unfold Controller.Cooling; cbn; lra |].
  split; [apply all_extended_hand |].
  unfold Controller.check_for_mode_toggle. rewrite all_extended_hand.
  cbn [andb Py.bind]. rewrite step_cooling_held by (cbn; lra).
  eexists. split; [reflexivity |]. cbn. split; [reflexivity |].
  rewrite Rmin_right by lra. lra.
Qed.

(** C6: from Idle, with a positive hold time, frames that show the
    all-fingers-extended pose for a total of less than the hold time and
    then a frame without it fire no toggle and end in Idle; frames that
    show it for the hold time or more fire exactly one toggle and leave the
    timer at minus the hold time; and from there no frames, with or
    without the pose, fire a toggle as long as they add up to less than
    the hold time.  The time a pose is held counts from its first frame. *)
Theorem mode_toggle_debounce
    (self : Controller.t) (first : Frame * R) (hold : list (Frame * R))
    (release : Frame * R) (after : list (Frame * R)) :
  Controller.Idle self ->
  0 < Controller.mode_toggle_cooldown_time self ->
  Controller.posed true (first :: hold) ->
  Controller.posed false [release] ->
  Forall (fun f => 0 <= snd f) hold ->
  Forall (fun f => List.length (fst f) = 21%nat) after ->
  Forall (fun f => 0 <= snd f) after ->
  (Controller.elapsed hold < Controller.mode_toggle_cooldown_time self ->
     exists self' calls,
       Controller.check_all self (first :: hold ++ [release]) = Some (self', calls) /\
       Controller.toggle_events calls = 0%nat /\
       Controller.Idle self') /\
  (Controller.mode_toggle_cooldown_time self <= Controller.elapsed hold ->
     exists self' calls,
       Controller.check_all self (first :: hold) = Some (self', calls) /\
       Controller.toggle_events calls = 1%nat /\
       Controller.mode_toggle_cooldown self'
       = - Controller.mode_toggle_cooldown_time self /\
       (Controller.elapsed after < Controller.mode_toggle_cooldown_time self ->
          exists self'' calls',
            Controller.check_all self' after = Some (self'', calls') /\
            Controller.toggle_events calls' = 0%nat /\
            Controller.Cooling self'')).
Proof.
  unfold Controller.Idle, Controller.Cooling, Controller.elapsed.
  intros Hidle HT Hhold Hrel Hdts Hlen Hafter.
  pose proof (check_all_posed _ _ Hhold self) as Hrun.
  destruct first as [fr0 dt0].
  cbn [map Controller.step_all snd] in Hrun.
  assert (Hstart : Controller.mode_toggle_step self true dt0
                   = (Controller.set_text
                        (Controller.set_mode_toggle_cooldown self
                           (Controller.mode_toggle_cooldown_time self))
                        "HOLD TO SWITCH MODES...", [])).
  { unfold Controller.mode_toggle_step. rewrite Hidle. compare. reflexivity. }
  rewrite Hstart in Hrun. cbn [fst snd app] in Hrun.
  rewrite <- (map_map snd (pair true)) in Hrun.
  assert (Hpos : Forall (fun dt => 0 <= dt) (map snd hold))
    by (apply Forall_map; exact Hdts).
  set (armed := Controller.set_text _ _) in Hrun.
  split.
  - intros Hshort.
    destruct (hold_arming (map snd hold) armed Hpos) as [H0 Ht]; [cbn; lra |].
    destruct (Controller.step_all armed (map (pair true) (map snd hold)))
      as [held calls] eqn:E.
    cbn [fst snd] in *.
    rewrite app_comm_cons, (check_all_app _ _ _ _ _ Hrun).
    rewrite (check_all_posed _ _ Hrel). destruct release as [frr dtr].
    cbn [map Controller.step_all fst snd Py.bind].
    assert (Hreset : Controller.mode_toggle_step held false dtr
                     = (Controller.set_mode_toggle_cooldown held 0, [])).
    { unfold Controller.mode_toggle_step. rewrite Ht. cbn. compare. reflexivity. }
    rewrite Hreset. cbn [fst snd]. eexists _, _. split; [reflexivity |].
    rewrite !app_nil_r. split; [exact H0 | reflexivity].
  - intros Hlong.
    destruct (hold_fires (map snd hold) armed) as [H1 [Ht HT']];
      [cbn; lra | cbn; lra | exact Hpos | cbn; lra |].
    destruct (Controller.step_all armed (map (pair true) (map snd hold)))
      as [fired calls] eqn:E.
    cbn [fst snd] in *. exists fired, calls.
    split; [exact Hrun |]. split; [exact H1 |]. split; [exact Ht |].
    intros Hquiet.
    destruct (check_all_total after Hlen fired) as [steps [Hs Hc]].
    destruct (cooling_quiet steps fired) as [Hq Hneg].
    + rewrite Hs. apply Forall_map. exact Hafter.
    + rewrite Hs, Ht. cbn in *. lra.
    + destruct (Controller.step_all fired steps) as [self'' calls'].
      exists self'', calls'. split; [exact Hc |]. split; assumption.
Qed.

(** The open hand held for 1.2s with a hold time of 1s. *)
Lemma mode_toggle_debounce_witness :
  let open_hand := Hands.hand true true true true true in
  let first := (open_hand, 3/100) in
  let hold := [(open_hand, 6/10); (open_hand, 6/10)] in
  Controller.Idle Controller.init /\
  0 < Controller.mode_toggle_cooldown_time Controller.init /\
  Controller.mode_toggle_cooldown_time Controller.init <= Controller.elapsed hold /\
  exists self' calls,
    Controller.check_all Controller.init (first :: hold) = Some (self', calls) /\
    Controller.toggle_events calls = 1%nat /\
    Controller.mode_toggle_cooldown self' = -1.
Proof.
  cbv zeta.
  assert (Hidle : Controller.Idle Controller.init) by reflexivity.
  assert (HT : 0 < Controller.mode_toggle_cooldown_time Controller.init)
    by (cbn; lra).
  assert (Hopen : Controller.all_extended (Hands.hand true true true true true)
                  = Some true) by apply all_extended_hand.
  assert (Hclosed : Controller.all_extended Hands.closed = Some false)
    by apply all_extended_hand.
  assert (Hlong : Controller.mode_toggle_cooldown_time Controller.init
                  <= Controller.elapsed
                       [(Hands.hand true true true true true, 6/10);
                        (Hands.hand true true true true true, 6/10)])
    by (unfold Controller.elapsed; cbn; lra).
  split; [exact Hidle |]. split; [exact HT |]. split; [exact Hlong |].
  destruct (mode_toggle_debounce Controller.init
              (Hands.hand true true true true true, 3/100)
              [(Hands.hand true true true true true, 6/10);
               (Hands.hand true true true true true, 6/10)]
              (Hands.closed, 3/100)
              [(Hands.hand true true true true true, 1/2)]) as [_ H].
  - exact Hidle.
  - exact HT.
  - repeat constructor; exact Hopen.
  - repeat constructor; exact Hclosed.
  - repeat constructor; cbn; lra.
  - repeat constructor.
  - repeat constructor; cbn; lra.
  - destruct (H Hlong) as [self' [calls [Hrun [Hone [Ht _]]]]].
    exists self', calls. split; [exact Hrun |]. split; [exact Hone |].
    rewrite Ht. cbn. lra.
Defined.

(** Three calls, one of them without landmarks, and a fourth. *)
Lemma gesture_history_bounded_and_throttled_witness :
  let calls := [(Hands.closed, 1000); ([], 1000 + 1/2); (Hands.thumb_only, 1001)] in
  Forall (fun c => GestureSystem.valid (fst c)) calls /\
  GestureSystem.valid Hands.rock /\
  exists gs self,
    GestureSystem.detect_all GestureSystem.init calls = Some (gs, self) /\
    (List.length (GestureSystem.gesture_history self) <= 10)%nat /\
    exists g self',
      GestureSystem.detect_gesture self Hands.rock 1002 = Some (g, self') /\
      (List.length (GestureSystem.gesture_history self') <= 10)%nat.
Proof.
  cbv zeta.
  assert (Hcalls : Forall (fun c => GestureSystem.valid (fst c))
                     [(Hands.closed, 1000); ([], 1000 + 1/2);
                      (Hands.thumb_only, 1001)]).
  { repeat constructor; unfold GestureSystem.valid; cbn; tauto. }
  assert (Hfr : GestureSystem.valid Hands.rock) by (right; reflexivity).
  split; [exact Hcalls |]. split; [exact Hfr |].
  destruct (gesture_history_bounded_and_throttled _ Hands.rock 1002 Hcalls Hfr)
    as [gs [self [Hall [Hlen [g [self' [Hd [Hlen' _]]]]]]]].
  exists gs, self. split; [exact Hall |]. split; [exact Hlen |].
  exists g, self'. split; [exact Hd | exact Hlen'].
Defined.

(** ** The precision detector *)

Lemma dict_get_set_same {V : Type} (d : Py.dict V) (k : string) (v : V) :
  Py.dict_get (Py.dict_set d k v) k = Some v.
Proof.
  induction d as [| [k' v'] d IH]; cbn.
  - rewrite String.eqb_refl. reflexivity.
  - destruct (String.eqb k k') eqn:E; cbn; rewrite E; [reflexivity | exact IH].
Qed.

Lemma dict_get_set_other {V : Type} (d : Py.dict V) (k k' : string) (v : V) :
  k' <> k -> Py.dict_get (Py.dict_set d k v) k' = Py.dict_get d k'.
Proof.
  intros Hne. induction d as [| [k0 v0] d IH]; cbn.
  - apply String.eqb_neq in Hne. rewrite Hne. reflexivity.
  - destruct (String.eqb k k0) eqn:E; cbn.
    + apply String.eqb_eq in E. subst k0.
      apply String.eqb_neq in Hne. rewrite Hne. reflexivity.
    + rewrite IH. reflexivity.
Qed.

Lemma pt_is_thumb_extended_total (fr : Frame) :
  List.length fr = 21%nat ->
  exists b, PrecisionTracking.is_thumb_extended fr = Some b.
Proof.
  intros H. rewrite thumb_same by lia. apply gs_is_thumb_extended_total. lia.
Qed.

Lemma tool_flags_total (fr : Frame) :
  List.length fr = 21%nat ->
  exists thumb index middle ring pinky,
    PrecisionTracking.is_thumb_extended fr = Some thumb /\
    PrecisionTracking.above fr 8 5 = Some index /\
    PrecisionTracking.above fr 12 9 = Some middle /\
    PrecisionTracking.above fr 16 13 = Some ring /\
    PrecisionTracking.above fr 20 17 = Some pinky.
Proof.
  intros H.
  destruct (pt_is_thumb_extended_total fr H) as [t Ht].
  destruct (above_total fr 8 5) as [i Hi]; [lia | lia |].
  destruct (above_total fr 12 9) as [m Hm]; [lia | lia |].
  destruct (above_total fr 16 13) as [r Hr]; [lia | lia |].
  destruct (above_total fr 20 17) as [p Hp]; [lia | lia |].
  exists t, i, m, r, p. repeat split; assumption.
Qed.

(** The ladder returns the tool of the one pattern that holds. *)
Lemma ladder_spec (thumb index middle ring pinky : bool) :
  (forall tool, In tool Documented.tools ->
     (PrecisionTracking.ladder thumb index middle ring pinky = Some (tool, 9/10)
      <-> Documented.tool_pattern tool thumb index middle ring pinky = true)) /\
  (forall tool tool', In tool Documented.tools -> In tool' Documented.tools ->
     Documented.tool_pattern tool thumb index middle ring pinky = true ->
     Documented.tool_pattern tool' thumb index middle ring pinky = true ->
     tool = tool') /\
  (PrecisionTracking.ladder thumb index middle ring pinky = None <->
   forall tool, In tool Documented.tools ->
     Documented.tool_pattern tool thumb index middle ring pinky = false).
Proof.
  split; [| split].
  - intros tool Hin. cbn in Hin.
    repeat (destruct Hin as [<- | Hin]; [| try contradiction]).
    all: destruct thumb, index, middle, ring, pinky; cbn; split; intros H;
      first [reflexivity | discriminate H].
  - intros tool tool' Hin Hin' H H'. cbn in Hin, Hin'.
    repeat (destruct Hin as [<- | Hin]; [| try contradiction]).
    all: repeat (destruct Hin' as [<- | Hin']; [| try contradiction]).
    all: try reflexivity.
    all: destruct thumb, index, middle, ring, pinky; cbn in H, H'; discriminate.
  - split.
    + intros H tool Hin. cbn in Hin.
      repeat (destruct Hin as [<- | Hin]; [| try contradiction]).
      all: destruct thumb, index, middle, ring, pinky; cbn in *;
        first [reflexivity | discriminate H].
    + intros H.
      destruct (PrecisionTracking.ladder thumb index middle ring pinky)
        as [[tool c] |] eqn:E; [| reflexivity].
      exfalso.
      assert (Hs := H "select"). assert (Hc := H "create").
      assert (Hm := H "move"). assert (Hsc := H "scale").
      assert (Hr := H "rotate"). assert (He := H "extrude").
      cbn in Hs, Hc, Hm, Hsc, Hr, He.
      destruct thumb, index, middle, ring, pinky; cbn in *;
        first [discriminate E
              | discriminate Hs; tauto | discriminate Hc; tauto
              | discriminate Hm; tauto | discriminate Hsc; tauto
              | discriminate Hr; tauto | discriminate He; tauto].
Qed.

(** C4: on a frame of 21 landmarks with index and pinky extended and
    middle and ring closed, [detect_tool_selection_gesture] returns rotate
    with confidence 0.9 when the thumb is extended and extrude with
    confidence 0.9 when it is not; and on every frame it returns the tool
    of a pattern exactly when that pattern holds, no two of the six
    patterns hold together, and it returns no tool exactly when none
    holds. *)
Theorem tool_selection_ladder (fr : Frame) :
  List.length fr = 21%nat ->
  exists thumb index middle ring pinky,
    PrecisionTracking.is_thumb_extended fr = Some thumb /\
    PrecisionTracking.above fr 8 5 = Some index /\
    PrecisionTracking.above fr 12 9 = Some middle /\
    PrecisionTracking.above fr 16 13 = Some ring /\
    PrecisionTracking.above fr 20 17 = Some pinky /\
    (index = true -> pinky = true -> middle = false -> ring = false ->
       PrecisionTracking.detect_tool_selection_gesture fr
       = Some (Some (if thumb then "rotate" else "extrude", 9/10))) /\
    (forall tool, In tool Documented.tools ->
       (PrecisionTracking.detect_tool_selection_gesture fr = Some (Some (tool, 9/10))
        <-> Documented.tool_pattern tool thumb index middle ring pinky = true)) /\
    (forall tool tool', In tool Documented.tools -> In tool' Documented.tools ->
       Documented.tool_pattern tool thumb index middle ring pinky = true ->
       Documented.tool_pattern tool' thumb index middle ring pinky = true ->
       tool = tool') /\
    (PrecisionTracking.detect_tool_selection_gesture fr = Some None <->
     forall tool, In tool Documented.tools ->
       Documented.tool_pattern tool thumb index middle ring pinky = false).
Proof.
  intros H.
  destruct (tool_flags_total fr H) as [t [i [m [r [p [Ht [Hi [Hm [Hr Hp]]]]]]]]].
  exists t, i, m, r, p.
  assert (Hd : PrecisionTracking.detect_tool_selection_gesture fr
               = Some (PrecisionTracking.ladder t i m r p)).
  { unfold PrecisionTracking.detect_tool_selection_gesture.
    rewrite Ht, Hi, Hm, Hr, Hp. reflexivity. }
  destruct (ladder_spec t i m r p) as [Hiff [Hone Hnone]].
  repeat (split; [assumption |]).
  rewrite Hd. split; [| split; [| split]].
  - intros -> -> -> ->. destruct t; reflexivity.
  - intros tool Hin. rewrite <- (Hiff tool Hin).
    split; [intros E; injection E as E; exact E | intros ->; reflexivity].
  - exact Hone.
  - rewrite <- Hnone.
    split; [intros E; injection E as E; exact E | intros ->; reflexivity].
Qed.

Lemma tool_flags_hand (t i m r p : bool) :
  PrecisionTracking.is_thumb_extended (Hands.hand t i m r p) = Some t /\
  PrecisionTracking.above (Hands.hand t i m r p) 8 5 = Some i /\
  PrecisionTracking.above (Hands.hand t i m r p) 12 9 = Some m /\
  PrecisionTracking.above (Hands.hand t i m r p) 16 13 = Some r /\
  PrecisionTracking.above (Hands.hand t i m r p) 20 17 = Some p.
Proof.
  split.
  - rewrite thumb_same by (destruct t; cbn; lia). apply thumb_of_hand.
  - destruct t, i, m, r, p; cbn; compare; repeat split.
Qed.

(** The phone gesture and the rock sign. *)
Lemma tool_selection_ladder_witness :
  List.length Hands.phone = 21%nat /\
  List.length Hands.rock = 21%nat /\
  PrecisionTracking.detect_tool_selection_gesture Hands.phone
  = Some (Some ("rotate", 9/10)) /\
  PrecisionTracking.detect_tool_selection_gesture Hands.rock
  = Some (Some ("extrude", 9/10)).
Proof.
  split; [reflexivity |]. split; [reflexivity |]. split.
  - destruct (tool_selection_ladder Hands.phone eq_refl)
      as [t [i [m [r [p [Ht [Hi [Hm [Hr [Hp [H _]]]]]]]]]]].
    destruct (tool_flags_hand true true false false true) as [Et [Ei [Em [Er Ep]]]].
    fold Hands.phone in Et, Ei, Em, Er, Ep.
    rewrite Et in Ht. rewrite Ei in Hi. rewrite Em in Hm. rewrite Er in Hr.
    rewrite Ep in Hp.
    injection Ht as <-. injection Hi as <-. injection Hm as <-.
    injection Hr as <-. injection Hp as <-.
    apply H; reflexivity.
  - destruct (tool_selection_ladder Hands.rock eq_refl)
      as [t [i [m [r [p [Ht [Hi [Hm [Hr [Hp [H _]]]]]]]]]]].
    destruct (tool_flags_hand false true false false true) as [Et [Ei [Em [Er Ep]]]].
    fold Hands.rock in Et, Ei, Em, Er, Ep.
    rewrite Et in Ht. rewrite Ei in Hi. rewrite Em in Hm. rewrite Er in Hr.
    rewrite Ep in Hp.
    injection Ht as <-. injection Hi as <-. injection Hm as <-.
    injection Hr as <-. injection Hp as <-.
    apply H; reflexivity.
Defined.

Lemma norm3_sub3 (a b : Vec3) : Np.norm3 (Np.sub3 a b) = Documented.euclidean3 a b.
Proof. reflexivity. Qed.

Lemma measure_pinch_eq (fr : Frame) (thumb_tip index_tip : Landmark) :
  fr.[4] = Some thumb_tip -> fr.[8] = Some index_tip ->
  PrecisionTracking._measure_pinch fr
  = Some (Documented.euclidean3 thumb_tip index_tip).
Proof.
  intros H4 H8. unfold PrecisionTracking._measure_pinch. rewrite H4, H8.
  reflexivity.
Qed.

Lemma measure_finger_spread_eq (fr : Frame) (index middle ring pinky : Landmark) :
  fr.[8] = Some index -> fr.[12] = Some middle ->
  fr.[16] = Some ring -> fr.[20] = Some pinky ->
  PrecisionTracking._measure_finger_spread fr
  = Some (Documented.mean_adjacent_distance index middle ring pinky).
Proof.
  intros H8 H12 H16 H20. unfold PrecisionTracking._measure_finger_spread.
  cbn [Py.comprehension]. rewrite H8, H12, H16, H20.
  cbn [Py.bind PrecisionTracking.adjacent_distances]. f_equal.
  unfold Py.mean, Documented.mean_adjacent_distance. rewrite !norm3_sub3.
  cbn [Py.sum List.length]. replace (INR 3) with 3 by (cbn; lra). lra.
Qed.

Lemma pointing_total (fr : Frame) (velocities : Py.idict Vec3) :
  List.length fr = 21%nat ->
  exists b, PrecisionTracking._is_index_precision_pointing fr velocities = Some b.
Proof.
  intros H. unfold PrecisionTracking._is_index_precision_pointing.
  destruct (tool_flags_total fr H) as [t [i [m [r [p [_ [-> [-> [-> ->]]]]]]]]].
  cbn [Py.bind]. eauto.
Qed.

Lemma three_finger_total (fr : Frame) :
  List.length fr = 21%nat ->
  exists b, PrecisionTracking._is_three_finger_control fr = Some b.
Proof.
  intros H. unfold PrecisionTracking._is_three_finger_control.
  destruct (tool_flags_total fr H) as [t [i [m [r [p [_ [-> [-> [-> ->]]]]]]]]].
  cbn [Py.bind]. eauto.
Qed.

(** The mapping that the detector returns on a frame of 21 landmarks. *)
Lemma detect_precise_gestures_shape (data : PrecisionTracking.Data) :
  let fr := PrecisionTracking.landmarks data in
  let velocities :=
    match PrecisionTracking.velocities data with Some v => v | None => [] end in
  List.length fr = 21%nat ->
  exists thumb_tip index_tip middle_tip ring_tip pinky_tip pointing three tool,
    fr.[4] = Some thumb_tip /\ fr.[8] = Some index_tip /\
    fr.[12] = Some middle_tip /\ fr.[16] = Some ring_tip /\
    fr.[20] = Some pinky_tip /\
    PrecisionTracking._is_index_precision_pointing fr velocities = Some pointing /\
    PrecisionTracking._is_three_finger_control fr = Some three /\
    PrecisionTracking.detect_tool_selection_gesture fr = Some tool /\
    PrecisionTracking.detect_precise_gestures (Some data) =
    Some
      (let pinch_degree := Documented.euclidean3 thumb_tip index_tip in
       let spread :=
         Documented.mean_adjacent_distance index_tip middle_tip ring_tip pinky_tip in
       let gestures : Py.dict PrecisionTracking.Entry := [] in
       let gestures :=
         if pointing
         then Py.dict_set gestures "precision_point"
                (PrecisionTracking.Pointing (9/10) index_tip
                   (PrecisionTracking._get_pointing_direction fr))
         else gestures in
       let gestures :=
         if pinch_degree <? 5/100
         then Py.dict_set gestures "pinch"
                (PrecisionTracking.Pinching (9/10)
                   (Np.div3 (Np.add3 thumb_tip index_tip) 2)
                   (1 - pinch_degree * 20))
         else gestures in
       let gestures :=
         Py.dict_set gestures "spread_scale"
           (PrecisionTracking.Scaling (if spread >? 3/10 then 7/10 else 0)
              (spread * 3)) in
       let gestures :=
         if three
         then Py.dict_set gestures "three_finger_control"
                (PrecisionTracking.Pointing (8/10) middle_tip
                   (PrecisionTracking._get_middle_direction fr))
         else gestures in
       match tool with
       | Some (tool, confidence) =>
           Py.dict_set gestures "tool_selection"
             (PrecisionTracking.Tool tool confidence)
       | None => gestures
       end).
Proof.
  intros fr velocities Hlen.
  destruct (getitem_total fr 4) as [a H4]; [lia |].
  destruct (getitem_total fr 8) as [b H8]; [lia |].
  destruct (getitem_total fr 12) as [c H12]; [lia |].
  destruct (getitem_total fr 16) as [d H16]; [lia |].
  destruct (getitem_total fr 20) as [e H20]; [lia |].
  destruct (pointing_total fr velocities Hlen) as [pointing Hpt].
  destruct (three_finger_total fr Hlen) as [three H3].
  destruct (tool_flags_total fr Hlen) as [t [i [m [r [p [Ht [Hi [Hm [Hr Hp]]]]]]]]].
  exists a, b, c, d, e, pointing, three, (PrecisionTracking.ladder t i m r p).
  repeat (split; [assumption |]).
  assert (Htool : PrecisionTracking.detect_tool_selection_gesture fr
                  = Some (PrecisionTracking.ladder t i m r p)).
  { unfold PrecisionTracking.detect_tool_selection_gesture.
    rewrite Ht, Hi, Hm, Hr, Hp. reflexivity. }
  split; [exact Htool |].
  unfold PrecisionTracking.detect_precise_gestures.
  fold fr. fold velocities. rewrite Hpt. cbn [Py.bind].
  rewrite (measure_pinch_eq fr a b H4 H8).
  rewrite (measure_finger_spread_eq fr b c d e H8 H12 H16 H20).
  rewrite H3, Htool, H4, H8, H12. cbv zeta. cbn [Py.bind].
  destruct pointing, (Documented.euclidean3 a b <? 5/100), three;
    reflexivity.
Qed.

(** Look an entry up in a mapping built by assignments. *)
Ltac lookup :=
  repeat first
    [ rewrite dict_get_set_same
    | rewrite dict_get_set_other by discriminate ].

(** C8: on tracking data with a frame of 21 landmarks the mapping that
    [detect_precise_gestures] returns has a spread_scale entry; its
    scale_factor is 3 times the mean distance between the adjacent
    fingertips of index, middle, ring and pinky, whatever the confidence,
    and its confidence is 0.7 when that mean exceeds 0.3 and 0
    otherwise. *)
Theorem spread_scale_always_present (data : PrecisionTracking.Data) :
  let fr := PrecisionTracking.landmarks data in
  List.length fr = 21%nat ->
  exists index middle ring pinky gestures confidence,
    fr.[8] = Some index /\ fr.[12] = Some middle /\
    fr.[16] = Some ring /\ fr.[20] = Some pinky /\
    PrecisionTracking.detect_precise_gestures (Some data) = Some gestures /\
    let mean := Documented.mean_adjacent_distance index middle ring pinky in
    Py.dict_get gestures "spread_scale"
    = Some (PrecisionTracking.Scaling confidence (mean * 3)) /\
    (mean > 3/10 -> confidence = 7/10) /\
    (mean <= 3/10 -> confidence = 0).
Proof.
  intros fr Hlen.
  destruct (detect_precise_gestures_shape data Hlen)
    as [a [b [c [d [e [pointing [three [tool
         [H4 [H8 [H12 [H16 [H20 [_ [_ [_ Hd]]]]]]]]]]]]]]]].
  fold fr in H4, H8, H12, H16, H20.
  cbv zeta in Hd.
  exists b, c, d, e.
  match type of Hd with _ = Some ?g => exists g end.
  exists (if Documented.mean_adjacent_distance b c d e >? 3/10 then 7/10 else 0).
  repeat (split; [assumption |]).
  cbv zeta. split; [| split].
  - destruct tool as [[t conf] |], three; lookup; reflexivity.
  - intros H. unfold Py.gtb. rewrite ltb_true by lra. reflexivity.
  - intros H. unfold Py.gtb. rewrite ltb_false by lra. reflexivity.
Qed.

Lemma euclidean3_eq (a b : Landmark) (n : R) :
  0 <= n ->
  (lx a - lx b) ^ 2 + (ly a - ly b) ^ 2 + (lz a - lz b) ^ 2 = n ^ 2 ->
  Documented.euclidean3 a b = n.
Proof.
  intros Hn H. unfold Documented.euclidean3. rewrite H. apply sqrt_pow2, Hn.
Qed.

Lemma euclidean2_eq (a b : Landmark) (n : R) :
  0 <= n ->
  (lx a - lx b) ^ 2 + (ly a - ly b) ^ 2 = n ^ 2 ->
  Documented.euclidean2 a b = n.
Proof.
  intros Hn H. unfold Documented.euclidean2. rewrite H. apply sqrt_pow2, Hn.
Qed.

(** The closed hand: fingertips 0.05 apart, confidence 0, scale factor
    0.15. *)
Lemma spread_scale_always_present_witness :
  List.length (PrecisionTracking.landmarks (Hands.tracked Hands.closed)) = 21%nat /\
  exists gestures,
    PrecisionTracking.detect_precise_gestures (Some (Hands.tracked Hands.closed))
    = Some gestures /\
    Py.dict_get gestures "spread_scale"
    = Some (PrecisionTracking.Scaling 0 (5/100 * 3)).
Proof.
  split; [reflexivity |].
  destruct (spread_scale_always_present (Hands.tracked Hands.closed) eq_refl)
    as [i [m [r [p [gestures [c [Hi [Hm [Hr [Hp [Hd [Hg [_ H0]]]]]]]]]]]]].
  cbn in Hi, Hm, Hr, Hp.
  injection Hi as <-. injection Hm as <-. injection Hr as <-. injection Hp as <-.
  assert (Hmean : Documented.mean_adjacent_distance
                    (mkVec3 (45/100) (65/100) 0) (mkVec3 (5/10) (65/100) 0)
                    (mkVec3 (55/100) (65/100) 0) (mkVec3 (6/10) (65/100) 0)
                  = 5/100).
  { unfold Documented.mean_adjacent_distance.
    rewrite !(euclidean3_eq _ _ (5/100)) by (cbn; lra). lra. }
  rewrite Hmean in Hg, H0. rewrite H0 in Hg by lra.
  exists gestures. split; [exact Hd | exact Hg].
Defined.

(** ** The pinch distance *)

Lemma measure_eq (fr : Frame) (thumb_tip index_tip : Landmark) :
  List.length fr = 21%nat ->
  fr.[4] = Some thumb_tip -> fr.[8] = Some index_tip ->
  exists f,
    GestureSystem.measure fr = Some (f, Documented.euclidean2 thumb_tip index_tip).
Proof.
  intros Hlen H4 H8. unfold GestureSystem.measure.
  destruct (gs_is_thumb_extended_total fr) as [t ->]; [lia |].
  rewrite H4, H8.
  destruct (getitem_total fr 0) as [? ->]; [lia |].
  destruct (getitem_total fr 2) as [? ->]; [lia |].
  destruct (getitem_total fr 6) as [? ->]; [lia |].
  destruct (getitem_total fr 12) as [? ->]; [lia |].
  destruct (getitem_total fr 10) as [? ->]; [lia |].
  destruct (getitem_total fr 16) as [? ->]; [lia |].
  destruct (getitem_total fr 14) as [? ->]; [lia |].
  destruct (getitem_total fr 20) as [? ->]; [lia |].
  destruct (getitem_total fr 18) as [? ->]; [lia |].
  cbn [Py.bind]. eexists. f_equal. apply f_equal.
  unfold Documented.euclidean2, Np.sub2, Np.xy. cbn [v2x v2y Py.sum].
  f_equal. ring.
Qed.

Lemma score_pinch (f : GestureSystem.Fingers) (d : R) :
  Py.dict_get (GestureSystem.score f d) "pinch"
  = Some (if d <? 5/100 then 8/10 else 0).
Proof.
  unfold GestureSystem.score.
  destruct f as [[] [] [] [] []]; destruct (d <? 5/100); reflexivity.
Qed.

(** The confidences that a call leaves behind are the scores of the
    frame. *)
Lemma detect_gesture_confidence (self : GestureSystem.t) (fr : Frame) (now : R)
    (f : GestureSystem.Fingers) (d : R) :
  GestureSystem.measure fr = Some (f, d) ->
  exists g self',
    GestureSystem.detect_gesture self fr now = Some (g, self') /\
    GestureSystem.gesture_confidence self' = GestureSystem.score f d.
Proof.
  intros Hm. rewrite (detect_gesture_measured _ _ _ _ _ Hm).
  destruct (score_has_best f d) as [[g c] ->]. cbn [Py.bind fst snd].
  destruct (c >? 5/10); eexists _, _; (split; [reflexivity |]).
  - apply remember_confidence.
  - reflexivity.
Qed.

(** C3 (amended): on a frame of 21 landmarks, the pinch distance of the
    coarse classifier is the Euclidean distance between thumb tip and
    index tip over x and y only, and [detect_gesture] gives pinch the
    confidence 0.8 exactly when that distance is below 0.05 and 0
    otherwise; the pinch distance of the precision detector is the
    Euclidean distance over x, y and z, and [detect_precise_gestures]
    reports pinch, with confidence 0.9, exactly when that distance is
    below 0.05. *)
Theorem pinch_distance_and_threshold
    (self : GestureSystem.t) (data : PrecisionTracking.Data) (now : R) :
  let fr := PrecisionTracking.landmarks data in
  List.length fr = 21%nat ->
  exists thumb_tip index_tip,
    fr.[4] = Some thumb_tip /\ fr.[8] = Some index_tip /\
    (let distance := Documented.euclidean2 thumb_tip index_tip in
     exists f g self' confidence,
       GestureSystem.measure fr = Some (f, distance) /\
       GestureSystem.detect_gesture self fr now = Some (g, self') /\
       Py.dict_get (GestureSystem.gesture_confidence self') "pinch"
       = Some confidence /\
       (distance < 5/100 -> confidence = 8/10) /\
       (5/100 <= distance -> confidence = 0)) /\
    (let distance := Documented.euclidean3 thumb_tip index_tip in
     exists gestures,
       PrecisionTracking._measure_pinch fr = Some distance /\
       PrecisionTracking.detect_precise_gestures (Some data) = Some gestures /\
       (distance < 5/100 ->
          Py.dict_get gestures "pinch"
          = Some (PrecisionTracking.Pinching (9/10)
                    (Np.div3 (Np.add3 thumb_tip index_tip) 2)
                    (1 - distance * 20))) /\
       (5/100 <= distance -> Py.dict_get gestures "pinch" = None)).
Proof.
  intros fr Hlen.
  destruct (detect_precise_gestures_shape data Hlen)
    as [a [b [c [d [e [pointing [three [tool
         [H4 [H8 [_ [_ [_ [_ [_ [_ Hd]]]]]]]]]]]]]]]].
  fold fr in H4, H8. exists a, b.
  split; [exact H4 |]. split; [exact H8 |]. split.
  - cbv zeta. destruct (measure_eq fr a b Hlen H4 H8) as [f Hm].
    destruct (detect_gesture_confidence self fr now _ _ Hm) as [g [self' [Hg Hc]]].
    exists f, g, self', (if Documented.euclidean2 a b <? 5/100 then 8/10 else 0).
    split; [exact Hm |]. split; [exact Hg |]. split; [| split].
    + rewrite Hc. apply score_pinch.
    + intros H. rewrite ltb_true by exact H. reflexivity.
    + intros H. rewrite ltb_false by exact H. reflexivity.
  - cbv zeta in *. eexists. split; [apply measure_pinch_eq; assumption |].
    split; [exact Hd |]. split; intros H.
    + rewrite ltb_true by exact H.
      destruct tool as [[t conf] |], three, pointing; lookup; reflexivity.
    + rewrite ltb_false by exact H.
      destruct tool as [[t conf] |], three, pointing; lookup; reflexivity.
Qed.

Lemma apart_tips (d : R) :
  0 <= d ->
  (Hands.apart d).[4] = Some (mkVec3 (4/10) (8/10) 0) /\
  (Hands.apart d).[8] = Some (mkVec3 (4/10 + d) (8/10) 0) /\
  Documented.euclidean2 (mkVec3 (4/10) (8/10) 0) (mkVec3 (4/10 + d) (8/10) 0) = d.
Proof.
  intros Hd. split; [reflexivity |]. split; [reflexivity |].
  apply euclidean2_eq; [exact Hd | cbn; ring].
Qed.

(** Thumb tip and index tip 0.0499 and 0.0501 apart. *)
Lemma pinch_distance_and_threshold_witness :
  List.length (PrecisionTracking.landmarks (Hands.tracked (Hands.apart (499/10000))))
  = 21%nat /\
  List.length (PrecisionTracking.landmarks (Hands.tracked (Hands.apart (501/10000))))
  = 21%nat /\
  (exists g self',
     GestureSystem.detect_gesture GestureSystem.init (Hands.apart (499/10000)) 1000
     = Some (g, self') /\
     Py.dict_get (GestureSystem.gesture_confidence self') "pinch" = Some (8/10)) /\
  (exists g self',
     GestureSystem.detect_gesture GestureSystem.init (Hands.apart (501/10000)) 1000
     = Some (g, self') /\
     Py.dict_get (GestureSystem.gesture_confidence self') "pinch" = Some 0).
Proof.
  split; [reflexivity |]. split; [reflexivity |]. split.
  - destruct (pinch_distance_and_threshold GestureSystem.init
                (Hands.tracked (Hands.apart (499/10000))) 1000 eq_refl)
      as [a [b [H4 [H8 [[f [g [self' [c [_ [Hd [Hc [Hlt _]]]]]]]] _]]]]].
    destruct (apart_tips (499/10000)) as [E4 [E8 Ed]]; [lra |].
    cbn [Hands.tracked PrecisionTracking.landmarks] in H4, H8, Hd.
    rewrite E4 in H4. rewrite E8 in H8. injection H4 as <-. injection H8 as <-.
    rewrite Ed in Hlt. exists g, self'. split; [exact Hd |].
    rewrite Hc, Hlt by lra. reflexivity.
  - destruct (pinch_distance_and_threshold GestureSystem.init
                (Hands.tracked (Hands.apart (501/10000))) 1000 eq_refl)
      as [a [b [H4 [H8 [[f [g [self' [c [_ [Hd [Hc [_ Hge]]]]]]]] _]]]]].
    destruct (apart_tips (501/10000)) as [E4 [E8 Ed]]; [lra |].
    cbn [Hands.tracked PrecisionTracking.landmarks] in H4, H8, Hd.
    rewrite E4 in H4. rewrite E8 in H8. injection H4 as <-. injection H8 as <-.
    rewrite Ed in Hge. exists g, self'. split; [exact Hd |].
    rewrite Hc, Hge by lra. reflexivity.
Defined.

(** C3 as stated fails for the coarse classifier: with thumb tip and
    index tip at the same place of the image and one unit apart in depth,
    their Euclidean distance over x, y and z is 1, yet the pinch distance
    of [detect_gesture] is 0 and it gives pinch the confidence 0.8. *)
Lemma coarse_pinch_ignores_depth :
  exists thumb_tip index_tip,
    Hands.depth_apart.[4] = Some thumb_tip /\
    Hands.depth_apart.[8] = Some index_tip /\
    Documented.euclidean3 thumb_tip index_tip = 1 /\
    ~ (1 < 5/100) /\
    exists f g self',
      GestureSystem.measure Hands.depth_apart = Some (f, 0) /\
      GestureSystem.detect_gesture GestureSystem.init Hands.depth_apart 1000
      = Some (g, self') /\
      Py.dict_get (GestureSystem.gesture_confidence self') "pinch" = Some (8/10).
Proof.
  exists (mkVec3 (4/10) (8/10) 0), (mkVec3 (4/10) (8/10) 1).
  split; [reflexivity |]. split; [reflexivity |]. split; [| split; [lra |]].
  - apply euclidean3_eq; [lra | cbn; ring].
  - destruct (measure_eq Hands.depth_apart (mkVec3 (4/10) (8/10) 0)
                (mkVec3 (4/10) (8/10) 1)) as [f Hm]; try reflexivity.
    rewrite (euclidean2_eq _ _ 0) in Hm by (cbn; lra).
    destruct (detect_gesture_confidence GestureSystem.init Hands.depth_apart 1000
                _ _ Hm) as [g [self' [Hd Hc]]].
    exists f, g, self'. split; [exact Hm |]. split; [exact Hd |].
    rewrite Hc, score_pinch. rewrite ltb_true by lra. reflexivity.
Qed.

(** ** The tracker *)

Lemma idict_get_set_same {V : Type} (d : Py.idict V) (k : nat) (v : V) :
  Py.idict_get (Py.idict_set d k v) k = Some v.
Proof.
  induction d as [| [k' v'] d IH]; cbn.
  - rewrite Nat.eqb_refl. reflexivity.
  - destruct (Nat.eqb k k') eqn:E; cbn; rewrite E; [reflexivity | exact IH].
Qed.

Lemma idict_get_set_other {V : Type} (d : Py.idict V) (k k' : nat) (v : V) :
  k' <> k -> Py.idict_get (Py.idict_set d k v) k' = Py.idict_get d k'.
Proof.
  intros Hne. induction d as [| [k0 v0] d IH]; cbn.
  - apply Nat.eqb_neq in Hne. rewrite Hne. reflexivity.
  - destruct (Nat.eqb k k0) eqn:E; cbn.
    + apply Nat.eqb_eq in E. subst k0.
      apply Nat.eqb_neq in Hne. rewrite Hne. reflexivity.
    + rewrite IH. reflexivity.
Qed.

Lemma length_setitem {A : Type} (l : list A) (i : nat) (v : A) :
  List.length (Py.setitem l i v) = List.length l.
Proof.
  revert i. induction l as [| a l IH]; intros [| i]; cbn; try reflexivity.
  rewrite IH. reflexivity.
Qed.

Lemma filter_fingertip_spec (L : PrecisionTracking.Libs) (landmarks : Frame)
    (filters : Py.idict (PrecisionTracking.KalmanFilter L)) (filtered : Frame) (i : nat) :
  (i < List.length landmarks)%nat ->
  (exists kf, Py.idict_get filters i = Some kf) ->
  exists kf p,
    PrecisionTracking.filter_fingertip L landmarks (filters, filtered) i
    = Some (Py.idict_set filters i kf, Py.setitem filtered i p).
Proof.
  intros Hi [kf Hkf]. unfold PrecisionTracking.filter_fingertip.
  destruct (getitem_total landmarks i Hi) as [p ->]. cbn [Py.bind].
  rewrite Hkf. cbn [Py.bind]. eauto.
Qed.

Lemma filtering_total (L : PrecisionTracking.Libs) (landmarks : Frame)
    (filters : Py.idict (PrecisionTracking.KalmanFilter L)) :
  List.length landmarks = 21%nat ->
  (forall i, In i PrecisionTracking.fingertips ->
     exists kf, Py.idict_get filters i = Some kf) ->
  exists filters' filtered,
    Py.for_each PrecisionTracking.fingertips (filters, landmarks)
      (PrecisionTracking.filter_fingertip L landmarks)
    = Some (filters', filtered) /\
    List.length filtered = 21%nat /\
    (forall i, In i PrecisionTracking.fingertips ->
       exists kf, Py.idict_get filters' i = Some kf).
Proof.
  intros Hlen Hok.
  assert (Hgen : forall tips filters0 filtered0,
            (forall i, In i tips -> (i < 21)%nat) ->
            List.length filtered0 = 21%nat ->
            (forall i, In i PrecisionTracking.fingertips ->
               exists kf, Py.idict_get filters0 i = Some kf) ->
            (forall i, In i tips -> In i PrecisionTracking.fingertips) ->
            exists filters' filtered,
              Py.for_each tips (filters0, filtered0)
                (PrecisionTracking.filter_fingertip L landmarks)
              = Some (filters', filtered) /\
              List.length filtered = 21%nat /\
              (forall i, In i PrecisionTracking.fingertips ->
                 exists kf, Py.idict_get filters' i = Some kf)).
  { induction tips as [| i tips IH]; intros filters0 filtered0 Hlt Hl Hk Hsub.
    - exists filters0, filtered0. repeat split; assumption.
    - destruct (filter_fingertip_spec L landmarks filters0 filtered0 i)
        as [kf [p E]].
      + rewrite Hlen. apply Hlt. left. reflexivity.
      + apply Hk, Hsub. left. reflexivity.
      + destruct (IH (Py.idict_set filters0 i kf) (Py.setitem filtered0 i p))
          as [filters' [filtered [Hrun Hrest]]].
        * intros j Hj. apply Hlt. right. exact Hj.
        * rewrite length_setitem. exact Hl.
        * intros j Hj. destruct (Nat.eq_dec j i) as [-> | Hne].
          -- exists kf. apply idict_get_set_same.
          -- rewrite idict_get_set_other by exact Hne. apply Hk, Hj.
        * intros j Hj. apply Hsub. right. exact Hj.
        * exists filters', filtered. split; [| exact Hrest].
          cbn [Py.for_each]. unfold Frame in *. rewrite E. exact Hrun. }
  apply Hgen; try assumption.
  - intros i Hi. cbn in Hi. intuition lia.
  - intros i Hi. exact Hi.
Qed.

Lemma velocities_spec (filtered prev : Frame) :
  List.length filtered = 21%nat -> List.length prev = 21%nat ->
  exists v,
    Py.for_each PrecisionTracking.fingertips []
      (PrecisionTracking.velocity_of filtered prev) = Some v /\
    map fst v = PrecisionTracking.fingertips.
Proof.
  intros Hf Hp. explode filtered Hf. explode prev Hp.
  cbn. eexists. split; reflexivity.
Qed.

Lemma stable_palm_total (fr : Frame) :
  List.length fr = 21%nat ->
  exists palm, PrecisionTracking._get_stable_palm fr = Some palm.
Proof.
  intros H. explode fr H. cbn. eauto.
Qed.

Lemma update_spec (L : PrecisionTracking.Libs) (self : PrecisionTracking.t L)
    (fr : Frame) :
  tracker_invariant L self ->
  List.length fr = 21%nat ->
  exists self' data v,
    PrecisionTracking.update L self (Some fr) = Some (self', Some data) /\
    tracker_invariant L self' /\
    List.length (PrecisionTracking.landmarks data) = 21%nat /\
    PrecisionTracking.prev_landmarks L self' = Some (PrecisionTracking.landmarks data) /\
    PrecisionTracking.velocities data = Some v /\
    map fst v = match PrecisionTracking.prev_landmarks L self with
                | Some _ => PrecisionTracking.fingertips
                | None => []
                end.
Proof.
  intros [Hok Hprev] Hlen. unfold PrecisionTracking.update.
  destruct (filtering_total L fr (PrecisionTracking.filters L self) Hlen Hok)
    as [filters' [filtered [-> [Hfl Hok']]]].
  cbn [Py.bind].
  destruct (stable_palm_total filtered Hfl) as [palm Hpalm].
  destruct (PrecisionTracking.prev_landmarks L self) as [prev |] eqn:Eprev.
  - cbv beta iota zeta.
    destruct (velocities_spec filtered prev Hfl (Hprev prev eq_refl)) as [v [Ev Hv]].
    eexists _, _, v. split.
    { unfold Frame, Py.idict in *. rewrite Ev. cbn [Py.bind].
      rewrite Hpalm. cbn [Py.bind]. reflexivity. }
    cbn. repeat split; try assumption.
    intros p E. injection E as <-. exact Hfl.
  - cbv beta iota zeta. cbn [Py.bind].
    eexists _, _, []. split.
    { unfold Frame, Py.idict in *. rewrite Hpalm. cbn [Py.bind]. reflexivity. }
    cbn. repeat split; try assumption.
    intros p E. injection E as <-. exact Hfl.
Qed.

Lemma init_invariant (L : PrecisionTracking.Libs) :
  tracker_invariant L (PrecisionTracking.init L).
Proof.
  split.
  - intros i Hi. cbn in Hi.
    repeat (destruct Hi as [<- | Hi]; [cbn; eauto |]). contradiction.
  - intros prev E. discriminate E.
Qed.

Lemma update_none (L : PrecisionTracking.Libs) (self : PrecisionTracking.t L) :
  PrecisionTracking.update L self None = Some (self, None).
Proof. reflexivity. Qed.

(** Without a velocity for the index tip there is no precision_point. *)
Lemma no_velocity_no_precision_point (data : PrecisionTracking.Data) :
  List.length (PrecisionTracking.landmarks data) = 21%nat ->
  PrecisionTracking.velocities data = Some [] ->
  exists gestures,
    PrecisionTracking.detect_precise_gestures (Some data) = Some gestures /\
    Py.dict_get gestures "precision_point" = None.
Proof.
  intros Hlen Hv.
  destruct (detect_precise_gestures_shape data Hlen)
    as [a [b [c [d [e [pointing [three [tool
         [_ [_ [_ [_ [_ [Hpt [_ [_ Hd]]]]]]]]]]]]]]]].
  rewrite Hv in Hpt.
  unfold PrecisionTracking._is_index_precision_pointing in Hpt.
  destruct (tool_flags_total _ Hlen) as [t [i [m [r [p [_ [Hi [Hm [Hr Hp]]]]]]]]].
  rewrite Hi, Hm, Hr, Hp in Hpt. cbn in Hpt. rewrite andb_false_r in Hpt.
  injection Hpt as <-.
  cbv zeta in Hd. eexists. split; [exact Hd |].
  destruct tool as [[tl conf] |], three, (_ <? _); lookup; reflexivity.
Qed.

(** A frame, a tick without a hand, and a frame again: the last update
    has a velocity for each fingertip. *)
Lemma run_reacquired (L : PrecisionTracking.Libs) (fr0 fr1 : Frame) :
  List.length fr0 = 21%nat -> List.length fr1 = 21%nat ->
  exists self data v,
    PrecisionTracking.run L (PrecisionTracking.init L) [Some fr0; None; Some fr1] None
    = Some (self, Some data) /\
    PrecisionTracking.velocities data = Some v /\
    map fst v = PrecisionTracking.fingertips.
Proof.
  intros H0 H1.
  destruct (update_spec L _ fr0 (init_invariant L) H0)
    as [self0 [data0 [v0 [Hu0 [Hinv0 [_ [Hprev0 _]]]]]]].
  destruct (update_spec L self0 fr1 Hinv0 H1)
    as [self1 [data1 [v1 [Hu1 [_ [_ [_ [Hv1 Hkeys]]]]]]]].
  rewrite Hprev0 in Hkeys.
  exists self1, data1, v1. split; [| split; assumption].
  cbn [PrecisionTracking.run]. rewrite Hu0, update_none, Hu1. reflexivity.
Qed.

(** C10 (amended): on the first update of a freshly constructed tracker,
    with a frame of 21 landmarks, the velocity map is empty and
    [detect_precise_gestures] reports no precision_point for the data
    returned, whatever the pose; the tracker never forgets its previous
    frame, so on the first update after the hand was lost and found again
    the velocity map has an entry for each of the five fingertips. *)
Theorem first_update_has_no_velocity
    (L : PrecisionTracking.Libs) (fr0 fr1 : Frame) :
  List.length fr0 = 21%nat -> List.length fr1 = 21%nat ->
  (exists self data gestures,
     PrecisionTracking.update L (PrecisionTracking.init L) (Some fr0)
     = Some (self, Some data) /\
     PrecisionTracking.velocities data = Some [] /\
     PrecisionTracking.detect_precise_gestures (Some data) = Some gestures /\
     Py.dict_get gestures "precision_point" = None) /\
  (exists self data v,
     PrecisionTracking.run L (PrecisionTracking.init L) [Some fr0; None; Some fr1] None
     = Some (self, Some data) /\
     PrecisionTracking.velocities data = Some v /\
     map fst v = PrecisionTracking.fingertips).
Proof.
  intros H0 H1. split; [| apply run_reacquired; assumption].
  destruct (update_spec L _ fr0 (init_invariant L) H0)
    as [self [data [v [Hu [_ [Hlen [_ [Hv Hkeys]]]]]]]].
  cbn in Hkeys. apply map_eq_nil in Hkeys. subst v.
  destruct (no_velocity_no_precision_point data Hlen Hv) as [gestures [Hd Hg]].
  exists self, data, gestures. repeat split; assumption.
Qed.

(** The pointing hand as the first frame. *)
Lemma first_update_has_no_velocity_witness :
  List.length Hands.point = 21%nat /\
  exists self data gestures,
    PrecisionTracking.update Hands.latest_measurement
      (PrecisionTracking.init Hands.latest_measurement) (Some Hands.point)
    = Some (self, Some data) /\
    PrecisionTracking.velocities data = Some [] /\
    PrecisionTracking.detect_precise_gestures (Some data) = Some gestures /\
    Py.dict_get gestures "precision_point" = None.
Proof.
  split; [reflexivity |].
  apply (first_update_has_no_velocity Hands.latest_measurement
           Hands.point Hands.point eq_refl eq_refl).
Defined.

(** C10 as stated fails after a re-acquisition: fed the pointing hand, a
    tick without a hand and the pointing hand again, the tracker returns
    a velocity map that is not empty, whatever the filter library. *)
Lemma velocity_after_reacquisition :
  (exists self data v,
     PrecisionTracking.run Hands.latest_measurement
       (PrecisionTracking.init Hands.latest_measurement)
       [Some Hands.point; None; Some Hands.point] None
     = Some (self, Some data) /\
     PrecisionTracking.velocities data = Some v /\ v <> []) /\
  ~ (exists L self data,
       PrecisionTracking.run L (PrecisionTracking.init L)
         [Some Hands.point; None; Some Hands.point] None
       = Some (self, Some data) /\
       PrecisionTracking.velocities data = Some []).
Proof.
  split.
  - destruct (run_reacquired Hands.latest_measurement Hands.point Hands.point
                eq_refl eq_refl) as [self [data [v [Hrun [Hv Hkeys]]]]].
    exists self, data, v. split; [exact Hrun |]. split; [exact Hv |].
    intros ->. discriminate Hkeys.
  - intros [L [self [data [Hrun Hempty]]]].
    destruct (run_reacquired L Hands.point Hands.point eq_refl eq_refl)
      as [self' [data' [v [Hrun' [Hv Hkeys]]]]].
    rewrite Hrun' in Hrun. injection Hrun as <- <-.
    rewrite Hv in Hempty. injection Hempty as ->. discriminate Hkeys.
Qed.

(** ** The model at work on concrete sessions *)

(** A constructed hand, classified. *)
Lemma detect_hand (self : GestureSystem.t) (t i m r p : bool) (now : R) :
  exists d,
    (d <? 5/100) = false /\
    GestureSystem.detect_gesture self (Hands.hand t i m r p) now =
    (best <- Py.max_by_value (GestureSystem.score (GestureSystem.mkFingers t i m r p) d) ;;
     if snd best >? 5/10
     then Some (fst best,
                GestureSystem.remember
                  (GestureSystem.with_confidence self
                     (GestureSystem.score (GestureSystem.mkFingers t i m r p) d))
                  (fst best) now)
     else Some ("unknown",
                GestureSystem.with_confidence self
                  (GestureSystem.score (GestureSystem.mkFingers t i m r p) d))).
Proof.
  destruct (measure_hand t i m r p) as [d [Hm Hp]].
  exists d. split; [exact Hp |]. apply detect_gesture_measured, Hm.
Qed.

Ltac classify_hand :=
  match goal with
  | |- context [GestureSystem.detect_gesture ?self (Hands.hand ?t ?i ?m ?r ?p) ?now] =>
      let d := fresh "d" in
      let Hp := fresh "Hp" in
      let Hd := fresh "Hd" in
      destruct (detect_hand self t i m r p now) as [d [Hp Hd]];
      rewrite Hd; clear Hd;
      unfold GestureSystem.score; rewrite Hp;
      unfold GestureSystem.remember;
      cbn -[Hands.hand]; compare; cbn -[Hands.hand]
  end.

Example rock_sign_detected :
  exists self',
    GestureSystem.detect_gesture GestureSystem.init Hands.rock 1000
    = Some ("rock_sign", self') /\
    GestureSystem.gesture_history self' = [("rock_sign", 1000)] /\
    GestureSystem.last_gesture_time self' = 1000.
Proof.
  unfold Hands.rock. classify_hand. eexists. repeat split.
Qed.

Example pointing_is_a_fist :
  exists self',
    GestureSystem.detect_gesture GestureSystem.init Hands.point 1000
    = Some ("fist", self').
Proof.
  unfold Hands.point. classify_hand. eexists. repeat split.
Qed.

Example three_fingers_are_unknown :
  exists self',
    GestureSystem.detect_gesture GestureSystem.init
      (Hands.hand false true true true false) 1000
    = Some ("unknown", self') /\
    GestureSystem.gesture_history self' = [].
Proof.
  classify_hand. eexists. repeat split.
Qed.

Example eleventh_entry_evicts_the_first :
  exists gs self',
    GestureSystem.detect_all GestureSystem.init
      (map (fun now => (Hands.rock, now))
           [1000; 1002; 1004; 1006; 1008; 1010; 1012; 1014; 1016; 1018; 1020])
    = Some (gs, self') /\
    map snd (GestureSystem.gesture_history self')
    = [1002; 1004; 1006; 1008; 1010; 1012; 1014; 1016; 1018; 1020].
Proof.
  unfold Hands.rock. cbn [map GestureSystem.detect_all].
  do 11 classify_hand. eexists _, _. split; reflexivity.
Qed.

Example pointing_selects :
  PrecisionTracking.detect_tool_selection_gesture Hands.point
  = Some (Some ("select", 9/10)).
Proof.
  unfold PrecisionTracking.detect_tool_selection_gesture, Hands.point.
  destruct (tool_flags_hand false true false false false)
    as [-> [-> [-> [-> ->]]]].
  reflexivity.
Qed.

Example dispatch_trace :
  snd (Controller.execute_all Controller.init
         [("fist", 1000); ("peace", 1000 + 5/10); ("open_palm", 1000 + 6/10);
          ("peace", 1000 + 8/10); ("unknown", 1000 + 17/10); ("fist", 1002)])
  = [Controller.spawn_drone; Controller.play_sound_effect "drone";
     Controller.shoot_bullet; Controller.play_sound_effect "shoot"].
Proof.
  cbn [Controller.execute_all].
  unfold Controller.execute_gesture_action. evaluate. reflexivity.
Qed.

Ltac check_hand :=
  match goal with
  | |- context [Controller.check_for_mode_toggle ?self (Hands.hand ?t ?i ?m ?r ?p) ?dt] =>
      unfold Controller.check_for_mode_toggle at 1;
      rewrite (all_extended_hand t i m r p);
      unfold Controller.mode_toggle_step, Controller.toggle_cad_mode;
      cbn -[Hands.hand]; compare; cbn -[Hands.hand]
  end.

(** Hold until the toggle fires. *)
Example toggle_fires :
  let open_hand := Hands.hand true true true true true in
  exists self',
    Controller.check_all Controller.init
      [(open_hand, 3/100); (open_hand, 6/10); (open_hand, 6/10)]
    = Some (self',
            [Controller.cad_toggle_active; Controller.update_ui_for_mode "cad";
             Controller.play_sound_effect "toggle"]) /\
    Controller.cad_active self' = true /\
    Controller.mode_toggle_cooldown self' = -1.
Proof.
  cbv zeta. cbn [Controller.check_all].
  do 3 check_hand. eexists. repeat split.
Qed.

(** Cool down: the time with the pose held does not count, and the pose
    arms the timer again once the cooldown is over. *)
Example cooldown_then_arming :
  let open_hand := Hands.hand true true true true true in
  exists self',
    Controller.check_all (Controller.set_mode_toggle_cooldown Controller.init (-1))
      [(Hands.closed, 5/10); (open_hand, 3/10); (Hands.closed, 4/10);
       (Hands.closed, 2/10); (open_hand, 1/10)]
    = Some (self', []) /\
    Controller.mode_toggle_cooldown self' = 1.
Proof.
  cbv zeta. unfold Hands.closed. cbn [Controller.check_all].
  do 5 check_hand. eexists. repeat split.
Qed.

(** * Further properties of the code

    Properties of the classifier, the tracker, the controller and the CAD
    system beyond those of the specification. *)

(** ** The coarse classifier, further *)

Lemma score_winner (f : GestureSystem.Fingers) (d : R) :
  exists c,
    Py.max_by_value (GestureSystem.score f d) = Some c /\
    Coarse.winner f d = (if snd c >? 5/10 then fst c else "unknown").
Proof.
  unfold GestureSystem.score, Coarse.winner.
  destruct f as [[] [] [] [] []]; destruct (d <? 5/100);
    cbn; compare; eexists; split; try reflexivity; cbn; compare; reflexivity.
Qed.

(** X1: on a frame of 21 landmarks [detect_gesture] returns the first rule
    that holds in the order open_palm, thumbs_up, peace, fist, pinch,
    rock_sign, and unknown when none does: the rules of confidence 0.9 win
    over those of confidence 0.8, and among these the order of the
    dictionary decides. *)
Theorem detect_gesture_priority (self : GestureSystem.t) (fr : Frame) (now : R) :
  List.length fr = 21%nat ->
  exists f d self',
    GestureSystem.measure fr = Some (f, d) /\
    GestureSystem.detect_gesture self fr now = Some (Coarse.winner f d, self').
Proof.
  intros Hlen. destruct (measure_total fr Hlen) as [f [d Hm]].
  destruct (score_winner f d) as [[g c] [Hmax Hw]].
  exists f, d. rewrite (detect_gesture_measured _ _ _ _ _ Hm), Hmax, Hw.
  cbn [Py.bind fst snd]. destruct (c >? 5/10); eexists; split; first [exact Hm | reflexivity].
Qed.

(** The rock sign, on a fresh classifier. *)
Lemma detect_gesture_priority_witness :
  List.length Hands.rock = 21%nat /\
  exists f d self',
    GestureSystem.measure Hands.rock = Some (f, d) /\
    GestureSystem.detect_gesture GestureSystem.init Hands.rock 1000
    = Some (Coarse.winner f d, self').
Proof.
  split; [reflexivity |].
  apply (detect_gesture_priority GestureSystem.init Hands.rock 1000 eq_refl).
Defined.

Lemma max_in_gestures (f : GestureSystem.Fingers) (d : R) (g : string) (c : R) :
  Py.max_by_value (GestureSystem.score f d) = Some (g, c) ->
  In g Documented.gestures.
Proof.
  unfold GestureSystem.score.
  destruct f as [[] [] [] [] []]; destruct (d <? 5/100);
    cbn; compare; intros H; injection H as <- <-; cbn; tauto.
Qed.

(** One call on a valid frame: the history is left alone, or gets one of
    the six gestures at its end, more than the cooldown after the latest
    append. *)
Lemma detect_gesture_appends (self : GestureSystem.t) (fr : Frame) (now : R) :
  GestureSystem.valid fr ->
  exists g self',
    GestureSystem.detect_gesture self fr now = Some (g, self') /\
    GestureSystem.max_history self' = GestureSystem.max_history self /\
    GestureSystem.gesture_cooldown self' = GestureSystem.gesture_cooldown self /\
    (GestureSystem.gesture_history self' = GestureSystem.gesture_history self /\
     GestureSystem.last_gesture_time self' = GestureSystem.last_gesture_time self
     \/
     In g Documented.gestures /\
     now - GestureSystem.last_gesture_time self > GestureSystem.gesture_cooldown self /\
     GestureSystem.last_gesture_time self' = now /\
     GestureSystem.gesture_history self' =
       let history := GestureSystem.gesture_history self ++ [(g, now)] in
       if (GestureSystem.max_history self <? List.length history)%nat
       then tl history else history).
Proof.
  intros [-> | Hlen].
  - exists "none", self. cbn. tauto.
  - destruct (measure_total fr Hlen) as [f [d Hm]].
    destruct (score_has_best f d) as [[g c] Hbest].
    rewrite (detect_gesture_measured _ _ _ _ _ Hm), Hbest. cbn [Py.bind fst snd].
    destruct (c >? 5/10) eqn:Hc.
    + eexists _, _. split; [reflexivity |].
      pose proof (remember_spec
        (GestureSystem.with_confidence self (GestureSystem.score f d)) g now) as H.
      cbv zeta in H. destruct H as [H1 [H2 H3]].
      split; [exact H1 |]. split; [exact H2 |].
      destruct H3 as [-> | H3]; [left; split; reflexivity | right].
      split; [exact (max_in_gestures _ _ _ _ Hbest) | exact H3].
    + eexists _, _. split; [reflexivity |]. cbn. tauto.
Qed.

Lemma sorted_snoc {A : Type} (R : A -> A -> Prop) (l : list A) (x : A) :
  Sorted R l ->
  (forall d, l <> [] -> R (last l d) x) ->
  Sorted R (l ++ [x]).
Proof.
  induction 1 as [| a l Hs IH Hd]; intros Hlast.
  - cbn. repeat constructor.
  - cbn [app]. constructor.
    + apply IH. intros d Hne. destruct l as [| b l]; [contradiction |].
      apply (Hlast d). discriminate.
    + destruct l as [| b l].
      * cbn. constructor. apply (Hlast a). discriminate.
      * cbn. constructor. inversion Hd. assumption.
Qed.

Lemma sorted_tl {A : Type} (R : A -> A -> Prop) (l : list A) :
  Sorted R l -> Sorted R (tl l).
Proof. intros H. destruct l; [exact H |]. inversion H. assumption. Qed.

Lemma last_map_snd (h : list (string * R)) (d : string * R) :
  h <> [] -> last (map snd h) 0 = snd (last h d).
Proof.
  induction h as [| a [| b h] IH]; intros Hne.
  - contradiction.
  - reflexivity.
  - change (last (map snd (b :: h)) 0 = snd (last (b :: h) d)).
    apply IH. discriminate.
Qed.

(** The history of the classifier: spaced entries, each one of the six
    gestures. *)
Lemma history_entries_step (self self' : GestureSystem.t) (g : string) (now : R) :
  history_invariant self ->
  Coarse.spaced (GestureSystem.gesture_history self) ->
  Forall (fun e => In (fst e) Documented.gestures) (GestureSystem.gesture_history self) ->
  (GestureSystem.gesture_history self' = GestureSystem.gesture_history self /\
   GestureSystem.last_gesture_time self' = GestureSystem.last_gesture_time self
   \/
   In g Documented.gestures /\
   now - GestureSystem.last_gesture_time self > GestureSystem.gesture_cooldown self /\
   GestureSystem.last_gesture_time self' = now /\
   GestureSystem.gesture_history self' =
     let history := GestureSystem.gesture_history self ++ [(g, now)] in
     if (GestureSystem.max_history self <? List.length history)%nat
     then tl history else history) ->
  Coarse.spaced (GestureSystem.gesture_history self') /\
  Forall (fun e => In (fst e) Documented.gestures) (GestureSystem.gesture_history self').
Proof.
  intros [_ [Hcool [_ Hlast]]] Hsp Hin [[-> _] | [Hg [Hgt [_ ->]]]].
  - split; assumption.
  - cbv zeta.
    assert (Hsp' : Coarse.spaced (GestureSystem.gesture_history self ++ [(g, now)])).
    { apply sorted_snoc; [exact Hsp |]. intros d Hne. cbn [snd].
      rewrite <- (last_map_snd _ d Hne).
      unfold GestureSystem.latest_append in Hlast. rewrite <- Hlast, <- Hcool.
      exact Hgt. }
    assert (Hin' : Forall (fun e => In (fst e) Documented.gestures)
                     (GestureSystem.gesture_history self ++ [(g, now)])).
    { apply Forall_app. split; [exact Hin |]. constructor; [exact Hg | constructor]. }
    destruct (_ <? _)%nat.
    + split; [apply sorted_tl, Hsp' |].
      destruct (GestureSystem.gesture_history self ++ [(g, now)]); [constructor |].
      inversion Hin'. assumption.
    + split; assumption.
Qed.

Lemma detect_all_history (calls : list (Frame * R)) :
  Forall (fun c => GestureSystem.valid (fst c)) calls ->
  forall self,
    history_invariant self ->
    Coarse.spaced (GestureSystem.gesture_history self) ->
    Forall (fun e => In (fst e) Documented.gestures) (GestureSystem.gesture_history self) ->
    exists gs self',
      GestureSystem.detect_all self calls = Some (gs, self') /\
      Coarse.spaced (GestureSystem.gesture_history self') /\
      Forall (fun e => In (fst e) Documented.gestures)
             (GestureSystem.gesture_history self').
Proof.
  induction 1 as [| [fr now] calls Hv _ IH]; intros self Hinv Hsp Hin.
  - exists [], self. repeat split; assumption.
  - destruct (detect_gesture_appends self fr now Hv) as [g [self1 [Hd [H1 [H2 H3]]]]].
    destruct (history_entries_step self self1 g now Hinv Hsp Hin H3) as [Hsp1 Hin1].
    assert (Hinv1 : history_invariant self1).
    { apply (history_invariant_step self self1 g now Hinv H1 H2).
      destruct H3 as [H3 | [_ H3]]; [left | right]; exact H3. }
    destruct (IH self1 Hinv1 Hsp1 Hin1) as [gs [self' [Hall Hrest]]].
    exists (g :: gs), self'. split; [| exact Hrest].
    cbn [GestureSystem.detect_all]. rewrite Hd. cbn [Py.bind fst snd].
    rewrite Hall. reflexivity.
Qed.

Lemma init_history_invariant : history_invariant GestureSystem.init.
Proof.
  unfold history_invariant, GestureSystem.latest_append. cbn. repeat split; lia.
Qed.

(** X2: over any session of calls from a fresh classifier, each on no
    landmarks or on 21, every entry of the gesture history names one of
    the six gestures (never unknown or none) and comes more than one
    second after the entry before it. *)
Theorem history_entries_spaced_and_recognized (calls : list (Frame * R)) :
  Forall (fun c => GestureSystem.valid (fst c)) calls ->
  exists gs self,
    GestureSystem.detect_all GestureSystem.init calls = Some (gs, self) /\
    Coarse.spaced (GestureSystem.gesture_history self) /\
    Forall (fun e => In (fst e) Documented.gestures)
           (GestureSystem.gesture_history self).
Proof.
  intros H.
  apply (detect_all_history calls H GestureSystem.init init_history_invariant);
    constructor.
Qed.

(** A fist, a call without landmarks and a thumbs-up. *)
Lemma history_entries_spaced_and_recognized_witness :
  let calls := [(Hands.closed, 1000); ([], 1000 + 1/2); (Hands.thumb_only, 1001)] in
  Forall (fun c => GestureSystem.valid (fst c)) calls /\
  exists gs self,
    GestureSystem.detect_all GestureSystem.init calls = Some (gs, self) /\
    Coarse.spaced (GestureSystem.gesture_history self) /\
    Forall (fun e => In (fst e) Documented.gestures)
           (GestureSystem.gesture_history self).
Proof.
  cbv zeta.
  assert (Hcalls : Forall (fun c => GestureSystem.valid (fst c))
                     [(Hands.closed, 1000); ([], 1000 + 1/2);
                      (Hands.thumb_only, 1001)]).
  { repeat constructor; unfold GestureSystem.valid; cbn; tauto. }
  split; [exact Hcalls |].
  apply (history_entries_spaced_and_recognized _ Hcalls).
Defined.

(** *** The thumb test *)

Lemma norm2_scale (k a b : R) :
  0 <= k -> Np.norm2 (mkVec2 (k * a) (k * b)) = k * Np.norm2 (mkVec2 a b).
Proof.
  intros Hk. unfold Np.norm2. cbn [v2x v2y].
  replace ((k * a) ^ 2 + (k * b) ^ 2) with (k ^ 2 * (a ^ 2 + b ^ 2)) by ring.
  rewrite sqrt_mult by nra. rewrite sqrt_pow2 by exact Hk. reflexivity.
Qed.

Lemma getitem_map {A B : Type} (f : A -> B) (l : list A) (i : nat) :
  (map f l).[i] = option_map f l.[i].
Proof. unfold Py.getitem. apply nth_error_map. Qed.

(** X3: the thumb test gives the same answer on a frame and on the frame
    scaled by a positive factor and moved by any vector: it depends on the
    shape of the hand, not on where or how large it is in the image. *)
Theorem thumb_test_ignores_place_and_size (k : R) (v : Vec3) (fr : Frame) :
  0 < k ->
  GestureSystem.is_thumb_extended (Coarse.placed k v fr)
  = GestureSystem.is_thumb_extended fr.
Proof.
  intros Hk. unfold GestureSystem.is_thumb_extended, Coarse.placed.
  rewrite !getitem_map. unfold Frame, Landmark in *.
  destruct (fr.[4]) as [tip |]; cbn [option_map Py.bind]; [| reflexivity].
  destruct (fr.[2]) as [mcp |]; cbn [option_map Py.bind]; [| reflexivity].
  destruct (fr.[0]) as [wrist |]; cbn [option_map Py.bind]; [| reflexivity].
  cbn [lx ly]. cbv zeta.
  replace (k * lx mcp + lx v - (k * lx wrist + lx v)) with (k * (lx mcp - lx wrist)) by ring.
  replace (k * ly mcp + ly v - (k * ly wrist + ly v)) with (k * (ly mcp - ly wrist)) by ring.
  replace (k * lx tip + lx v - (k * lx mcp + lx v)) with (k * (lx tip - lx mcp)) by ring.
  replace (k * ly tip + ly v - (k * ly mcp + ly v)) with (k * (ly tip - ly mcp)) by ring.
  rewrite !norm2_scale by lra.
  set (a := mkVec2 (lx mcp - lx wrist) (ly mcp - ly wrist)).
  set (b := mkVec2 (lx tip - lx mcp) (ly tip - ly mcp)).
  assert (Hpos : forall n, (k * n >? 0) = (n >? 0)).
  { intros n. unfold Py.gtb. destruct (Rlt_dec 0 n).
    - rewrite (ltb_true 0 n) by assumption. apply ltb_true. nra.
    - rewrite (ltb_false 0 n) by lra. apply ltb_false. nra. }
  rewrite !Hpos.
  destruct (Np.norm2 a >? 0) eqn:Ha; [| reflexivity].
  destruct (Np.norm2 b >? 0) eqn:Hb; [| reflexivity].
  cbn [andb]. apply f_equal. apply (f_equal (fun x => x >? 7/10)).
  unfold Py.gtb in Ha, Hb. apply ltb_spec in Ha, Hb.
  unfold Np.dot2, Np.div2. cbn [v2x v2y].
  set (na := Np.norm2 a) in *. set (nb := Np.norm2 b) in *.
  unfold a, b. cbn [v2x v2y]. field. lra.
Qed.

(** The thumbs-up hand, twice as large and moved by (1, 1, 0). *)
Lemma thumb_test_ignores_place_and_size_witness :
  0 < 2 /\
  GestureSystem.is_thumb_extended (Coarse.placed 2 (mkVec3 1 1 0) Hands.thumb_only)
  = GestureSystem.is_thumb_extended Hands.thumb_only.
Proof.
  split; [lra |].
  apply (thumb_test_ignores_place_and_size 2 (mkVec3 1 1 0) Hands.thumb_only).
  lra.
Defined.

Lemma norm2_sqr (v : Vec2) : Np.norm2 v * Np.norm2 v = v2x v ^ 2 + v2y v ^ 2.
Proof. unfold Np.norm2. apply sqrt_sqrt. nra. Qed.

Lemma norm2_pos (v : Vec2) : v2x v <> 0 \/ v2y v <> 0 -> 0 < Np.norm2 v.
Proof.
  intros H. unfold Np.norm2. apply sqrt_lt_R0.
  destruct H as [H | H]; nra.
Qed.

Lemma norm2_zero : Np.norm2 (mkVec2 0 0) = 0.
Proof. apply norm2_eq; cbn; lra. Qed.

(** The test on two segments in line: the second is [c] times the
    first, which has a length. *)
Lemma aligned_segments (ax ay c : R) :
  0 < Np.norm2 (mkVec2 ax ay) ->
  (if (Np.norm2 (mkVec2 ax ay) >? 0) && (Np.norm2 (mkVec2 (c * ax) (c * ay)) >? 0)
   then Some (Np.dot2 (Np.div2 (mkVec2 ax ay) (Np.norm2 (mkVec2 ax ay)))
                      (Np.div2 (mkVec2 (c * ax) (c * ay))
                               (Np.norm2 (mkVec2 (c * ax) (c * ay)))) >? 7/10)
   else Some false)
  = Some (0 <? c).
Proof.
  intros Ha.
  pose proof (norm2_sqr (mkVec2 ax ay)) as Hs. cbn [v2x v2y] in Hs.
  destruct (Rtotal_order c 0) as [Hc | [-> | Hc]].
  - replace (mkVec2 (c * ax) (c * ay)) with (mkVec2 (- c * - ax) (- c * - ay))
      by (f_equal; ring).
    rewrite norm2_scale by lra.
    replace (Np.norm2 (mkVec2 (- ax) (- ay))) with (Np.norm2 (mkVec2 ax ay))
      by (unfold Np.norm2; cbn; f_equal; ring).
    set (n := Np.norm2 (mkVec2 ax ay)) in *.
    unfold Py.gtb. rewrite (ltb_true 0 n) by lra.
    rewrite (ltb_true 0 (- c * n)) by nra. cbn [andb].
    rewrite (ltb_false 0 c) by lra. f_equal. apply ltb_false.
    unfold Np.dot2, Np.div2. cbn [v2x v2y].
    replace (ax / n * (- c * - ax / (- c * n)) + ay / n * (- c * - ay / (- c * n)))
      with (- ((ax ^ 2 + ay ^ 2) / (n * n))) by (field; lra).
    rewrite <- Hs. replace (n * n / (n * n)) with 1 by (field; lra). lra.
  - replace (mkVec2 (0 * ax) (0 * ay)) with (mkVec2 0 0) by (f_equal; ring).
    rewrite norm2_zero. compare. rewrite andb_false_r. reflexivity.
  - rewrite norm2_scale by lra.
    set (n := Np.norm2 (mkVec2 ax ay)) in *.
    unfold Py.gtb. rewrite (ltb_true 0 n) by lra.
    rewrite (ltb_true 0 (c * n)) by nra. cbn [andb].
    rewrite (ltb_true 0 c) by lra. f_equal. apply ltb_true.
    unfold Np.dot2, Np.div2. cbn [v2x v2y].
    replace (ax / n * (c * ax / (c * n)) + ay / n * (c * ay / (c * n)))
      with ((ax ^ 2 + ay ^ 2) / (n * n)) by (field; lra).
    rewrite <- Hs. replace (n * n / (n * n)) with 1 by (field; lra). lra.
Qed.

(** X4: when the thumb tip lies on the line through wrist and thumb MCP in
    the image, at c times the wrist-to-MCP vector beyond the MCP, the
    thumb counts as extended exactly when c is positive and the MCP is not
    on the wrist: a thumb folded back over the palm (c <= 0) or held on
    the MCP (c = 0) is not extended. *)
Theorem thumb_in_line_with_wrist
    (fr : Frame) (wrist mcp tip : Landmark) (c : R) :
  fr.[0] = Some wrist -> fr.[2] = Some mcp -> fr.[4] = Some tip ->
  lx tip - lx mcp = c * (lx mcp - lx wrist) ->
  ly tip - ly mcp = c * (ly mcp - ly wrist) ->
  GestureSystem.is_thumb_extended fr
  = Some (if (lx mcp =? lx wrist) && (ly mcp =? ly wrist) then false else 0 <? c).
Proof.
  intros H0 H2 H4 Hx Hy. unfold GestureSystem.is_thumb_extended.
  rewrite H4, H2, H0. cbn [Py.bind]. cbv zeta. rewrite Hx, Hy.
  set (ax := lx mcp - lx wrist). set (ay := ly mcp - ly wrist).
  unfold Py.eqb.
  destruct (Req_dec_T (lx mcp) (lx wrist)) as [Ex | Ex];
    [destruct (Req_dec_T (ly mcp) (ly wrist)) as [Ey | Ey] |]; cbn [andb].
  - replace ax with 0 by (unfold ax; lra). replace ay with 0 by (unfold ay; lra).
    rewrite norm2_zero. compare. reflexivity.
  - apply aligned_segments, norm2_pos. right. cbn. unfold ay. lra.
  - apply aligned_segments, norm2_pos. left. cbn. unfold ax. lra.
Qed.

(** The thumb of the thumbs-up hand: the tip as far beyond the MCP as the
    MCP is from the wrist. *)
Lemma thumb_in_line_with_wrist_witness :
  let wrist := mkVec3 (3/10) (9/10) 0 in
  let mcp := mkVec3 (3/10) (8/10) 0 in
  let tip := mkVec3 (3/10) (7/10) 0 in
  Hands.thumb_only.[0] = Some wrist /\
  Hands.thumb_only.[2] = Some mcp /\
  Hands.thumb_only.[4] = Some tip /\
  lx tip - lx mcp = 1 * (lx mcp - lx wrist) /\
  ly tip - ly mcp = 1 * (ly mcp - ly wrist) /\
  GestureSystem.is_thumb_extended Hands.thumb_only
  = Some (if (lx mcp =? lx wrist) && (ly mcp =? ly wrist) then false else 0 <? 1).
Proof.
  cbv zeta.
  split; [reflexivity |]. split; [reflexivity |]. split; [reflexivity |].
  split; [cbn; lra |]. split; [cbn; lra |].
  apply (thumb_in_line_with_wrist Hands.thumb_only (mkVec3 (3/10) (9/10) 0)
           (mkVec3 (3/10) (8/10) 0) (mkVec3 (3/10) (7/10) 0) 1);
    first [reflexivity | cbn; lra].
Defined.

(** X5: the thumb test of the precision tracker and that of the coarse
    classifier agree on every frame, errors included. *)
Theorem thumb_tests_agree (fr : Frame) :
  PrecisionTracking.is_thumb_extended fr = GestureSystem.is_thumb_extended fr.
Proof.
  destruct (le_lt_dec (List.length fr) 3) as [Hshort | Hlong].
  - unfold PrecisionTracking.is_thumb_extended, GestureSystem.is_thumb_extended.
    assert (H4 : fr.[4] = None) by (apply nth_error_None; lia).
    rewrite H4. reflexivity.
  - apply thumb_same. exact Hlong.
Qed.

(** ** The tracker and the precision detector, further *)

Lemma getitem_setitem_same {A : Type} (l : list A) (i : nat) (v : A) :
  (i < List.length l)%nat -> (Py.setitem l i v).[i] = Some v.
Proof.
  revert i. induction l as [| a l IH]; intros [| i] H; cbn in *; try lia.
  - reflexivity.
  - apply IH. lia.
Qed.

Lemma getitem_setitem_other {A : Type} (l : list A) (i j : nat) (v : A) :
  i <> j -> (Py.setitem l j v).[i] = l.[i].
Proof.
  revert i j. induction l as [| a l IH]; intros [| i] [| j] H; cbn; try reflexivity.
  - contradiction.
  - apply IH. lia.
Qed.

Lemma vec3_eta (p : Vec3) : mkVec3 (lx p) (ly p) (lz p) = p.
Proof. destruct p. reflexivity. Qed.

(** The filtering loop over the fingertips [tips]: the landmarks outside
    [tips] are left alone, each one in [tips] is replaced by the estimate
    of its filter after a prediction and an update with the raw
    landmark. *)
Lemma filtering_spec (L : PrecisionTracking.Libs) (landmarks : Frame) (tips : list nat) :
  NoDup tips ->
  forall (filters0 : Py.idict (PrecisionTracking.KalmanFilter L)) (filtered0 : Frame),
    (forall i, In i tips ->
       (i < List.length landmarks)%nat /\ (i < List.length filtered0)%nat /\
       exists kf, Py.idict_get filters0 i = Some kf) ->
    exists filters' filtered,
      Py.for_each tips (filters0, filtered0)
        (PrecisionTracking.filter_fingertip L landmarks)
      = Some (filters', filtered) /\
      List.length filtered = List.length filtered0 /\
      (forall i, ~ In i tips ->
         filtered.[i] = filtered0.[i] /\
         Py.idict_get filters' i = Py.idict_get filters0 i) /\
      (forall i kf p, In i tips ->
         Py.idict_get filters0 i = Some kf -> landmarks.[i] = Some p ->
         let kf' := PrecisionTracking.kf_update L (PrecisionTracking.kf_predict L kf) p in
         filtered.[i] = Some (PrecisionTracking.kf_x L kf') /\
         Py.idict_get filters' i = Some kf').
Proof.
  induction 1 as [| i tips Hni Hnd IH]; intros filters0 filtered0 Hok.
  - exists filters0, filtered0. repeat split; try tauto.
  - destruct (Hok i (or_introl eq_refl)) as [Hi [Hi' [kf Hkf]]].
    destruct (getitem_total landmarks i Hi) as [p Hp].
    set (kf' := PrecisionTracking.kf_update L (PrecisionTracking.kf_predict L kf) p).
    assert (Estep : PrecisionTracking.filter_fingertip L landmarks (filters0, filtered0) i
                    = Some (Py.idict_set filters0 i kf',
                            Py.setitem filtered0 i (PrecisionTracking.kf_x L kf'))).
    { unfold PrecisionTracking.filter_fingertip. unfold Frame, Landmark in *.
      rewrite Hp. cbn [Py.bind]. rewrite Hkf. cbn [Py.bind].
      rewrite !vec3_eta. reflexivity. }
    destruct (IH (Py.idict_set filters0 i kf')
                 (Py.setitem filtered0 i (PrecisionTracking.kf_x L kf')))
      as [filters' [filtered [Hrun [Hlen [Hout Hin]]]]].
    { intros j Hj. destruct (Hok j (or_intror Hj)) as [Hj1 [Hj2 [kfj Hkfj]]].
      split; [exact Hj1 |]. split; [rewrite length_setitem; exact Hj2 |].
      exists kfj. rewrite idict_get_set_other; [exact Hkfj |].
      intros ->. contradiction. }
    exists filters', filtered. split; [| split; [| split]].
    + cbn [Py.for_each]. unfold Frame in *. rewrite Estep. exact Hrun.
    + rewrite Hlen. apply length_setitem.
    + intros j Hj. destruct (Hout j) as [H1 H2]; [intros Hj'; apply Hj; right; exact Hj' |].
      assert (Hne : j <> i) by (intros ->; apply Hj; left; reflexivity).
      rewrite H1, H2. split.
      * apply getitem_setitem_other. exact Hne.
      * apply idict_get_set_other. exact Hne.
    + intros j kfj pj [<- | Hj] Hkfj Hpj.
      * rewrite Hkf in Hkfj. injection Hkfj as <-.
        unfold Frame, Landmark in *. rewrite Hp in Hpj. injection Hpj as <-.
        destruct (Hout i Hni) as [H1 H2]. cbv zeta. fold kf'. rewrite H1, H2. split.
        -- apply getitem_setitem_same. exact Hi'.
        -- apply idict_get_set_same.
      * apply Hin; [exact Hj | | exact Hpj].
        rewrite idict_get_set_other; [exact Hkfj |]. intros ->. contradiction.
Qed.

Lemma fingertips_nodup : NoDup PrecisionTracking.fingertips.
Proof.
  unfold PrecisionTracking.fingertips.
  repeat (constructor; [cbn; intuition lia |]). constructor.
Qed.

Lemma comprehension_ext {A B : Type} (f g : A -> option B) (l : list A) :
  (forall a, In a l -> f a = g a) -> Py.comprehension f l = Py.comprehension g l.
Proof.
  induction l as [| a l IH]; intros H; [reflexivity |].
  cbn [Py.comprehension]. rewrite (H a (or_introl eq_refl)).
  rewrite IH; [reflexivity |]. intros b Hb. apply H. right. exact Hb.
Qed.

(** What [update] does with a frame of 21 landmarks. *)
Lemma update_shape (L : PrecisionTracking.Libs) (self : PrecisionTracking.t L)
    (fr : Frame) :
  tracker_invariant L self ->
  List.length fr = 21%nat ->
  exists filters' filtered v palm,
    Py.for_each PrecisionTracking.fingertips
      (PrecisionTracking.filters L self, fr)
      (PrecisionTracking.filter_fingertip L fr) = Some (filters', filtered) /\
    List.length filtered = 21%nat /\
    PrecisionTracking._get_stable_palm filtered = Some palm /\
    match PrecisionTracking.prev_landmarks L self with
    | Some prev =>
        Py.for_each PrecisionTracking.fingertips []
          (PrecisionTracking.velocity_of filtered prev) = Some v
    | None => v = []
    end /\
    PrecisionTracking.update L self (Some fr)
    = Some (PrecisionTracking.mk L (Some filtered)
              (let history := PrecisionTracking.landmark_history L self ++ [fr] in
               if (PrecisionTracking.history_max L self <? List.length history)%nat
               then tl history else history)
              (PrecisionTracking.history_max L self) filters',
            Some (PrecisionTracking.mkData filtered (Some v) palm
                    (PrecisionTracking._calculate_hand_orientation L filtered))).
Proof.
  intros [Hok Hprev] Hlen.
  destruct (filtering_total L fr (PrecisionTracking.filters L self) Hlen Hok)
    as [filters' [filtered [Hf [Hfl _]]]].
  destruct (stable_palm_total filtered Hfl) as [palm Hpalm].
  unfold PrecisionTracking.update. unfold Frame in *. rewrite Hf. cbn [Py.bind].
  cbv beta iota zeta.
  destruct (PrecisionTracking.prev_landmarks L self) as [prev |] eqn:Eprev.
  - destruct (velocities_spec filtered prev Hfl (Hprev prev eq_refl)) as [v [Ev _]].
    exists filters', filtered, v, palm. unfold Frame, Py.idict in *.
    rewrite Ev. cbn [Py.bind]. rewrite Hpalm. cbn [Py.bind]. repeat split; assumption.
  - exists filters', filtered, [], palm. cbn [Py.bind]. unfold Frame, Py.idict in *.
    rewrite Hpalm. cbn [Py.bind]. repeat split; assumption.
Qed.

(** X6: [update] on a frame of 21 landmarks returns 21 landmarks; the 16
    that are not fingertips are those of the frame, and each fingertip is
    the estimate of its own filter after one predict and one update with
    the measured tip, the filter kept for the next frame. *)
Theorem update_filters_fingertips_only
    (L : PrecisionTracking.Libs) (self : PrecisionTracking.t L) (fr : Frame) :
  tracker_invariant L self ->
  List.length fr = 21%nat ->
  exists self' data,
    PrecisionTracking.update L self (Some fr) = Some (self', Some data) /\
    List.length (PrecisionTracking.landmarks data) = 21%nat /\
    (forall i, ~ In i PrecisionTracking.fingertips ->
       (PrecisionTracking.landmarks data).[i] = fr.[i]) /\
    (forall i kf p, In i PrecisionTracking.fingertips ->
       Py.idict_get (PrecisionTracking.filters L self) i = Some kf ->
       fr.[i] = Some p ->
       let kf' := PrecisionTracking.kf_update L (PrecisionTracking.kf_predict L kf) p in
       (PrecisionTracking.landmarks data).[i] = Some (PrecisionTracking.kf_x L kf') /\
       Py.idict_get (PrecisionTracking.filters L self') i = Some kf').
Proof.
  intros Hinv Hlen.
  destruct (update_shape L self fr Hinv Hlen)
    as [filters' [filtered [v [palm [Hf [Hfl [_ [_ Hu]]]]]]]].
  destruct (filtering_spec L fr PrecisionTracking.fingertips fingertips_nodup
              (PrecisionTracking.filters L self) fr)
    as [filters2 [filtered2 [Hf2 [_ [Hout Hin]]]]].
  { intros i Hi. destruct Hinv as [Hok _]. rewrite Hlen.
    assert ((i < 21)%nat) by (cbn in Hi; intuition lia). auto. }
  unfold Frame in *. rewrite Hf in Hf2. injection Hf2 as <- <-.
  eexists _, _. split; [exact Hu |]. cbn.
  split; [exact Hfl |]. split.
  - intros i Hi. apply Hout, Hi.
  - exact Hin.
Qed.

(** The pointing hand as the first frame. *)
Lemma update_filters_fingertips_only_witness :
  tracker_invariant Hands.latest_measurement
    (PrecisionTracking.init Hands.latest_measurement) /\
  List.length Hands.point = 21%nat /\
  exists self' data,
    PrecisionTracking.update Hands.latest_measurement
      (PrecisionTracking.init Hands.latest_measurement) (Some Hands.point)
    = Some (self', Some data) /\
    List.length (PrecisionTracking.landmarks data) = 21%nat /\
    (forall i, ~ In i PrecisionTracking.fingertips ->
       (PrecisionTracking.landmarks data).[i] = Hands.point.[i]).
Proof.
  split; [apply init_invariant |]. split; [reflexivity |].
  destruct (update_filters_fingertips_only Hands.latest_measurement
              (PrecisionTracking.init Hands.latest_measurement) Hands.point
              (init_invariant Hands.latest_measurement) eq_refl)
    as [self' [data [Hu [Hlen [Hrest _]]]]].
  exists self', data. split; [exact Hu |]. split; [exact Hlen | exact Hrest].
Defined.

(** X7: the stable palm and the hand orientation that [update] returns are
    those of the raw frame: they read the wrist and the finger bases,
    which the filters never touch. *)
Theorem palm_and_orientation_unfiltered
    (L : PrecisionTracking.Libs) (self : PrecisionTracking.t L) (fr : Frame) :
  tracker_invariant L self ->
  List.length fr = 21%nat ->
  exists self' data,
    PrecisionTracking.update L self (Some fr) = Some (self', Some data) /\
    PrecisionTracking._get_stable_palm fr
    = Some (PrecisionTracking.stable_palm data) /\
    PrecisionTracking.hand_orientation data
    = PrecisionTracking._calculate_hand_orientation L fr.
Proof.
  intros Hinv Hlen.
  destruct (update_shape L self fr Hinv Hlen)
    as [filters' [filtered [v [palm [Hf [Hfl [Hpalm [_ Hu]]]]]]]].
  destruct (filtering_spec L fr PrecisionTracking.fingertips fingertips_nodup
              (PrecisionTracking.filters L self) fr)
    as [filters2 [filtered2 [Hf2 [_ [Hout _]]]]].
  { intros i Hi. destruct Hinv as [Hok _]. rewrite Hlen.
    assert ((i < 21)%nat) by (cbn in Hi; intuition lia). auto. }
  unfold Frame in *. rewrite Hf in Hf2. injection Hf2 as <- <-.
  assert (Hsame : forall i, ~ In i PrecisionTracking.fingertips ->
                            filtered.[i] = fr.[i]).
  { intros i Hi. apply Hout, Hi. }
  eexists _, _. split; [exact Hu |]. cbn. split.
  - rewrite <- Hpalm. unfold PrecisionTracking._get_stable_palm.
    rewrite (comprehension_ext (Py.getitem fr) (Py.getitem filtered)); [reflexivity |].
    intros i Hi. symmetry. apply Hsame. cbn in Hi |- *. intuition lia.
  - unfold PrecisionTracking._calculate_hand_orientation.
    rewrite !Hsame by (cbn; intuition lia). reflexivity.
Qed.

(** The pointing hand as the first frame. *)
Lemma palm_and_orientation_unfiltered_witness :
  tracker_invariant Hands.latest_measurement
    (PrecisionTracking.init Hands.latest_measurement) /\
  List.length Hands.point = 21%nat /\
  exists self' data,
    PrecisionTracking.update Hands.latest_measurement
      (PrecisionTracking.init Hands.latest_measurement) (Some Hands.point)
    = Some (self', Some data) /\
    PrecisionTracking._get_stable_palm Hands.point
    = Some (PrecisionTracking.stable_palm data) /\
    PrecisionTracking.hand_orientation data
    = PrecisionTracking._calculate_hand_orientation Hands.latest_measurement
        Hands.point.
Proof.
  split; [apply init_invariant |]. split; [reflexivity |].
  apply (palm_and_orientation_unfiltered Hands.latest_measurement
           (PrecisionTracking.init Hands.latest_measurement) Hands.point
           (init_invariant Hands.latest_measurement) eq_refl).
Defined.

(** *** The history of frames *)

Lemma lastn_all {A : Type} (n : nat) (l : list A) :
  (List.length l <= n)%nat -> Tracking.lastn n l = l.
Proof.
  intros H. unfold Tracking.lastn.
  replace (List.length l - n)%nat with 0%nat by lia. reflexivity.
Qed.

Lemma lastn_length {A : Type} (n : nat) (l : list A) :
  (List.length (Tracking.lastn n l) <= n)%nat.
Proof. unfold Tracking.lastn. rewrite length_skipn. lia. Qed.

Lemma lastn_app_lastn {A : Type} (n : nat) (a b : list A) :
  Tracking.lastn n (Tracking.lastn n a ++ b) = Tracking.lastn n (a ++ b).
Proof.
  unfold Tracking.lastn.
  set (k := (List.length a - n)%nat).
  rewrite !length_app, length_skipn.
  transitivity (skipn (List.length a + List.length b - n)
                      (firstn k a ++ (skipn k a ++ b))).
  - assert (Hk : List.length (firstn k a) = k) by (rewrite length_firstn; lia).
    rewrite (skipn_app (List.length a + List.length b - n) (firstn k a)).
    rewrite (@skipn_all2 _ (List.length a + List.length b - n) (firstn k a))
      by (unfold k in *; lia).
    rewrite Hk. cbn [app]. f_equal. unfold k. lia.
  - rewrite app_assoc, firstn_skipn. reflexivity.
Qed.

(** The history after a push: the last [n] of the old history and the
    new frame. *)
Lemma push_is_lastn {A : Type} (n : nat) (h : list A) (x : A) :
  (List.length h <= n)%nat ->
  (let h' := h ++ [x] in if (n <? List.length h')%nat then tl h' else h')
  = Tracking.lastn n (h ++ [x]).
Proof.
  intros H. cbv zeta. unfold Tracking.lastn. rewrite length_app. cbn [List.length].
  destruct (Nat.ltb_spec n (List.length h + 1)).
  - replace (List.length h + 1 - n)%nat with 1%nat by lia.
    destruct (h ++ [x]); reflexivity.
  - replace (List.length h + 1 - n)%nat with 0%nat by lia. reflexivity.
Qed.

Lemma run_history (L : PrecisionTracking.Libs) (inputs : list (option Frame)) :
  Forall (fun i => match i with
                   | Some fr => List.length fr = 21%nat
                   | None => True
                   end) inputs ->
  forall (self : PrecisionTracking.t L) (last : option PrecisionTracking.Data),
    tracker_invariant L self ->
    PrecisionTracking.history_max L self = 5%nat ->
    (List.length (PrecisionTracking.landmark_history L self) <= 5)%nat ->
    exists self' out,
      PrecisionTracking.run L self inputs last = Some (self', out) /\
      PrecisionTracking.landmark_history L self'
      = Tracking.lastn 5 (PrecisionTracking.landmark_history L self
                          ++ Tracking.frames_of inputs).
Proof.
  induction 1 as [| [fr |] inputs Hfr _ IH]; intros self last Hinv Hmax Hlen.
  - exists self, last. split; [reflexivity |]. cbn. rewrite app_nil_r.
    symmetry. apply lastn_all. exact Hlen.
  - destruct (update_shape L self fr Hinv Hfr)
      as [filters' [filtered [v [palm [Hf [Hfl [_ [_ Hu]]]]]]]].
    rewrite Hmax in Hu.
    pose proof (push_is_lastn 5 _ fr Hlen) as Hpush.
    cbv zeta in Hpush, Hu. unfold Frame, Landmark in *. rewrite Hpush in Hu.
    set (self1 := PrecisionTracking.mk L _ _ _ _) in Hu.
    destruct (IH self1 (Some (PrecisionTracking.mkData filtered (Some v) palm
                (PrecisionTracking._calculate_hand_orientation L filtered))))
      as [self' [out [Hrun Hh]]].
    + destruct (update_spec L self fr Hinv Hfr)
        as [s [d [v' [Hu' [Hinv' _]]]]].
      unfold Frame, Landmark in *.
      rewrite Hu in Hu'. injection Hu' as <- _. exact Hinv'.
    + reflexivity.
    + apply lastn_length.
    + exists self', out. split.
      * cbn [PrecisionTracking.run]. rewrite Hu. exact Hrun.
      * rewrite Hh. cbn [self1 PrecisionTracking.landmark_history Tracking.frames_of].
        rewrite lastn_app_lastn, <- app_assoc. reflexivity.
  - destruct (IH self None Hinv Hmax Hlen) as [self' [out [Hrun Hh]]].
    exists self', out. split; [| exact Hh].
    cbn [PrecisionTracking.run]. rewrite update_none. exact Hrun.
Qed.

(** X8: after any session from a fresh tracker, with or without ticks that
    have no hand, the landmark history holds the last five frames given,
    raw and in order; it never holds more than five. *)
Theorem landmark_history_is_last_five
    (L : PrecisionTracking.Libs) (inputs : list (option Frame)) :
  Forall (fun i => match i with
                   | Some fr => List.length fr = 21%nat
                   | None => True
                   end) inputs ->
  exists self out,
    PrecisionTracking.run L (PrecisionTracking.init L) inputs None = Some (self, out) /\
    PrecisionTracking.landmark_history L self
    = Tracking.lastn 5 (Tracking.frames_of inputs) /\
    (List.length (PrecisionTracking.landmark_history L self) <= 5)%nat.
Proof.
  intros H.
  destruct (run_history L inputs H (PrecisionTracking.init L) None)
    as [self [out [Hrun Hh]]].
  - apply init_invariant.
  - reflexivity.
  - cbn. lia.
  - exists self, out. split; [exact Hrun |]. cbn in Hh. split; [exact Hh |].
    rewrite Hh. apply lastn_length.
Qed.

(** The pointing hand, a tick without a hand and the closed hand. *)
Lemma landmark_history_is_last_five_witness :
  let inputs := [Some Hands.point; None; Some Hands.closed] in
  Forall (fun i => match i with
                   | Some fr => List.length fr = 21%nat
                   | None => True
                   end) inputs /\
  exists self out,
    PrecisionTracking.run Hands.latest_measurement
      (PrecisionTracking.init Hands.latest_measurement) inputs None
    = Some (self, out) /\
    PrecisionTracking.landmark_history Hands.latest_measurement self
    = Tracking.lastn 5 (Tracking.frames_of inputs) /\
    (List.length (PrecisionTracking.landmark_history Hands.latest_measurement self)
     <= 5)%nat.
Proof.
  cbv zeta.
  assert (H : Forall (fun i => match i with
                               | Some fr => List.length fr = 21%nat
                               | None => True
                               end)
                [Some Hands.point; None; Some Hands.closed]).
  { repeat constructor. }
  split; [exact H |].
  apply (landmark_history_is_last_five Hands.latest_measurement _ H).
Defined.

(** *** Velocities *)

Lemma velocities_are_differences (filtered prev : Frame) :
  List.length filtered = 21%nat -> List.length prev = 21%nat ->
  exists v,
    Py.for_each PrecisionTracking.fingertips []
      (PrecisionTracking.velocity_of filtered prev) = Some v /\
    map fst v = PrecisionTracking.fingertips /\
    forall i, In i PrecisionTracking.fingertips ->
      exists c p,
        filtered.[i] = Some c /\ prev.[i] = Some p /\
        Py.idict_get v i = Some (Np.sub3 c p).
Proof.
  intros Hf Hp. explode filtered Hf. explode prev Hp.
  eexists. split; [reflexivity |]. split; [reflexivity |].
  intros i Hi. cbn in Hi.
  repeat (destruct Hi as [<- | Hi]; [eexists _, _; repeat split |]).
  contradiction.
Qed.

(** X9: on the second of two consecutive updates every fingertip has a
    velocity, the difference between its filtered position in this frame
    and its filtered position in the frame before (not the raw one). *)
Theorem velocity_is_frame_difference
    (L : PrecisionTracking.Libs) (self : PrecisionTracking.t L) (fr0 fr1 : Frame) :
  tracker_invariant L self ->
  List.length fr0 = 21%nat -> List.length fr1 = 21%nat ->
  exists self0 data0 self1 data1 v,
    PrecisionTracking.update L self (Some fr0) = Some (self0, Some data0) /\
    PrecisionTracking.update L self0 (Some fr1) = Some (self1, Some data1) /\
    PrecisionTracking.velocities data1 = Some v /\
    map fst v = PrecisionTracking.fingertips /\
    forall i, In i PrecisionTracking.fingertips ->
      exists c p,
        (PrecisionTracking.landmarks data1).[i] = Some c /\
        (PrecisionTracking.landmarks data0).[i] = Some p /\
        Py.idict_get v i = Some (Np.sub3 c p).
Proof.
  intros Hinv H0 H1.
  destruct (update_spec L self fr0 Hinv H0)
    as [self0 [data0 [v0 [Hu0 [Hinv0 [Hl0 [Hprev0 _]]]]]]].
  destruct (update_shape L self0 fr1 Hinv0 H1)
    as [filters' [filtered [v [palm [_ [Hfl [_ [Hv Hu1]]]]]]]].
  rewrite Hprev0 in Hv.
  destruct (velocities_are_differences filtered _ Hfl Hl0) as [v' [Hv' [Hkeys Hd]]].
  unfold Frame, Py.idict in *. rewrite Hv in Hv'. injection Hv' as <-.
  eexists self0, data0, _, _, v. split; [exact Hu0 |]. split; [exact Hu1 |].
  cbn. repeat split; assumption.
Qed.

(** The pointing hand and then the closed hand. *)
Lemma velocity_is_frame_difference_witness :
  tracker_invariant Hands.latest_measurement
    (PrecisionTracking.init Hands.latest_measurement) /\
  List.length Hands.point = 21%nat /\
  List.length Hands.closed = 21%nat /\
  exists self0 data0 self1 data1 v,
    PrecisionTracking.update Hands.latest_measurement
      (PrecisionTracking.init Hands.latest_measurement) (Some Hands.point)
    = Some (self0, Some data0) /\
    PrecisionTracking.update Hands.latest_measurement self0 (Some Hands.closed)
    = Some (self1, Some data1) /\
    PrecisionTracking.velocities data1 = Some v /\
    map fst v = PrecisionTracking.fingertips.
Proof.
  split; [apply init_invariant |]. split; [reflexivity |]. split; [reflexivity |].
  destruct (velocity_is_frame_difference Hands.latest_measurement
              (PrecisionTracking.init Hands.latest_measurement)
              Hands.point Hands.closed
              (init_invariant Hands.latest_measurement) eq_refl eq_refl)
    as [self0 [data0 [self1 [data1 [v [H0 [H1 [Hv [Hk _]]]]]]]]].
  exists self0, data0, self1, data1, v.
  split; [exact H0 |]. split; [exact H1 |]. split; [exact Hv | exact Hk].
Defined.

(** *** Directions *)





(** *** The detector *)

(** The flags behind the three pose tests of the detector. *)
Lemma pose_tests (fr : Frame) (velocities : Py.idict Vec3) :
  List.length fr = 21%nat ->
  exists t i m r p stable,
    PrecisionTracking._is_index_precision_pointing fr velocities
    = Some (i && negb m && negb r && negb p && stable) /\
    PrecisionTracking._is_three_finger_control fr = Some (i && m && r && negb p) /\
    PrecisionTracking.detect_tool_selection_gesture fr
    = Some (PrecisionTracking.ladder t i m r p).
Proof.
  intros H.
  destruct (tool_flags_total fr H) as [t [i [m [r [p [Ht [Hi [Hm [Hr Hp]]]]]]]]].
  exists t, i, m, r, p.
  unfold PrecisionTracking._is_index_precision_pointing,
    PrecisionTracking._is_three_finger_control,
    PrecisionTracking.detect_tool_selection_gesture.
  rewrite Ht, Hi, Hm, Hr, Hp. cbn [Py.bind]. eexists. repeat split.
Qed.

(** X11: in the mapping of [detect_precise_gestures] a precision_point
    excludes a three_finger_control and comes with the tool select; a
    three_finger_control excludes a precision_point and comes with the
    tool move. *)
Theorem pose_gestures_and_tools (data : PrecisionTracking.Data) :
  List.length (PrecisionTracking.landmarks data) = 21%nat ->
  exists gestures,
    PrecisionTracking.detect_precise_gestures (Some data) = Some gestures /\
    (Py.dict_get gestures "precision_point" <> None ->
       Py.dict_get gestures "three_finger_control" = None /\
       Py.dict_get gestures "tool_selection"
       = Some (PrecisionTracking.Tool "select" (9/10))) /\
    (Py.dict_get gestures "three_finger_control" <> None ->
       Py.dict_get gestures "precision_point" = None /\
       Py.dict_get gestures "tool_selection"
       = Some (PrecisionTracking.Tool "move" (9/10))).
Proof.
  intros Hlen.
  destruct (detect_precise_gestures_shape data Hlen)
    as [a [b [c [d [e [pointing [three [tool
         [_ [_ [_ [_ [_ [Hpt [H3 [Htool Hd]]]]]]]]]]]]]]]].
  destruct (pose_tests (PrecisionTracking.landmarks data)
              match PrecisionTracking.velocities data with Some v => v | None => [] end
              Hlen) as [t [i [m [r [p [stable [Ept [E3 Etool]]]]]]]].
  rewrite Ept in Hpt. rewrite E3 in H3. rewrite Etool in Htool.
  injection Hpt as <-. injection H3 as <-. injection Htool as <-.
  cbv zeta in Hd. eexists. split; [exact Hd |].
  destruct t, i, m, r, p, stable, (_ <? _); cbn [andb negb PrecisionTracking.ladder];
    lookup; cbn [Py.dict_get]; split; intros H; first [contradiction | split; reflexivity].
Qed.

(** Index, middle and ring finger up. *)
Lemma pose_gestures_and_tools_witness :
  let data := Hands.tracked (Hands.hand false true true true false) in
  List.length (PrecisionTracking.landmarks data) = 21%nat /\
  exists gestures,
    PrecisionTracking.detect_precise_gestures (Some data) = Some gestures /\
    (Py.dict_get gestures "three_finger_control" <> None ->
       Py.dict_get gestures "precision_point" = None /\
       Py.dict_get gestures "tool_selection"
       = Some (PrecisionTracking.Tool "move" (9/10))).
Proof.
  cbv zeta. split; [reflexivity |].
  destruct (pose_gestures_and_tools
              (Hands.tracked (Hands.hand false true true true false)) eq_refl)
    as [gestures [Hd [_ H3]]].
  exists gestures. split; [exact Hd | exact H3].
Defined.



(** *** The orientation of the hand *)



(** ** The dispatcher over a session *)

Lemma dispatched_app (a b : list Controller.Call) :
  Controller.dispatched (a ++ b)
  = (Controller.dispatched a + Controller.dispatched b)%nat.
Proof.
  unfold Controller.dispatched. rewrite filter_app, length_app. reflexivity.
Qed.

(** One call of the dispatcher: it leaves the clock alone and dispatches
    nothing, or it sets the clock, past the cooldown, and dispatches at most
    one action. *)
Lemma execute_step (self : Controller.t) (g : string) (now : R) :
  let r := Controller.execute_gesture_action self g now in
  Controller.action_cooldown (fst r) = Controller.action_cooldown self /\
  ((Controller.dispatched (snd r) = 0%nat /\
    Controller.last_action_time (fst r) = Controller.last_action_time self) \/
   ((Controller.dispatched (snd r) <= 1)%nat /\
    Controller.last_action_time (fst r) = now /\
    Controller.action_cooldown self <= now - Controller.last_action_time self)).
Proof.
  unfold Controller.execute_gesture_action.
  destruct (String.eqb_spec g "open_palm") as [-> | Hg].
  - rewrite andb_false_r. cbn. split; [reflexivity | left; split; reflexivity].
  - cbn [negb]. rewrite andb_true_r.
    destruct (Rlt_dec (now - Controller.last_action_time self)
                      (Controller.action_cooldown self)) as [H | H].
    + rewrite (ltb_true _ _ H). cbn. split; [reflexivity | left; split; reflexivity].
    + rewrite ltb_false by lra.
      repeat match goal with
        | |- context [String.eqb g ?s] =>
            destruct (String.eqb g s);
            [cbn; split; [reflexivity | right; repeat split; try lia; lra] |]
        end.
      cbn. split; [reflexivity | right; repeat split; try lia; lra].
Qed.

(** X14: over any session of gestures whose clock readings are at most T,
    in any order, the number of actions dispatched times the cooldown is
    at most the time between [last_action_time] and T: from start-up, no
    more than one action per cooldown on average, whatever the gestures. *)
Theorem dispatch_rate_limit
    (gestures : list (string * R)) (self : Controller.t) (T : R) :
  0 < Controller.action_cooldown self ->
  Forall (fun g => snd g <= T) gestures ->
  Controller.action_cooldown self
  * INR (Controller.dispatched (snd (Controller.execute_all self gestures)))
  <= Rmax 0 (T - Controller.last_action_time self).
Proof.
  revert self. induction gestures as [| [g now] gestures IH]; intros self Hc Hall.
  - cbn. rewrite Rmult_0_r. apply Rmax_l.
  - inversion Hall as [| ? ? Hnow Hall']; subst. cbn [snd] in Hnow.
    cbn [Controller.execute_all].
    pose proof (execute_step self g now) as Hstep. cbv zeta in Hstep.
    destruct (Controller.execute_gesture_action self g now) as [s1 c1].
    cbn [fst snd] in Hstep. destruct Hstep as [Hcool Hstep].
    specialize (IH s1). rewrite Hcool in IH. specialize (IH Hc Hall').
    destruct (Controller.execute_all s1 gestures) as [s2 c2]. cbn [snd] in *.
    rewrite dispatched_app, plus_INR.
    set (c := Controller.action_cooldown self) in *.
    set (D := INR (Controller.dispatched c2)) in *.
    assert (HD : 0 <= c * D).
    { apply Rmult_le_pos; [lra | apply pos_INR]. }
    destruct Hstep as [[Hd Hl] | [Hd [Hl Hpast]]].
    + rewrite Hd, Hl in *. cbn [INR]. lra.
    + rewrite Hl in IH.
      assert (Hd' : INR (Controller.dispatched c1) <= 1).
      { change 1 with (INR 1). apply le_INR, Hd. }
      assert (Hd0 : 0 <= INR (Controller.dispatched c1)) by apply pos_INR.
      rewrite Rmax_right in IH by lra.
      apply Rle_trans with (T - Controller.last_action_time self); [| apply Rmax_r].
      rewrite Rmult_plus_distr_l.
      assert (c * INR (Controller.dispatched c1) <= c) by nra.
      lra.
Qed.

(** Three fists within a second of the start-up state's clock. *)
Lemma dispatch_rate_limit_witness :
  let gestures := [("fist", 1); ("fist", 15/10); ("fist", 2)] in
  0 < Controller.action_cooldown Controller.init /\
  Forall (fun g => snd g <= 2) gestures /\
  Controller.action_cooldown Controller.init
  * INR (Controller.dispatched
           (snd (Controller.execute_all Controller.init gestures)))
  <= Rmax 0 (2 - Controller.last_action_time Controller.init).
Proof.
  cbv zeta.
  assert (Hc : 0 < Controller.action_cooldown Controller.init) by (cbn; lra).
  assert (Hall : Forall (fun g : string * R => snd g <= 2)
                   [("fist", 1); ("fist", 15/10); ("fist", 2)]).
  { repeat constructor; cbn; lra. }
  split; [exact Hc |]. split; [exact Hall |].
  apply (dispatch_rate_limit _ Controller.init 2 Hc Hall).
Defined.

(** ** The mode toggle over a session *)

Lemma toggle_events_app (a b : list Controller.Call) :
  Controller.toggle_events (a ++ b)
  = (Controller.toggle_events a + Controller.toggle_events b)%nat.
Proof.
  unfold Controller.toggle_events. rewrite filter_app, length_app. reflexivity.
Qed.

(** One frame of the timer. *)
Lemma mode_toggle_step_spec (self : Controller.t) (pose : bool) (dt : R) :
  0 < Controller.mode_toggle_cooldown_time self ->
  Session.timer_in_range self ->
  0 <= dt ->
  let r := Controller.mode_toggle_step self pose dt in
  let k := Controller.toggle_events (snd r) in
  Controller.mode_toggle_cooldown_time (fst r)
  = Controller.mode_toggle_cooldown_time self /\
  Session.timer_in_range (fst r) /\
  2 * Controller.mode_toggle_cooldown_time self * INR k
  + Session.time_to_toggle self - Session.time_to_toggle (fst r) <= dt /\
  Controller.cad_active (fst r) = xorb (Controller.cad_active self) (Nat.odd k).
Proof.
  unfold Session.timer_in_range, Session.time_to_toggle.
  intros HT [Hlo Hhi] Hdt.
  unfold Controller.mode_toggle_step.
  set (t := Controller.mode_toggle_cooldown self) in *.
  set (T := Controller.mode_toggle_cooldown_time self) in *.
  destruct pose.
  - destruct (Rlt_dec 0 t) as [Hpos | Hneg].
    + unfold Py.gtb. rewrite (ltb_true 0 t) by lra.
      cbn [Controller.set_mode_toggle_cooldown Controller.mode_toggle_cooldown].
      destruct (Rle_dec (t - dt) 0) as [Hfire | Hwait].
      * rewrite leb_true by lra.
        unfold Controller.toggle_cad_mode. cbn.
        destruct (Controller.cad_active self); cbn; fold T; compare;
          repeat split; try lra.
      * rewrite leb_false by lra. cbn. fold T; fold t. compare.
        rewrite xorb_false_r. repeat split; lra.
    + unfold Py.gtb. rewrite (ltb_false 0 t) by lra.
      destruct (Req_dec_T t 0) as [Hz | Hnz].
      * rewrite eqb_true by assumption. cbn. fold T; fold t. compare.
        rewrite xorb_false_r. repeat split; lra.
      * rewrite eqb_false by assumption. cbn. fold T; fold t. compare.
        rewrite xorb_false_r. repeat split; lra.
  - destruct (Rlt_dec 0 t) as [Hpos | Hneg].
    + unfold Py.gtb. rewrite (ltb_true 0 t) by lra.
      cbn. fold T; fold t. compare.
      rewrite xorb_false_r. repeat split; lra.
    + unfold Py.gtb. rewrite (ltb_false 0 t) by lra.
      destruct (Rlt_dec t 0) as [Hcool | Hidle].
      * rewrite (ltb_true t 0) by lra. cbn. fold T; fold t.
        unfold Py.min.
        destruct (Rlt_dec (t + dt) 0) as [Hstill | Hdone].
        -- rewrite (ltb_true (t + dt) 0) by lra. compare.
           rewrite xorb_false_r. repeat split; lra.
        -- rewrite (ltb_false (t + dt) 0) by lra. compare.
           rewrite xorb_false_r. repeat split; lra.
      * rewrite (ltb_false t 0) by lra. cbn. fold T; fold t. compare.
        rewrite xorb_false_r. repeat split; lra.
Qed.

Lemma step_all_spec (steps : list (bool * R)) :
  forall self,
    0 < Controller.mode_toggle_cooldown_time self ->
    Session.timer_in_range self ->
    Forall (fun dt => 0 <= dt) (map snd steps) ->
    let r := Controller.step_all self steps in
    let k := Controller.toggle_events (snd r) in
    Controller.mode_toggle_cooldown_time (fst r)
    = Controller.mode_toggle_cooldown_time self /\
    Session.timer_in_range (fst r) /\
    2 * Controller.mode_toggle_cooldown_time self * INR k
    + Session.time_to_toggle self - Session.time_to_toggle (fst r)
    <= Py.sum (map snd steps) /\
    Controller.cad_active (fst r) = xorb (Controller.cad_active self) (Nat.odd k).
Proof.
  induction steps as [| [pose dt] steps IH]; intros self HT Hr Hdts.
  - cbn. rewrite xorb_false_r. repeat split; try apply Hr. lra.
  - cbn [map snd] in Hdts. inversion Hdts as [| ? ? Hdt Hdts']; subst.
    cbn [Controller.step_all map snd Py.sum fst].
    destruct (mode_toggle_step_spec self pose dt HT Hr Hdt) as [HT1 [Hr1 [Hk1 Hc1]]].
    destruct (Controller.mode_toggle_step self pose dt) as [s1 c1].
    cbn [fst snd] in *.
    assert (HT' : 0 < Controller.mode_toggle_cooldown_time s1) by (rewrite HT1; exact HT).
    destruct (IH s1 HT' Hr1 Hdts') as [HT2 [Hr2 [Hk2 Hc2]]].
    destruct (Controller.step_all s1 steps) as [s2 c2]. cbn [fst snd] in *.
    rewrite toggle_events_app, plus_INR.
    split; [congruence |]. split; [exact Hr2 |]. split.
    + rewrite HT1 in Hk2. lra.
    + rewrite Hc2, Hc1, Nat.odd_add, xorb_assoc. reflexivity.
Qed.

(** X15: over any session of frames of 21 landmarks with non-negative
    frame times, from a state whose timer is within the hold time T of 0:
    twice T times the number of toggles is at most the time elapsed plus
    2T minus the time the state still had to wait; the timer stays within
    T of 0; and the CAD flag has flipped as often as toggles fired. *)
Theorem toggle_rate_limit (frames : list (Frame * R)) (self : Controller.t) :
  0 < Controller.mode_toggle_cooldown_time self ->
  Session.timer_in_range self ->
  Forall (fun f => List.length (fst f) = 21%nat) frames ->
  Forall (fun f => 0 <= snd f) frames ->
  exists self' calls,
    Controller.check_all self frames = Some (self', calls) /\
    2 * Controller.mode_toggle_cooldown_time self
    * INR (Controller.toggle_events calls)
    <= Controller.elapsed frames + 2 * Controller.mode_toggle_cooldown_time self
       - Session.time_to_toggle self /\
    Session.timer_in_range self' /\
    Controller.cad_active self'
    = xorb (Controller.cad_active self) (Nat.odd (Controller.toggle_events calls)).
Proof.
  intros HT Hr Hlen Hdts.
  destruct (check_all_total frames Hlen self) as [steps [Hs Hrun]].
  assert (Hdts' : Forall (fun dt => 0 <= dt) (map snd steps)).
  { rewrite Hs. apply Forall_map. exact Hdts. }
  destruct (step_all_spec steps self HT Hr Hdts') as [HT' [Hr' [Hk Hc]]].
  destruct (Controller.step_all self steps) as [self' calls]. cbn [fst snd] in *.
  exists self', calls. split; [exact Hrun |].
  unfold Controller.elapsed. rewrite <- Hs.
  split; [| split; [exact Hr' | exact Hc]].
  assert (Session.time_to_toggle self'
          <= 2 * Controller.mode_toggle_cooldown_time self).
  { unfold Session.time_to_toggle. destruct Hr' as [Hlo Hhi]. rewrite HT' in *.
    unfold Py.gtb. destruct (Rlt_dec 0 (Controller.mode_toggle_cooldown self')).
    - rewrite ltb_true by assumption. lra.
    - rewrite ltb_false by lra. lra. }
  lra.
Qed.

(** The open hand over three frames, from the start-up state. *)
Lemma toggle_rate_limit_witness :
  let open_hand := Hands.hand true true true true true in
  let frames := [(open_hand, 3/100); (open_hand, 6/10); (open_hand, 6/10)] in
  0 < Controller.mode_toggle_cooldown_time Controller.init /\
  Session.timer_in_range Controller.init /\
  Forall (fun f => List.length (fst f) = 21%nat) frames /\
  Forall (fun f => 0 <= snd f) frames /\
  exists self' calls,
    Controller.check_all Controller.init frames = Some (self', calls) /\
    2 * Controller.mode_toggle_cooldown_time Controller.init
    * INR (Controller.toggle_events calls)
    <= Controller.elapsed frames
       + 2 * Controller.mode_toggle_cooldown_time Controller.init
       - Session.time_to_toggle Controller.init.
Proof.
  cbv zeta.
  assert (HT : 0 < Controller.mode_toggle_cooldown_time Controller.init)
    by (cbn; lra).
  assert (Hr : Session.timer_in_range Controller.init)
    by (unfold Session.timer_in_range; cbn; lra).
  assert (Hlen : Forall (fun f : Frame * R => List.length (fst f) = 21%nat)
                   [(Hands.hand true true true true true, 3/100);
                    (Hands.hand true true true true true, 6/10);
                    (Hands.hand true true true true true, 6/10)]).
  { repeat constructor. }
  assert (Hdt : Forall (fun f : Frame * R => 0 <= snd f)
                  [(Hands.hand true true true true true, 3/100);
                   (Hands.hand true true true true true, 6/10);
                   (Hands.hand true true true true true, 6/10)]).
  { repeat constructor; cbn; lra. }
  split; [exact HT |]. split; [exact Hr |]. split; [exact Hlen |].
  split; [exact Hdt |].
  destruct (toggle_rate_limit _ Controller.init HT Hr Hlen Hdt)
    as [self' [calls [Hrun [Hk _]]]].
  exists self', calls. split; [exact Hrun | exact Hk].
Defined.

(** While the pose is held the toggle fires at most once, whatever the
    state at the start and the time between the frames. *)
Lemma hold_fires_once (dts : list R) :
  forall self,
    0 < Controller.mode_toggle_cooldown_time self ->
    (Controller.toggle_events
       (snd (Controller.step_all self (map (pair true) dts))) <= 1)%nat.
Proof.
  induction dts as [| dt dts IH]; intros self HT; [cbn; lia |].
  cbn [map Controller.step_all].
  set (t := Controller.mode_toggle_cooldown self).
  destruct (Rlt_dec 0 t) as [Hpos | Hneg].
  - destruct (Rle_dec (t - dt) 0) as [Hfire | Hwait].
    + destruct (step_arming_fires self dt Hpos Hfire) as [Hk [Ht HT']].
      destruct (Controller.mode_toggle_step self true dt) as [s1 c1].
      cbn [fst snd] in *.
      rewrite hold_cooling by (rewrite Ht; lra).
      cbn [snd]. rewrite app_nil_r. lia.
    + assert (E : Controller.mode_toggle_step self true dt
                  = (Controller.set_mode_toggle_cooldown self (t - dt), [])).
      { unfold Controller.mode_toggle_step. fold t. cbn. compare. reflexivity. }
      rewrite E. cbn [fst snd app]. apply IH. exact HT.
  - destruct (Req_dec_T t 0) as [Hz | Hnz].
    + assert (E : Controller.mode_toggle_step self true dt
                  = (Controller.set_text
                       (Controller.set_mode_toggle_cooldown self
                          (Controller.mode_toggle_cooldown_time self))
                       "HOLD TO SWITCH MODES...", [])).
      { unfold Controller.mode_toggle_step. fold t. compare. reflexivity. }
      rewrite E. cbn [fst snd app]. apply IH. exact HT.
    + rewrite step_cooling_held by (fold t; lra).
      cbn [fst snd app]. apply IH. exact HT.
Qed.

(** X16: while every frame shows the all-fingers-extended pose the toggle
    fires at most once, from any state of the timer and whatever the frame
    times: the mode cannot flip back and forth under a hand that is held
    open. *)
Theorem held_pose_toggles_at_most_once
    (frames : list (Frame * R)) (self : Controller.t) :
  0 < Controller.mode_toggle_cooldown_time self ->
  Controller.posed true frames ->
  exists self' calls,
    Controller.check_all self frames = Some (self', calls) /\
    (Controller.toggle_events calls <= 1)%nat.
Proof.
  intros HT Hp.
  rewrite (check_all_posed true frames Hp self).
  rewrite <- map_map with (f := snd) (g := pair true).
  pose proof (hold_fires_once (map snd frames) self HT) as H.
  destruct (Controller.step_all self (map (pair true) (map snd frames)))
    as [self' calls].
  exists self', calls. split; [reflexivity | exact H].
Qed.

(** The open hand held for five frames. *)
Lemma held_pose_toggles_at_most_once_witness :
  let open_hand := Hands.hand true true true true true in
  let frames := [(open_hand, 3/100); (open_hand, 6/10); (open_hand, 6/10);
                 (open_hand, 2); (open_hand, 2)] in
  0 < Controller.mode_toggle_cooldown_time Controller.init /\
  Controller.posed true frames /\
  exists self' calls,
    Controller.check_all Controller.init frames = Some (self', calls) /\
    (Controller.toggle_events calls <= 1)%nat.
Proof.
  cbv zeta.
  assert (HT : 0 < Controller.mode_toggle_cooldown_time Controller.init)
    by (cbn; lra).
  assert (Hopen : Controller.all_extended (Hands.hand true true true true true)
                  = Some true) by apply all_extended_hand.
  assert (Hp : Controller.posed true
                 [(Hands.hand true true true true true, 3/100);
                  (Hands.hand true true true true true, 6/10);
                  (Hands.hand true true true true true, 6/10);
                  (Hands.hand true true true true true, 2);
                  (Hands.hand true true true true true, 2)]).
  { repeat constructor; exact Hopen. }
  split; [exact HT |]. split; [exact Hp |].
  apply (held_pose_toggles_at_most_once _ Controller.init HT Hp).
Defined.

(** ** The controller in CAD mode *)

(** What the three pose tests of the detector can report together. *)
Lemma pose_scenarios (fr : Frame) (velocities : Py.idict Vec3) :
  List.length fr = 21%nat ->
  exists pointing three tool,
    PrecisionTracking._is_index_precision_pointing fr velocities = Some pointing /\
    PrecisionTracking._is_three_finger_control fr = Some three /\
    PrecisionTracking.detect_tool_selection_gesture fr = Some tool /\
    ((three = false /\ tool = Some ("select", 9/10)) \/
     (pointing = false /\ three = true /\ tool = Some ("move", 9/10)) \/
     (pointing = false /\ three = false /\
      (tool = None \/
       exists name, tool = Some (name, 9/10) /\
                    In name ["create"; "scale"; "rotate"; "extrude"]))).
Proof.
  intros Hlen.
  destruct (pose_tests fr velocities Hlen) as [t [i [m [r [p [stable [Ept [E3 Etool]]]]]]]].
  eexists _, _, _. split; [exact Ept |]. split; [exact E3 |]. split; [exact Etool |].
  destruct t, i, m, r, p, stable; cbn;
    first [ left; split; reflexivity
          | right; left; repeat split; reflexivity
          | right; right; split; [reflexivity |]; split; [reflexivity |];
            first [ left; reflexivity
                  | right; eexists; split; [reflexivity |]; cbn; tauto ] ].
Qed.

(** X17: a hand position within the unit square of the image maps into the
    world rectangle [-10, 10] x [-7.5, 7.5], the depth is multiplied by
    10, and the hand position is recovered from the world position (the
    map loses nothing; y is reversed). *)
Theorem hand_to_world_position_range (hand_pos : Vec3) :
  0 <= lx hand_pos <= 1 -> 0 <= ly hand_pos <= 1 ->
  let world := CadController.hand_to_world_position hand_pos in
  -10 <= lx world <= 10 /\ -75/10 <= ly world <= 75/10 /\
  lz world = 10 * lz hand_pos /\
  lx hand_pos = lx world / 20 + 5/10 /\ ly hand_pos = 5/10 - ly world / 15.
Proof.
  intros Hx Hy. unfold CadController.hand_to_world_position. cbn.
  repeat split; lra.
Qed.

(** The corner of the image at the top left. *)
Lemma hand_to_world_position_range_witness :
  let hand_pos := mkVec3 0 0 (1/10) in
  0 <= lx hand_pos <= 1 /\ 0 <= ly hand_pos <= 1 /\
  -10 <= lx (CadController.hand_to_world_position hand_pos) <= 10 /\
  -75/10 <= ly (CadController.hand_to_world_position hand_pos) <= 75/10.
Proof.
  cbv zeta.
  assert (Hx : 0 <= lx (mkVec3 0 0 (1/10)) <= 1) by (cbn; lra).
  assert (Hy : 0 <= ly (mkVec3 0 0 (1/10)) <= 1) by (cbn; lra).
  split; [exact Hx |]. split; [exact Hy |].
  destruct (hand_to_world_position_range (mkVec3 0 0 (1/10)) Hx Hy)
    as [H1 [H2 _]].
  split; [exact H1 | exact H2].
Defined.

(** Split a call of [handle_cad_gestures] on a frame of 21 landmarks into
    the cases of the detector and of the current tool, and evaluate it in
    each. *)
Ltac cad_cases cad data Hlen :=
  let Hpt := fresh "Hpt" in
  let H3 := fresh "H3" in
  let Htool := fresh "Htool" in
  let Hd := fresh "Hd" in
  let Ept := fresh "Ept" in
  let E3 := fresh "E3" in
  let Etool := fresh "Etool" in
  let Hs := fresh "Hs" in
  let pointing := fresh "pointing" in
  let three := fresh "three" in
  let tool := fresh "tool" in
  let pointing' := fresh "pointing'" in
  let three' := fresh "three'" in
  let tool' := fresh "tool'" in
  let name := fresh "name" in
  let Hname := fresh "Hname" in
  destruct (detect_precise_gestures_shape data Hlen)
    as [thumb_tip [index_tip [middle_tip [ring_tip [pinky_tip [pointing [three [tool
         [_ [Hindex_tip [_ [_ [_ [Hpt [H3 [Htool Hd]]]]]]]]]]]]]]]];
  destruct (pose_scenarios (PrecisionTracking.landmarks data)
              match PrecisionTracking.velocities data with Some v => v | None => [] end
              Hlen) as [pointing' [three' [tool' [Ept [E3 [Etool Hs]]]]]];
  rewrite Ept in Hpt; rewrite E3 in H3; rewrite Etool in Htool;
  injection Hpt as <-; injection H3 as <-; injection Htool as <-;
  cbv zeta in Hd;
  unfold CadController.handle_cad_gestures; rewrite Hd; cbn [Py.bind];
  clear Hd Ept E3 Etool;
  destruct (Documented.euclidean3 thumb_tip index_tip <? 5/100) eqn:Epinch;
  destruct (Documented.mean_adjacent_distance index_tip middle_tip ring_tip pinky_tip
            >? 3/10) eqn:Espread;
  (destruct Hs as [[-> ->] | [[-> [-> ->]] | [-> [-> [-> | [name [-> Hname]]]]]]];
   [ destruct pointing'
   |
   |
   | cbn in Hname; destruct Hname as [<- | [<- | [<- | [<- | []]]]] ]);
  unfold Builtins.has_key; lookup; cbn; compare; cbn;
  rewrite ?andb_false_r, ?andb_true_r;
  repeat match goal with
    | |- context [String.eqb (CADSystem.current_tool cad) ?s] =>
        let E := fresh "Etool" in
        destruct (String.eqb (CADSystem.current_tool cad) s) eqn:E
    end;
  cbn; compare; cbn.

(** X18: on tracking data with 21 landmarks [handle_cad_gestures] returns
    the mapping of the detector, asks the CAD system for at most one
    operation, and never for [place_object_at] or
    [rotate_selected_objects]: the gesture that each needs sets another
    tool first (pointing sets select, three fingers set move), so the
    create and rotate branches are dead. *)
Theorem cad_gestures_never_place_or_rotate
    (cad : CADSystem.t) (data : PrecisionTracking.Data) :
  List.length (PrecisionTracking.landmarks data) = 21%nat ->
  exists cad' ops gestures,
    CadController.handle_cad_gestures cad (Some data)
    = Some (cad', ops, Some gestures) /\
    PrecisionTracking.detect_precise_gestures (Some data) = Some gestures /\
    (List.length (filter CadController.is_operation ops) <= 1)%nat /\
    forall op, In op ops ->
      match op with
      | CadController.place_object_at _
      | CadController.rotate_selected_objects _ => False
      | _ => True
      end.
Proof.
  intros Hlen.
  cad_cases cad data Hlen;
    (eexists _, _, _; split; [reflexivity |]; split; [reflexivity |]; split;
     [ cbn; lia
     | intros op Hin; cbn in Hin;
       repeat (destruct Hin as [<- | Hin]; [exact I |]); destruct Hin ]).
Qed.

(** The phone gesture, the pattern of the rotate tool. *)
Lemma cad_gestures_never_place_or_rotate_witness :
  List.length (PrecisionTracking.landmarks (Hands.tracked Hands.phone)) = 21%nat /\
  exists cad' ops gestures,
    CadController.handle_cad_gestures CADSystem.init (Some (Hands.tracked Hands.phone))
    = Some (cad', ops, Some gestures) /\
    (List.length (filter CadController.is_operation ops) <= 1)%nat.
Proof.
  split; [reflexivity |].
  destruct (cad_gestures_never_place_or_rotate CADSystem.init
              (Hands.tracked Hands.phone) eq_refl)
    as [cad' [ops [gestures [Hh [_ [Hone _]]]]]].
  exists cad', ops, gestures. split; [exact Hh | exact Hone].
Defined.










(** ** The CAD system *)

(** *** Assignments to the selected objects *)

Lemma modify_get (scene : Ursina.Scene) (obj : nat)
    (f : Ursina.Entity -> Ursina.Entity) (k : nat) :
  Py.idict_get (Ursina.modify scene obj f) k
  = if Nat.eqb k obj then option_map f (Py.idict_get scene k)
    else Py.idict_get scene k.
Proof.
  unfold Ursina.modify, Ursina.Scene in *.
  destruct (Nat.eqb_spec k obj) as [-> | Hne].
  - destruct (Py.idict_get scene obj) eqn:E.
    + rewrite idict_get_set_same. reflexivity.
    + rewrite E. reflexivity.
  - destruct (Py.idict_get scene obj) eqn:E; [| reflexivity].
    apply idict_get_set_other. exact Hne.
Qed.

(** A loop that assigns to each selected object: every object has been
    through the assignment as many times as the selection holds it. *)
Lemma modify_all_get (f : Ursina.Entity -> Ursina.Entity) (objs : list nat) :
  forall (scene : Ursina.Scene) (k : nat),
    Py.idict_get (fold_left (fun scene obj => Ursina.modify scene obj f) objs scene) k
    = option_map (Nat.iter (count_occ Nat.eq_dec objs k) f) (Py.idict_get scene k).
Proof.
  induction objs as [| a objs IH]; intros scene k.
  - cbn. destruct (Py.idict_get scene k); reflexivity.
  - cbn [fold_left]. rewrite IH, modify_get.
    cbn [count_occ]. destruct (Nat.eq_dec a k) as [-> | Hne].
    + rewrite Nat.eqb_refl. destruct (Py.idict_get scene k); [| reflexivity].
      cbn [option_map]. rewrite Nat.iter_succ_r. reflexivity.
    + destruct (Nat.eqb_spec k a) as [-> | _]; [contradiction | reflexivity].
Qed.

Lemma modify_all_selected (f : Ursina.Entity -> Ursina.Entity) (objs : list nat)
    (scene : Ursina.Scene) (k : nat) (e : Ursina.Entity) :
  In k objs -> Py.idict_get scene k = Some e ->
  exists n,
    Py.idict_get (fold_left (fun scene obj => Ursina.modify scene obj f) objs scene) k
    = Some (f (Nat.iter n f e)).
Proof.
  intros Hin He. rewrite modify_all_get, He. cbn [option_map].
  apply (count_occ_In Nat.eq_dec) in Hin.
  destruct (count_occ Nat.eq_dec objs k) as [| n]; [lia |].
  exists n. reflexivity.
Qed.

Lemma modify_all_other (f : Ursina.Entity -> Ursina.Entity) (objs : list nat)
    (scene : Ursina.Scene) (k : nat) :
  ~ In k objs ->
  Py.idict_get (fold_left (fun scene obj => Ursina.modify scene obj f) objs scene) k
  = Py.idict_get scene k.
Proof.
  intros Hin. rewrite modify_all_get.
  apply (count_occ_not_In Nat.eq_dec) in Hin. rewrite Hin.
  destruct (Py.idict_get scene k); reflexivity.
Qed.

Lemma clamp_range (x : R) : 1/10 <= CADSystem.clamp x <= 5.
Proof.
  unfold CADSystem.clamp, Builtins.max, Py.min.
  destruct (Rlt_dec x 5).
  - rewrite (ltb_true x 5) by assumption.
    destruct (Rlt_dec (1/10) x).
    + rewrite ltb_true by assumption. lra.
    + rewrite ltb_false by lra. lra.
  - rewrite (ltb_false x 5) by lra. rewrite ltb_true by lra. lra.
Qed.

Lemma scaled_keeps (scale_factor dt : R) (n : nat) (e : Ursina.Entity) :
  let e' := Nat.iter n (CADSystem.scaled scale_factor dt) e in
  Ursina.position e' = Ursina.position e /\
  Ursina.rotation_y e' = Ursina.rotation_y e /\
  Ursina.color e' = Ursina.color e /\
  Ursina.model_name e' = Ursina.model_name e.
Proof.
  induction n as [| n IH]; [cbn; tauto |].
  cbv zeta in *. rewrite !Nat.iter_succ.
  set (x := Nat.iter n (CADSystem.scaled scale_factor dt) e) in *.
  unfold CADSystem.scaled. cbn. exact IH.
Qed.

(** X23: after [scale_selected_objects], whatever the factor and the frame
    time, each selected object has its three scales within [0.1, 5] and
    its position and rotation as before, and the objects that are not
    selected are untouched. *)
Theorem scaled_objects_stay_within_limits
    (self : CADSystem.t) (scene : Ursina.Scene) (scale_factor dt : R)
    (obj : nat) (e : Ursina.Entity) :
  Py.idict_get scene obj = Some e ->
  let scene' := CADSystem.scale_selected_objects self scene scale_factor dt in
  (In obj (CADSystem.selected_objects self) ->
   exists e',
     Py.idict_get scene' obj = Some e' /\
     1/10 <= lx (Ursina.scale e') <= 5 /\
     1/10 <= ly (Ursina.scale e') <= 5 /\
     1/10 <= lz (Ursina.scale e') <= 5 /\
     Ursina.position e' = Ursina.position e /\
     Ursina.rotation_y e' = Ursina.rotation_y e) /\
  (~ In obj (CADSystem.selected_objects self) ->
   Py.idict_get scene' obj = Some e).
Proof.
  intros He scene'. subst scene'. unfold CADSystem.scale_selected_objects.
  split.
  - intros Hin.
    destruct (CADSystem.selected_objects self) as [| o objs] eqn:Es; [destruct Hin |].
    destruct (modify_all_selected (CADSystem.scaled scale_factor dt) (o :: objs)
                scene obj e Hin He) as [n Hn].
    eexists. split; [exact Hn |].
    destruct (scaled_keeps scale_factor dt n e) as [Hp [Hr _]].
    cbv zeta in Hp, Hr.
    set (x := Nat.iter n (CADSystem.scaled scale_factor dt) e) in *.
    unfold CADSystem.scaled. cbn.
    repeat split; try apply clamp_range; assumption.
  - intros Hin.
    destruct (CADSystem.selected_objects self) as [| o objs] eqn:Es; [exact He |].
    rewrite modify_all_other by exact Hin. exact He.
Qed.

(** A selected unit cube scaled by 100 over one second. *)
Lemma scaled_objects_stay_within_limits_witness :
  let cube := Ursina.mkEntity (mkVec3 0 0 0) (mkVec3 1 1 1) 0 "white" None "cube" in
  let scene : Ursina.Scene := [(7%nat, cube)] in
  let self := CADSystem.set_selected_objects CADSystem.init [7%nat] in
  Py.idict_get scene 7 = Some cube /\
  In 7%nat (CADSystem.selected_objects self) /\
  exists e',
    Py.idict_get (CADSystem.scale_selected_objects self scene 100 1) 7 = Some e' /\
    1/10 <= lx (Ursina.scale e') <= 5.
Proof.
  cbv zeta. split; [reflexivity |]. split; [left; reflexivity |].
  destruct (scaled_objects_stay_within_limits
              (CADSystem.set_selected_objects CADSystem.init [7%nat])
              [(7%nat, Ursina.mkEntity (mkVec3 0 0 0) (mkVec3 1 1 1) 0 "white" None
                         "cube")]
              100 1 7%nat _ eq_refl) as [Hin _].
  destruct (Hin (or_introl eq_refl)) as [e' [He [Hx _]]].
  exists e'. split; [exact He | exact Hx].
Defined.






Lemma rotated_iter (rotation : R) (n : nat) (e : Ursina.Entity) :
  Nat.iter n (CADSystem.rotated rotation) e
  = Ursina.mkEntity (Ursina.position e) (Ursina.scale e)
      (Ursina.rotation_y e + INR n * rotation) (Ursina.color e)
      (Ursina.original_color e) (Ursina.model_name e).
Proof.
  induction n as [| n IH].
  - cbn. destruct e. cbn. f_equal. ring.
  - rewrite Nat.iter_succ, IH. unfold CADSystem.rotated. cbn [Ursina.position
      Ursina.scale Ursina.rotation_y Ursina.color Ursina.original_color
      Ursina.model_name].
    f_equal. rewrite S_INR. ring.
Qed.

(** X25: with a selection that is not empty, [rotate_selected_objects] on
    a pointing entry turns each object about y by 5 times the offset of
    the hand from the middle of the image, once for each time the
    selection holds it, and changes nothing else; on an entry without
    position and direction it raises [KeyError]. *)
Theorem rotation_follows_hand_offset
    (self : CADSystem.t) (scene : Ursina.Scene)
    (control_data : PrecisionTracking.Entry) :
  CADSystem.selected_objects self <> [] ->
  (forall confidence position direction,
     control_data = PrecisionTracking.Pointing confidence position direction ->
     exists scene',
       CADSystem.rotate_selected_objects self scene control_data = Some scene' /\
       forall obj e,
         Py.idict_get scene obj = Some e ->
         exists e',
           Py.idict_get scene' obj = Some e' /\
           Ursina.rotation_y e'
           = Ursina.rotation_y e
             + INR (count_occ Nat.eq_dec (CADSystem.selected_objects self) obj)
               * ((lx position - 5/10) * 5) /\
           Ursina.position e' = Ursina.position e /\
           Ursina.scale e' = Ursina.scale e) /\
  ((forall confidence position direction,
      control_data <> PrecisionTracking.Pointing confidence position direction) ->
   CADSystem.rotate_selected_objects self scene control_data = None).
Proof.
  intros Hsel. unfold CADSystem.rotate_selected_objects.
  destruct (CADSystem.selected_objects self) as [| o objs] eqn:Es; [contradiction |].
  split.
  - intros confidence position direction ->. cbn [Entries.position_of
      Entries.direction_of Py.bind].
    eexists. split; [reflexivity |]. intros obj e He.
    rewrite modify_all_get, He. cbn [option_map]. rewrite rotated_iter.
    eexists. split; [reflexivity |]. cbn. repeat split.
  - intros Hnot. destruct control_data as [c p d | c p s | c f | tl c]; cbn;
      try reflexivity.
    exfalso. apply (Hnot c p d). reflexivity.
Qed.

(** A selection of one object and an entry of the scale gesture, which
    has no position. *)
Lemma rotation_follows_hand_offset_witness :
  let self := CADSystem.set_selected_objects CADSystem.init [7%nat] in
  CADSystem.selected_objects self <> [] /\
  CADSystem.rotate_selected_objects self [] (PrecisionTracking.Scaling (7/10) 1)
  = None.
Proof.
  cbv zeta.
  assert (Hsel : CADSystem.selected_objects
                   (CADSystem.set_selected_objects CADSystem.init [7%nat]) <> [])
    by discriminate.
  split; [exact Hsel |].
  apply (rotation_follows_hand_offset
           (CADSystem.set_selected_objects CADSystem.init [7%nat]) []
           (PrecisionTracking.Scaling (7/10) 1) Hsel).
  discriminate.
Defined.

Lemma restore_color_iter (n : nat) (e : Ursina.Entity) :
  Nat.iter (S n) CADSystem.restore_color e = CADSystem.restore_color e.
Proof.
  induction n as [| n IH]; [reflexivity |].
  change (Nat.iter (S (S n)) CADSystem.restore_color e)
    with (CADSystem.restore_color (Nat.iter (S n) CADSystem.restore_color e)).
  rewrite IH. unfold CADSystem.restore_color.
  destruct (Ursina.original_color e) eqn:E; cbn; rewrite ?E; reflexivity.
Qed.

Lemma clear_selection_get (self : CADSystem.t) (scene : Ursina.Scene) (obj : nat) :
  Py.idict_get (snd (CADSystem.clear_selection self scene)) obj
  = option_map (if in_dec Nat.eq_dec obj (CADSystem.selected_objects self)
                then CADSystem.restore_color else fun e => e)
               (Py.idict_get scene obj).
Proof.
  unfold CADSystem.clear_selection. cbn [snd]. rewrite modify_all_get.
  destruct (in_dec Nat.eq_dec obj (CADSystem.selected_objects self)) as [Hin | Hin].
  - apply (count_occ_In Nat.eq_dec) in Hin.
    destruct (count_occ Nat.eq_dec (CADSystem.selected_objects self) obj) as [| n];
      [lia |].
    destruct (Py.idict_get scene obj); [| reflexivity].
    cbn [option_map]. rewrite restore_color_iter. reflexivity.
  - apply (count_occ_not_In Nat.eq_dec) in Hin. rewrite Hin.
    destruct (Py.idict_get scene obj); reflexivity.
Qed.

(** X26: [clear_selection] empties the selection and gives every selected
    object that has an original colour that colour back; position, scale
    and original colour stay, and the objects that are not selected or
    have no original colour are untouched. *)
Theorem clear_selection_restores_colors
    (self : CADSystem.t) (scene : Ursina.Scene) (obj : nat) (e : Ursina.Entity) :
  Py.idict_get scene obj = Some e ->
  let r := CADSystem.clear_selection self scene in
  CADSystem.selected_objects (fst r) = [] /\
  exists e',
    Py.idict_get (snd r) obj = Some e' /\
    Ursina.position e' = Ursina.position e /\
    Ursina.scale e' = Ursina.scale e /\
    Ursina.original_color e' = Ursina.original_color e /\
    (In obj (CADSystem.selected_objects self) ->
     forall c, Ursina.original_color e = Some c -> Ursina.color e' = c) /\
    (~ In obj (CADSystem.selected_objects self) \/ Ursina.original_color e = None ->
     e' = e).
Proof.
  intros He r. subst r. split; [reflexivity |].
  rewrite clear_selection_get, He. cbn [option_map].
  eexists. split; [reflexivity |].
  destruct (in_dec Nat.eq_dec obj (CADSystem.selected_objects self)) as [Hin | Hin].
  - unfold CADSystem.restore_color.
    destruct (Ursina.original_color e) as [c |] eqn:E; cbn.
    + split; [reflexivity |]. split; [reflexivity |]. split; [reflexivity |].
      split.
      * intros _ c' Hc. congruence.
      * intros [H | H]; [contradiction | discriminate].
    + split; [reflexivity |]. split; [reflexivity |]. split; [exact E |].
      split; [| reflexivity]. intros _ c' Hc. discriminate.
  - split; [reflexivity |]. split; [reflexivity |]. split; [reflexivity |].
    split; [| reflexivity]. intros H. contradiction.
Qed.

(** A highlighted object that was white when it was selected. *)
Lemma clear_selection_restores_colors_witness :
  let cube :=
    Ursina.mkEntity (mkVec3 0 0 0) (mkVec3 1 1 1) 0 "yellow" (Some "white") "cube" in
  let scene : Ursina.Scene := [(7%nat, cube)] in
  let self := CADSystem.set_selected_objects CADSystem.init [7%nat] in
  Py.idict_get scene 7 = Some cube /\
  CADSystem.selected_objects (fst (CADSystem.clear_selection self scene)) = [] /\
  exists e',
    Py.idict_get (snd (CADSystem.clear_selection self scene)) 7 = Some e' /\
    Ursina.color e' = "white".
Proof.
  cbv zeta. split; [reflexivity |].
  destruct (clear_selection_restores_colors
              (CADSystem.set_selected_objects CADSystem.init [7%nat])
              [(7%nat, Ursina.mkEntity (mkVec3 0 0 0) (mkVec3 1 1 1) 0 "yellow"
                         (Some "white") "cube")]
              7%nat _ eq_refl) as [Hempty [e' [He [_ [_ [_ [Hc _]]]]]]].
  split; [exact Hempty |].
  exists e'. split; [exact He |].
  apply (Hc (or_introl eq_refl) "white" eq_refl).
Defined.

(** X27: after [toggle_active] the mode is the other one, and the grid
    flag, every line of the grid and the three texts are visible exactly
    when the mode is on; switching on selects the select tool, shows it as
    CAD TOOL: SELECT and keeps the scene and the selection; switching off
    keeps the tool and empties the selection. *)
Theorem cad_mode_shows_and_hides (self : CADSystem.t) (scene : Ursina.Scene) :
  let r := CADSystem.toggle_active self scene in
  let self' := fst r in
  CADSystem.active self' = negb (CADSystem.active self) /\
  CADSystem.grid_visible self' = CADSystem.active self' /\
  Forall (fun v => v = CADSystem.active self') (CADSystem.grid_entities self') /\
  List.length (CADSystem.grid_entities self')
  = List.length (CADSystem.grid_entities self) /\
  Ursina.visible (CADSystem.tool_display self') = CADSystem.active self' /\
  Ursina.visible (CADSystem.primitive_display self') = CADSystem.active self' /\
  Ursina.visible (CADSystem.help_text self') = CADSystem.active self' /\
  (CADSystem.active self' = true ->
   CADSystem.current_tool self' = "select" /\
   Ursina.text (CADSystem.tool_display self') = "CAD TOOL: SELECT" /\
   CADSystem.selected_objects self' = CADSystem.selected_objects self /\
   snd r = scene) /\
  (CADSystem.active self' = false ->
   CADSystem.current_tool self' = CADSystem.current_tool self /\
   CADSystem.selected_objects self' = []).
Proof.
  unfold CADSystem.toggle_active.
  cbn [CADSystem.set_active CADSystem.active].
  destruct (CADSystem.active self); cbn.
  - repeat split; try discriminate.
    + apply Forall_map, Forall_forall. reflexivity.
    + apply length_map.
  - repeat split; try discriminate.
    + apply Forall_map, Forall_forall. reflexivity.
    + apply length_map.
Qed.

(** The answer of [can_use_tool] and what it leaves in [last_tool_use]. *)
Lemma can_use_tool_spec (self : CADSystem.t) (tool_name : string) (now : R) :
  let r := CADSystem.can_use_tool self tool_name now in
  let last :=
    match Py.dict_get (CADSystem.last_tool_use self) tool_name with
    | Some last => last
    | None => 0
    end in
  snd r = (CADSystem.tool_cooldown self <? now - last) /\
  CADSystem.tool_cooldown (fst r) = CADSystem.tool_cooldown self /\
  Py.dict_get (CADSystem.last_tool_use (fst r)) tool_name
  = Some (if snd r then now else last) /\
  (forall other, other <> tool_name ->
     Py.dict_get (CADSystem.last_tool_use (fst r)) other
     = Py.dict_get (CADSystem.last_tool_use self) other).
Proof.
  unfold CADSystem.can_use_tool.
  destruct (Py.dict_get (CADSystem.last_tool_use self) tool_name) as [last |] eqn:E.
  - rewrite E. unfold Py.gtb.
    destruct (CADSystem.tool_cooldown self <? now - last); cbn.
    + lookup. repeat split. intros other Hne. apply dict_get_set_other, Hne.
    + repeat split. exact E.
  - cbn. lookup. unfold Py.gtb.
    destruct (CADSystem.tool_cooldown self <? now - 0); cbn; lookup.
    + repeat split. intros other Hne. rewrite !dict_get_set_other by exact Hne.
      reflexivity.
    + repeat split. intros other Hne. apply dict_get_set_other, Hne.
Qed.

(** X28: [can_use_tool] says yes exactly when more than the cooldown has
    passed since the last yes for that tool (since time 0 for a tool that
    was never used); after a yes every call for the same tool within the
    cooldown says no and changes nothing; and the tools do not share a
    cooldown. *)
Theorem tool_use_once_per_cooldown
    (self : CADSystem.t) (tool_name : string) (now now' : R) :
  let r := CADSystem.can_use_tool self tool_name now in
  let last :=
    match Py.dict_get (CADSystem.last_tool_use self) tool_name with
    | Some last => last
    | None => 0
    end in
  (snd r = true <-> CADSystem.tool_cooldown self < now - last) /\
  (snd r = true -> now' - now <= CADSystem.tool_cooldown self ->
   CADSystem.can_use_tool (fst r) tool_name now' = (fst r, false)) /\
  (forall other, other <> tool_name ->
     snd (CADSystem.can_use_tool (fst r) other now')
     = snd (CADSystem.can_use_tool self other now')).
Proof.
  intros r last.
  destruct (can_use_tool_spec self tool_name now) as [Hok [Hc [Hl Ho]]].
  fold r in Hok, Hc, Hl, Ho. fold last in Hok, Hl. clearbody r.
  split; [rewrite Hok; apply ltb_spec |]. split.
  - intros Ht Hle. rewrite Ht in Hl.
    unfold CADSystem.can_use_tool. rewrite Hl, Hl, Hc.
    unfold Py.gtb. rewrite ltb_false by lra. reflexivity.
  - intros other Hne.
    destruct (can_use_tool_spec (fst r) other now') as [-> _].
    destruct (can_use_tool_spec self other now') as [-> _].
    rewrite Hc, (Ho other Hne). reflexivity.
Qed.

(** X29: [cycle_primitive] never raises; the new primitive is one of box,
    sphere, cylinder and pyramid, the next one in that cyclic order after
    the current one, and sphere when the current one is not in the list;
    the display shows it in capitals. *)
Theorem cycle_primitive_order (self : CADSystem.t) :
  exists self',
    CADSystem.cycle_primitive self = Some self' /\
    In (CADSystem.primitive_type self') CADSystem.primitives /\
    Ursina.text (CADSystem.primitive_display self')
    = ("PRIMITIVE: " ++ Builtins.upper (CADSystem.primitive_type self'))%string /\
    (~ In (CADSystem.primitive_type self) CADSystem.primitives ->
     CADSystem.primitive_type self' = "sphere") /\
    (forall i,
       CADSystem.primitives.[i] = Some (CADSystem.primitive_type self) ->
       CADSystem.primitives.[(i + 1) mod 4]
       = Some (CADSystem.primitive_type self')).
Proof.
  unfold CADSystem.cycle_primitive, CADSystem.primitives, Builtins.contains.
  cbn [existsb Builtins.index].
  destruct (String.eqb_spec (CADSystem.primitive_type self) "box") as [E | N1].
  { rewrite E. cbn. eexists. split; [reflexivity |]. cbn.
    split; [tauto |]. split; [reflexivity |]. split; [tauto |].
    intros [| [| [| [| [| i]]]]] H; cbn in H; first [discriminate H | reflexivity]. }
  destruct (String.eqb_spec (CADSystem.primitive_type self) "sphere") as [E | N2].
  { rewrite E. cbn. eexists. split; [reflexivity |]. cbn.
    split; [tauto |]. split; [reflexivity |]. split; [tauto |].
    intros [| [| [| [| [| i]]]]] H; cbn in H; first [discriminate H | reflexivity]. }
  destruct (String.eqb_spec (CADSystem.primitive_type self) "cylinder") as [E | N3].
  { rewrite E. cbn. eexists. split; [reflexivity |]. cbn.
    split; [tauto |]. split; [reflexivity |]. split; [tauto |].
    intros [| [| [| [| [| i]]]]] H; cbn in H; first [discriminate H | reflexivity]. }
  destruct (String.eqb_spec (CADSystem.primitive_type self) "pyramid") as [E | N4].
  { rewrite E. cbn. eexists. split; [reflexivity |]. cbn.
    split; [tauto |]. split; [reflexivity |]. split; [tauto |].
    intros [| [| [| [| [| i]]]]] H; cbn in H; first [discriminate H | reflexivity]. }
  cbn. eexists. split; [reflexivity |]. cbn.
  split; [tauto |]. split; [reflexivity |]. split; [reflexivity |].
  intros [| [| [| [| [| i]]]]] H; cbn in H;
    first [discriminate H | injection H as H; congruence].
Qed.

(** *** The grid *)

Lemma Int_part_IZR (k : Z) : Int_part (IZR k) = k.
Proof.
  unfold Int_part.
  assert (H : (k + 1)%Z = up (IZR k)).
  { apply tech_up; rewrite plus_IZR; lra. }
  rewrite <- H. lia.
Qed.

Lemma round_IZR (k : Z) : Builtins.round (IZR k) = k.
Proof.
  unfold Builtins.round, frac_part. rewrite Int_part_IZR.
  rewrite ltb_true by lra. reflexivity.
Qed.

Lemma round_near (x : R) : Rabs (IZR (Builtins.round x) - x) <= 1/2.
Proof.
  unfold Builtins.round.
  pose proof (base_fp x) as [Hlo Hhi].
  assert (Hx : x = IZR (Int_part x) + frac_part x) by (unfold frac_part; lra).
  set (n := Int_part x) in *. set (r := frac_part x) in *.
  apply Rabs_le.
  destruct (Rlt_dec r (1/2)) as [H | H].
  - rewrite ltb_true by assumption. lra.
  - rewrite (ltb_false r) by lra.
    destruct (Rlt_dec (1/2) r) as [H' | H'].
    + rewrite ltb_true by assumption. rewrite plus_IZR. lra.
    + rewrite ltb_false by lra.
      destruct (Z.even n); [| rewrite plus_IZR]; lra.
Qed.

Lemma snap_near (g x : R) : 0 < g -> Rabs (CADSystem.snap g x - x) <= g / 2.
Proof.
  intros Hg. unfold CADSystem.snap.
  replace (IZR (Builtins.round (x / g)) * g - x)
    with ((IZR (Builtins.round (x / g)) - x / g) * g) by (field; lra).
  rewrite Rabs_mult, (Rabs_pos_eq g) by lra.
  pose proof (round_near (x / g)). nra.
Qed.

Lemma snap_grid_point (g : R) (k : Z) : g <> 0 -> CADSystem.snap g (IZR k * g) = IZR k * g.
Proof.
  intros Hg. unfold CADSystem.snap.
  replace (IZR k * g / g) with (IZR k) by (field; exact Hg).
  rewrite round_IZR. reflexivity.
Qed.

Lemma snap_snap (g x : R) :
  g <> 0 -> CADSystem.snap g (CADSystem.snap g x) = CADSystem.snap g x.
Proof.
  intros Hg. unfold CADSystem.snap at 2 3. apply snap_grid_point, Hg.
Qed.

(** X30: with a positive grid size [snap_position_to_grid] returns a point
    whose coordinates are whole multiples of the grid size, each within
    half a grid size of the coordinate given, and snapping that point
    again gives the same point. *)
Theorem snap_is_nearest_grid_point (self : CADSystem.t) (position : Vec3) :
  0 < CADSystem.grid_size self ->
  exists snapped i j k,
    CADSystem.snap_position_to_grid self position = Some snapped /\
    snapped = mkVec3 (IZR i * CADSystem.grid_size self)
                     (IZR j * CADSystem.grid_size self)
                     (IZR k * CADSystem.grid_size self) /\
    Rabs (lx snapped - lx position) <= CADSystem.grid_size self / 2 /\
    Rabs (ly snapped - ly position) <= CADSystem.grid_size self / 2 /\
    Rabs (lz snapped - lz position) <= CADSystem.grid_size self / 2 /\
    CADSystem.snap_position_to_grid self snapped = Some snapped.
Proof.
  intros Hg. unfold CADSystem.snap_position_to_grid.
  rewrite eqb_false by lra.
  eexists _, _, _, _. split; [reflexivity |]. split; [reflexivity |].
  cbn [lx ly lz].
  repeat (split; [apply snap_near; exact Hg |]).
  rewrite !snap_snap by lra. reflexivity.
Qed.

(** The grid of the constructor, of size 0.5. *)
Lemma snap_is_nearest_grid_point_witness :
  0 < CADSystem.grid_size CADSystem.init /\
  exists snapped,
    CADSystem.snap_position_to_grid CADSystem.init (mkVec3 (7/10) (1/10) (-3)) = Some snapped /\
    Rabs (lx snapped - 7/10) <= CADSystem.grid_size CADSystem.init / 2 /\
    CADSystem.snap_position_to_grid CADSystem.init snapped = Some snapped.
Proof.
  assert (Hg : 0 < CADSystem.grid_size CADSystem.init) by (cbn; lra).
  split; [exact Hg |].
  destruct (snap_is_nearest_grid_point CADSystem.init (mkVec3 (7/10) (1/10) (-3)) Hg)
    as [snapped [i [j [k [Hs [_ [Hx [_ [_ Hidem]]]]]]]]].
  exists snapped. split; [exact Hs |]. split; [exact Hx | exact Hidem].
Defined.
